(** * Shallow embedding of the shioaji-api-dashboard trading backend

    The development follows the Python sources:
    - [trading_queue.py]: the [TradingRequest] / [TradingResponse] records and
      their JSON encoding;
    - [trading_worker.py]: the per-tenant worker, its connection table and the
      request dispatcher;
    - [admin/tenant_service.py] and [orchestrator/worker_manager.py]: the
      isolation-slot (Redis database) allocator and the worker lifecycle.

    Python values are modelled by [pyval], JSON documents by [json]; a Python
    [float] is an IEEE 754 binary64 value in the [spec_float] form of the
    Standard Library (53-bit significands, infinities at exponent 1024). External
    services (the Shioaji SDK, Docker, the SQL session) are modelled by oracle
    records passed explicitly to the functions that call them. *)

From Stdlib Require Import String Ascii List ZArith Bool Lia SpecFloat.
Set Warnings "-register-all".
Import ListNotations.
Open Scope string_scope.
Open Scope Z_scope.

(* ------------------------------------------------------------------ *)
(** ** Python values and Python equality *)

Inductive pyval : Type :=
| PNone
| PBool (b : bool)
| PInt (z : Z)
| PFloat (f : spec_float)
| PStr (s : string)
| PList (xs : list pyval)
| PTuple (xs : list pyval)
| PDict (kvs : list (pyval * pyval)).

(** Numeric view used by [==] and arithmetic: [bool] is a subclass of [int]. *)
Definition as_int (v : pyval) : option Z :=
  match v with
  | PBool true => Some 1
  | PBool false => Some 0
  | PInt z => Some z
  | _ => None
  end.

(** [float == int], exactly (no rounding of the int): a finite float
    [+-m * 2^e] equals [z] when [z * 2^-e = +-m]. *)
Definition float_eq_Z (f : spec_float) (z : Z) : bool :=
  match f with
  | S754_zero _ => Z.eqb z 0
  | S754_finite s m e =>
      let v := if s then Zneg m else Zpos m in
      if Z.leb 0 e then Z.eqb z (v * 2 ^ e) else Z.eqb (z * 2 ^ (- e)) v
  | S754_infinity _ | S754_nan => false
  end.

(** [a == b] on the values above (dicts compare as unordered mappings,
    lists and tuples never compare equal to each other). *)
Fixpoint pyeq (a b : pyval) {struct a} : bool :=
  let fix seq_eq (xs ys : list pyval) : bool :=
      match xs, ys with
      | [], [] => true
      | x :: xs', y :: ys' => pyeq x y && seq_eq xs' ys'
      | _, _ => false
      end in
  let fix dict_sub (kvs : list (pyval * pyval)) (other : list (pyval * pyval)) : bool :=
      match kvs with
      | [] => true
      | (k, v) :: rest =>
          existsb (fun kv' => pyeq k (fst kv') && pyeq v (snd kv')) other
          && dict_sub rest other
      end in
  match a, b with
  | PNone, PNone => true
  | (PBool _ | PInt _), (PBool _ | PInt _) =>
      match as_int a, as_int b with
      | Some x, Some y => Z.eqb x y
      | _, _ => false
      end
  | PFloat f, PFloat g => SFeqb f g
  | PFloat f, (PBool _ | PInt _) =>
      match as_int b with Some y => float_eq_Z f y | None => false end
  | (PBool _ | PInt _), PFloat g =>
      match as_int a with Some x => float_eq_Z g x | None => false end
  | PStr s, PStr t => String.eqb s t
  | PList xs, PList ys => seq_eq xs ys
  | PTuple xs, PTuple ys => seq_eq xs ys
  | PDict xs, PDict ys => Nat.eqb (length xs) (length ys) && dict_sub xs ys
  | _, _ => false
  end.

(** Decimal rendering of an integer, as [str(int)]. *)
Fixpoint digits_of (fuel : nat) (n : Z) (acc : string) : string :=
  match fuel with
  | O => acc
  | S f =>
      let d := Z.modulo n 10 in
      let acc' := String (ascii_of_nat (48 + Z.to_nat d)) acc in
      if Z.ltb n 10 then acc' else digits_of f (Z.div n 10) acc'
  end.

Definition Z_to_dec (z : Z) : string :=
  let body := digits_of (Pos.size_nat (Z.to_pos (Z.abs z + 1))) (Z.abs z) "" in
  if Z.ltb z 0 then "-" ++ body else body.

(* ------------------------------------------------------------------ *)
(** ** [float]: binary64 format, [repr], conversion from [int] *)

Definition prec64 : Z := 53.
Definition emax64 : Z := 1024.

(** [a * 2^ea] compared with [b * 10^eb], exactly. *)
Definition cmp_bin_dec (a ea b eb : Z) : comparison :=
  Z.compare (a * 2 ^ Z.max ea 0 * 10 ^ Z.max (- eb) 0)
            (b * 10 ^ Z.max eb 0 * 2 ^ Z.max (- ea) 0).

(** Number of decimal digits of a positive integer. *)
Definition ndigits (n : Z) : Z := Z.of_nat (String.length (Z_to_dec n)).

(** The shortest decimal [D * 10^K] that reads back as the finite float
    [m * 2^e] (binary64, canonical), the closest one among those of that
    length, ties to an even [D]: the digits of David Gay's [dtoa] in mode 0,
    which [float.__repr__] uses. *)
Definition shortest_digits (m : positive) (e : Z) : Z * Z :=
  let E := e - 2 in
  let a := 4 * Zpos m in
  let lo := if Z.eqb (Zpos m) (2 ^ (prec64 - 1)) && Z.ltb (3 - emax64 - prec64) e
            then a - 1 else a - 2 in
  let hi := a + 2 in
  let even := Z.even (Zpos m) in
  let inside D K :=
      match cmp_bin_dec lo E D K, cmp_bin_dec hi E D K with
      | Lt, Gt => true
      | Eq, Gt | Lt, Eq => even
      | _, _ => false
      end in
  (* [t = floor(log10 (a * 2^E))] *)
  let num := a * 2 ^ Z.max E 0 in
  let den := 2 ^ Z.max (- E) 0 in
  let t0 := ndigits num - ndigits den in
  let t := match cmp_bin_dec a E 1 t0 with Lt => t0 - 1 | _ => t0 end in
  let fix go (fuel : nat) (n : Z) : Z * Z :=
      let K := t - n + 1 in
      let Dl := (num * 10 ^ Z.max (- K) 0) / (den * 10 ^ Z.max K 0) in
      let Dh := Dl + 1 in
      let pick :=
          match inside Dl K, inside Dh K with
          | true, true =>
              (* distances: a*2^E - Dl*10^K against Dh*10^K - a*2^E, doubled *)
              match Z.compare (2 * (num * 10 ^ Z.max (- K) 0) - (Dl + Dh) * (den * 10 ^ Z.max K 0)) 0 with
              | Lt => Some Dl
              | Gt => Some Dh
              | Eq => Some (if Z.even Dl then Dl else Dh)
              end
          | true, false => Some Dl
          | false, true => Some Dh
          | false, false => None
          end in
      match pick, fuel with
      | Some D, _ => (D, K)
      | None, O => (Dl, K)
      | None, S f => go f (n + 1)
      end in
  go 17%nat 1.

(** Drop trailing zeros: [D * 10^K] with [D] not a multiple of 10. *)
Fixpoint strip_zeros (fuel : nat) (D K : Z) : Z * Z :=
  match fuel with
  | O => (D, K)
  | S f => if (D >? 0) && (D mod 10 =? 0) then strip_zeros f (D / 10) (K + 1) else (D, K)
  end.

Fixpoint zeros (n : nat) : string :=
  match n with O => "" | S k => String "0" (zeros k) end.

(** [float.__repr__] ([format_float_short] with mode [r]): positional
    notation for [-4 < decpt <= 16] with a trailing [.0] on integers,
    exponent notation otherwise. *)
Definition float_repr (f : spec_float) : string :=
  match f with
  | S754_nan => "nan"
  | S754_infinity s => if s then "-inf" else "inf"
  | S754_zero s => if s then "-0.0" else "0.0"
  | S754_finite s m e =>
      let '(D0, K0) := shortest_digits m e in
      let '(D, K) := strip_zeros 400 D0 K0 in
      let digits := Z_to_dec D in
      let nd := String.length digits in
      let decpt := Z.of_nat nd + K in
      let body :=
          if (decpt <=? -4) || (16 <? decpt) then
            let ex := decpt - 1 in
            let mant := match digits with
                        | String c EmptyString => String c EmptyString
                        | String c r => String c ("." ++ r)
                        | EmptyString => EmptyString
                        end in
            mant ++ "e" ++ (if ex <? 0 then "-" else "+")
                 ++ (if Z.abs ex <? 10 then "0" else "") ++ Z_to_dec (Z.abs ex)
          else if decpt <=? 0 then
            "0." ++ zeros (Z.to_nat (- decpt)) ++ digits
          else if Z.of_nat nd <=? decpt then
            digits ++ zeros (Z.to_nat (decpt - Z.of_nat nd)) ++ ".0"
          else
            substring 0 (Z.to_nat decpt) digits ++ "." ++
            substring (Z.to_nat decpt) (nd - Z.to_nat decpt) digits
      in (if s then "-" else "") ++ body
  end.

(** [float(z)] for an int, rounded to nearest even; [None] is the
    [OverflowError] "int too large to convert to float". *)
Definition float_of_Z (z : Z) : option spec_float :=
  match binary_normalize prec64 emax64 z 0 false with
  | S754_infinity _ => None
  | f => Some f
  end.

(* ------------------------------------------------------------------ *)
(** ** JSON documents and the [json] module *)

Inductive json : Type :=
| JNull
| JBool (b : bool)
| JNum (z : Z)
| JFloat (f : spec_float)
| JStr (s : string)
| JArr (xs : list json)
| JObj (kvs : list (string * json)).

(** Keys accepted by [json.dumps] (with [skipkeys=False]): str, float, int,
    bool and None are coerced to strings (a float by [float.__repr__], or
    [NaN], [Infinity], [-Infinity]), anything else raises [TypeError]. *)
Definition dump_key (k : pyval) : option string :=
  match k with
  | PStr s => Some s
  | PFloat f =>
      match f with
      | S754_nan => Some "NaN"
      | S754_infinity s => Some (if s then "-Infinity" else "Infinity")
      | _ => Some (float_repr f)
      end
  | PInt z => Some (Z_to_dec z)
  | PBool true => Some "true"
  | PBool false => Some "false"
  | PNone => Some "null"
  | _ => None
  end.

(** [None] as soon as one element has no image. *)
Fixpoint traverse {A B} (f : A -> option B) (xs : list A) : option (list B) :=
  match xs with
  | [] => Some []
  | x :: r =>
      match f x, traverse f r with
      | Some y, Some ys => Some (y :: ys)
      | _, _ => None
      end
  end.

(** [json.dumps]; [None] stands for the [TypeError] it raises. Lists and
    tuples are both written as arrays. A float is written by
    [float.__repr__] ([NaN], [Infinity], [-Infinity] for the special values),
    which [json.loads] reads back as the same binary64 value: the document
    keeps the value itself. *)
Fixpoint dumps (v : pyval) : option json :=
  match v with
  | PNone => Some JNull
  | PBool b => Some (JBool b)
  | PInt z => Some (JNum z)
  | PFloat f => Some (JFloat f)
  | PStr s => Some (JStr s)
  | PList xs => option_map JArr (traverse dumps xs)
  | PTuple xs => option_map JArr (traverse dumps xs)
  | PDict kvs =>
      option_map JObj
        (traverse (fun kv => match dump_key (fst kv), dumps (snd kv) with
                             | Some s, Some j => Some (s, j)
                             | _, _ => None
                             end) kvs)
  end.

(** [d[k] = v] on a dict whose keys are strings: a present key keeps its
    position and takes the new value, a new key is appended. *)
Fixpoint dict_set_str (d : list (pyval * pyval)) (k : string) (v : pyval)
  : list (pyval * pyval) :=
  match d with
  | [] => [(PStr k, v)]
  | (k', v') :: r =>
      match k' with
      | PStr s => if String.eqb s k then (k', v) :: r
                  else (k', v') :: dict_set_str r k v
      | _ => (k', v') :: dict_set_str r k v
      end
  end.

(** [json.loads]: arrays become lists; an object is decoded into its list of
    pairs and then turned into a dict pair by pair, as [dict(pairs)] does (a
    repeated key keeps the last value). *)
Definition dict_of_pairs (pairs : list (string * pyval)) : list (pyval * pyval) :=
  fold_left (fun acc kv => dict_set_str acc (fst kv) (snd kv)) pairs [].

Fixpoint loads (j : json) : pyval :=
  match j with
  | JNull => PNone
  | JBool b => PBool b
  | JNum z => PInt z
  | JFloat f => PFloat f
  | JStr s => PStr s
  | JArr xs => PList (map loads xs)
  | JObj kvs => PDict (dict_of_pairs (map (fun kv => (fst kv, loads (snd kv))) kvs))
  end.

(* ------------------------------------------------------------------ *)
(** ** [TradingRequest] and [TradingResponse] (trading_queue.py) *)

Module Req.
Record t : Type := mk {
    request_id : string;
    operation : string;
    simulation : bool;
    params : pyval
  }.
End Req.

Module Resp.
Record t : Type := mk {
    request_id : string;
    success : bool;
    data : pyval;            (* [None] is [PNone] *)
    error : option string
  }.
End Resp.

Definition py_opt_str (o : option string) : pyval :=
  match o with None => PNone | Some s => PStr s end.

(** [dataclasses.asdict]: the fields in declaration order; field values hold
    no dataclass, so the recursive copy returns them unchanged. *)
Definition asdict_req (r : Req.t) : pyval :=
  PDict [(PStr "request_id", PStr (Req.request_id r));
         (PStr "operation", PStr (Req.operation r));
         (PStr "simulation", PBool (Req.simulation r));
         (PStr "params", Req.params r)].

Definition asdict_resp (r : Resp.t) : pyval :=
  PDict [(PStr "request_id", PStr (Resp.request_id r));
         (PStr "success", PBool (Resp.success r));
         (PStr "data", Resp.data r);
         (PStr "error", py_opt_str (Resp.error r))].

(** [to_json]: [json.dumps(asdict(self))]; [None] is the [TypeError] raised
    on a value [json] cannot encode. The document is kept as a tree: the text
    layer of the [json] module is not part of this repository. *)
Definition to_json_req (r : Req.t) : option json := dumps (asdict_req r).
Definition to_json_resp (r : Resp.t) : option json := dumps (asdict_resp r).

(** Keyword arguments of [cls( **d)]. *)
Definition kwarg (d : list (pyval * pyval)) (name : string) : option pyval :=
  option_map snd (find (fun kv => match fst kv with
                                  | PStr s => String.eqb s name
                                  | _ => false end) d).

Definition kwargs_known (fields : list string) (d : list (pyval * pyval)) : bool :=
  forallb (fun kv => match fst kv with
                     | PStr s => existsb (String.eqb s) fields
                     | _ => false end) d.

(** [from_json]: [cls( **json.loads(data))]. [None] is the [TypeError] of an
    unknown or missing keyword. The dataclass does not check its annotations;
    a decoded field of another type than the annotated one is outside this
    typed model and is also [None]. *)
Definition from_json_req (j : json) : option Req.t :=
  match loads j with
  | PDict d =>
      if kwargs_known ["request_id"; "operation"; "simulation"; "params"] d then
        match kwarg d "request_id", kwarg d "operation",
              kwarg d "simulation", kwarg d "params" with
        | Some (PStr rid), Some (PStr op), Some (PBool sim), Some ps =>
            Some (Req.mk rid op sim ps)
        | _, _, _, _ => None
        end
      else None
  | _ => None
  end.

Definition from_json_resp (j : json) : option Resp.t :=
  match loads j with
  | PDict d =>
      if kwargs_known ["request_id"; "success"; "data"; "error"] d then
        let data := match kwarg d "data" with Some v => v | None => PNone end in
        let err := match kwarg d "error" with
                   | None | Some PNone => Some None
                   | Some (PStr s) => Some (Some s)
                   | Some _ => None
                   end in
        match kwarg d "request_id", kwarg d "success", err with
        | Some (PStr rid), Some (PBool ok), Some e => Some (Resp.mk rid ok data e)
        | _, _, _ => None
        end
      else None
  | _ => None
  end.

Definition roundtrip_req (r : Req.t) : option Req.t :=
  match to_json_req r with Some j => from_json_req j | None => None end.






(* ------------------------------------------------------------------ *)
(** ** Exceptions, [str()] and string helpers (trading_worker.py) *)

(** The exceptions that reach the worker's handlers. SDK exceptions carry the
    message the SDK gave them. *)
Inductive exn : Type :=
| TokenError (msg : string)
| SystemMaintenance (msg : string)
| SjTimeoutError (msg : string)          (* shioaji.error.TimeoutError *)
| TargetContractNotExistError (msg : string)
| AccountNotSignError (msg : string)
| AccountNotProvideError (msg : string)
| ValueError (msg : string)
| KeyError (key : string)
| AttributeError (msg : string)
| TypeError (msg : string)
| OtherError (name msg : string).

(** [type(e).__name__] *)
Definition exn_type_name (e : exn) : string :=
  match e with
  | TokenError _ => "TokenError"
  | SystemMaintenance _ => "SystemMaintenance"
  | SjTimeoutError _ => "TimeoutError"
  | TargetContractNotExistError _ => "TargetContractNotExistError"
  | AccountNotSignError _ => "AccountNotSignError"
  | AccountNotProvideError _ => "AccountNotProvideError"
  | ValueError _ => "ValueError"
  | KeyError _ => "KeyError"
  | AttributeError _ => "AttributeError"
  | TypeError _ => "TypeError"
  | OtherError n _ => n
  end.

(** [str(e)]; a [KeyError] prints the repr of its key. *)
Definition exn_str (e : exn) : string :=
  match e with
  | TokenError m | SystemMaintenance m | SjTimeoutError m
  | TargetContractNotExistError m | AccountNotSignError m
  | AccountNotProvideError m | ValueError m | AttributeError m
  | TypeError m | OtherError _ m => m
  | KeyError k => "'" ++ k ++ "'"
  end.

Inductive result (A : Type) : Type :=
| Ok (a : A)
| Raise (e : exn).
Arguments Ok {A} a.
Arguments Raise {A} e.

Definition bind {A B} (m : result A) (f : A -> result B) : result B :=
  match m with Ok a => f a | Raise e => Raise e end.

Notation "'let*' x := m 'in' f" := (bind m (fun x => f))
  (at level 200, x name, m at level 100, f at level 200).

Definition py_type_name (v : pyval) : string :=
  match v with
  | PNone => "NoneType" | PBool _ => "bool" | PInt _ => "int" | PFloat _ => "float"
  | PStr _ => "str"
  | PList _ => "list" | PTuple _ => "tuple" | PDict _ => "dict"
  end.

Fixpoint join (sep : string) (xs : list string) : string :=
  match xs with
  | [] => ""
  | [x] => x
  | x :: r => x ++ sep ++ join sep r
  end.

(** [repr(v)] (string escapes are not rendered). *)
Fixpoint py_repr (v : pyval) : string :=
  let fix reprs (xs : list pyval) : list string :=
      match xs with [] => [] | x :: r => py_repr x :: reprs r end in
  let fix item_reprs (kvs : list (pyval * pyval)) : list string :=
      match kvs with
      | [] => []
      | (k, x) :: r => (py_repr k ++ ": " ++ py_repr x) :: item_reprs r
      end in
  match v with
  | PNone => "None"
  | PBool true => "True"
  | PBool false => "False"
  | PInt z => Z_to_dec z
  | PFloat f => float_repr f
  | PStr s => "'" ++ s ++ "'"
  | PList xs => "[" ++ join ", " (reprs xs) ++ "]"
  | PTuple [x] => "(" ++ py_repr x ++ ",)"
  | PTuple xs => "(" ++ join ", " (reprs xs) ++ ")"
  | PDict kvs => "{" ++ join ", " (item_reprs kvs) ++ "}"
  end.

(** [str(v)], as used by f-strings. *)
Definition py_str (v : pyval) : string :=
  match v with PStr s => s | _ => py_repr v end.

Definition ascii_lower (c : ascii) : ascii :=
  let n := nat_of_ascii c in
  if andb (Nat.leb 65 n) (Nat.leb n 90) then ascii_of_nat (n + 32) else c.

Definition ascii_upper (c : ascii) : ascii :=
  let n := nat_of_ascii c in
  if andb (Nat.leb 97 n) (Nat.leb n 122) then ascii_of_nat (n - 32) else c.

Fixpoint str_map (f : ascii -> ascii) (s : string) : string :=
  match s with
  | EmptyString => EmptyString
  | String c r => String (f c) (str_map f r)
  end.

Definition lower (s : string) : string := str_map ascii_lower s.
Definition upper (s : string) : string := str_map ascii_upper s.

Fixpoint prefixb (p s : string) : bool :=
  match p, s with
  | EmptyString, _ => true
  | String c p', String d s' => Ascii.eqb c d && prefixb p' s'
  | String _ _, EmptyString => false
  end.

(** [p in s] for strings. *)
Fixpoint containsb (p s : string) : bool :=
  prefixb p s || match s with
                 | EmptyString => false
                 | String _ s' => containsb p s'
                 end.

(** [params[key]] *)
Definition getitem (d : pyval) (key : string) : result pyval :=
  match d with
  | PDict kvs =>
      match find (fun kv => pyeq (PStr key) (fst kv)) kvs with
      | Some (_, v) => Ok v
      | None => Raise (KeyError key)
      end
  | PList _ | PTuple _ | PStr _ =>
      Raise (TypeError (py_type_name d ++ " indices must be integers or slices, not str"))
  | _ => Raise (TypeError ("'" ++ py_type_name d ++ "' object is not subscriptable"))
  end.

(** [params.get(key, default)] *)
Definition py_get (d : pyval) (key : string) (default : pyval) : result pyval :=
  match d with
  | PDict kvs =>
      match find (fun kv => pyeq (PStr key) (fst kv)) kvs with
      | Some (_, v) => Ok v
      | None => Ok default
      end
  | _ => Raise (AttributeError ("'" ++ py_type_name d ++ "' object has no attribute 'get'"))
  end.

(** [v.upper()] *)
Definition py_upper (v : pyval) : result pyval :=
  match v with
  | PStr s => Ok (PStr (upper s))
  | _ => Raise (AttributeError ("'" ++ py_type_name v ++ "' object has no attribute 'upper'"))
  end.

(** [a - b] and [a + b] with an [int] on the right; with a float on the
    left the int is converted first. *)
Definition py_sub (a : pyval) (b : Z) : result pyval :=
  match as_int a, a with
  | Some x, _ => Ok (PInt (x - b))
  | None, PFloat f =>
      match float_of_Z b with
      | Some g => Ok (PFloat (SFsub prec64 emax64 f g))
      | None => Raise (OtherError "OverflowError" "int too large to convert to float")
      end
  | None, _ => Raise (TypeError ("unsupported operand type(s) for -: '" ++ py_type_name a ++ "' and 'int'"))
  end.

Definition py_add (a : pyval) (b : Z) : result pyval :=
  match as_int a, a with
  | Some x, _ => Ok (PInt (x + b))
  | None, PFloat f =>
      match float_of_Z b with
      | Some g => Ok (PFloat (SFadd prec64 emax64 f g))
      | None => Raise (OtherError "OverflowError" "int too large to convert to float")
      end
  | None, _ => Raise (TypeError ("unsupported operand type(s) for +: '" ++ py_type_name a ++ "' and 'int'"))
  end.

(* ------------------------------------------------------------------ *)
(** ** The Shioaji SDK as seen by one session *)

Record contract : Type := { c_symbol : string; c_code : string }.

Inductive side : Type := SideBuy | SideSell | SideOther.

Record position : Type := { p_code : string; p_side : side; p_quantity : Z }.

(** [sj.constant.Action] *)
Inductive action : Type := Buy | Sell.

Definition action_value (a : action) : string :=
  match a with Buy => "Buy" | Sell => "Sell" end.

(** The order passed to [api.place_order]; the remaining arguments of
    [api.Order] are the same constants on every path (price 0.0, MKT, IOC,
    octype Auto, the futures account). *)
Record order : Type := { o_action : action; o_quantity : pyval }.

(** The [order] part of the trade object returned by [place_order]. *)
Record trade : Type := { t_id : string; t_seqno : string; t_ordno : string }.

Definition trade_key (t : trade) : string := t_id t ++ ":" ++ t_seqno t.

Inductive op_kind : Type :=
| OpPing | OpGetSymbols | OpGetSymbolInfo | OpGetContractCodes
| OpGetPositions | OpGetFuturesOverview | OpGetProductContracts
| OpPlaceEntryOrder | OpPlaceExitOrder | OpCheckOrderStatus.

(** What one logged-in session answers. [catalogue] is the payload the
    read-only listing operations (symbols, contract codes, positions, futures
    overview) build from the SDK's contract and position tables;
    [product_contracts] is [getattr(api.Contracts.Futures, product)] mapped
    to the per-contract dicts; [update_status] is the status payload built
    after [api.update_status(trade=...)]. *)
Record sdk : Type := {
  mxf : list contract;
  txf : list contract;
  list_positions : result (list position);
  place_order : contract -> order -> result trade;
  update_status : trade -> result pyval;
  catalogue : op_kind -> result pyval;
  product_contracts : string -> list pyval
}.

(** [trading.get_contract_from_symbol] *)
Definition get_contract_from_symbol (api : sdk) (symbol : pyval) : result contract :=
  let matches c := pyeq (PStr (c_symbol c)) symbol in
  match find matches (mxf api) with
  | Some c => Ok c
  | None =>
      match find matches (txf api) with
      | Some c => Ok c
      | None => Raise (ValueError ("Contract " ++ py_str symbol ++ " not found"))
      end
  end.

(** [trading.get_current_position] followed by [or 0]: long positions are
    positive, short ones negative, no position is 0. *)
Definition get_current_position (api : sdk) (c : contract) : result Z :=
  let* ps := list_positions api in
  match find (fun p => String.eqb (c_code c) (p_code p)) ps with
  | None => Ok 0
  | Some p =>
      match p_side p with
      | SideBuy => Ok (p_quantity p)
      | SideSell => Ok (- p_quantity p)
      | SideOther => Raise (ValueError ("Position " ++ p_code p ++ " has invalid side"))
      end
  end.

(** [self.pending_trades]: a dict from ["order_id:seqno"] to trades. *)
Definition pend := list (string * trade).

Fixpoint assoc_set (d : pend) (k : string) (t : trade) : pend :=
  match d with
  | [] => [(k, t)]
  | (k', t') :: r => if String.eqb k' k then (k, t) :: r else (k', t') :: assoc_set r k t
  end.

Definition assoc_get (d : pend) (k : string) : option trade :=
  option_map snd (find (fun kv => String.eqb (fst kv) k) d).

(** The exceptions the order handlers catch themselves. *)
Definition order_rejection (e : exn) : bool :=
  match e with
  | TargetContractNotExistError _ | AccountNotSignError _ | AccountNotProvideError _ => true
  | _ => false
  end.

Definition fail_resp (rid : string) (msg : string) : Resp.t := Resp.mk rid false PNone (Some msg).

(** A handler's result: the orders sent to [place_order] and either the
    response with the new [pending_trades], or the exception it lets escape. *)
Definition handler_out := (list (contract * order) * result (Resp.t * pend))%type.

(** The [except (TargetContractNotExistError, AccountNotSignError,
    AccountNotProvideError)] clause of both order handlers. *)
Definition catch_rejection (rid : string) (pending : pend) (body : handler_out) : handler_out :=
  (fst body,
   match snd body with
   | Raise e => if order_rejection e then Ok (fail_resp rid (exn_str e), pending) else Raise e
   | ok => ok
   end).

(** Position netting of [_handle_entry_order]. *)
Definition entry_quantity (a : action) (quantity : pyval) (current_position : Z) : result pyval :=
  match a with
  | Buy => if current_position <? 0 then py_sub quantity current_position else Ok quantity
  | Sell => if 0 <? current_position then py_add quantity current_position else Ok quantity
  end.

Definition entry_data (t : trade) (action_str quantity original_quantity : pyval) (c : contract) : pyval :=
  PDict [(PStr "order_id", PStr (t_id t)); (PStr "seqno", PStr (t_seqno t));
         (PStr "ordno", PStr (t_ordno t)); (PStr "action", action_str);
         (PStr "quantity", quantity); (PStr "original_quantity", original_quantity);
         (PStr "symbol", PStr (c_symbol c)); (PStr "code", PStr (c_code c))].

(** [TradingWorker._handle_entry_order] *)
Definition handle_entry_order (api : sdk) (pending : pend) (rid : string) (params : pyval)
  : handler_out :=
  match getitem params "symbol", getitem params "quantity", getitem params "action" with
  | Raise e, _, _ | Ok _, Raise e, _ | Ok _, Ok _, Raise e => ([], Raise e)
  | Ok symbol, Ok quantity, Ok action_str =>
      let a := if pyeq action_str (PStr "Buy") then Buy else Sell in
      catch_rejection rid pending
        match get_contract_from_symbol api symbol with
        | Raise e => ([], Raise e)
        | Ok c =>
          match get_current_position api c with
          | Raise e => ([], Raise e)
          | Ok current_position =>
            match entry_quantity a quantity current_position with
            | Raise e => ([], Raise e)
            | Ok q =>
              let o := {| o_action := a; o_quantity := q |} in
              match place_order api c o with
              | Raise e => ([(c, o)], Raise e)
              | Ok t =>
                  ([(c, o)],
                   Ok (Resp.mk rid true (entry_data t action_str q quantity c) None,
                       assoc_set pending (trade_key t) t))
              end
            end
          end
        end
  end.

(** Direction and size of [_handle_exit_order]; [None] is "No position to
    exit". *)
Definition exit_decision (direction : action) (current_position : Z) : option (action * Z) :=
  match direction with
  | Buy => if 0 <? current_position then Some (Sell, current_position) else None
  | Sell => if current_position <? 0 then Some (Buy, - current_position) else None
  end.

Definition no_position_data : pyval :=
  PDict [(PStr "message", PStr "No position to exit"); (PStr "order_id", PNone)].

Definition exit_data (t : trade) (a : action) (q : Z) (c : contract) : pyval :=
  PDict [(PStr "order_id", PStr (t_id t)); (PStr "seqno", PStr (t_seqno t));
         (PStr "ordno", PStr (t_ordno t)); (PStr "action", PStr (action_value a));
         (PStr "quantity", PInt q); (PStr "symbol", PStr (c_symbol c));
         (PStr "code", PStr (c_code c))].

(** [TradingWorker._handle_exit_order] *)
Definition handle_exit_order (api : sdk) (pending : pend) (rid : string) (params : pyval)
  : handler_out :=
  match getitem params "symbol", getitem params "position_direction" with
  | Raise e, _ | Ok _, Raise e => ([], Raise e)
  | Ok symbol, Ok position_direction =>
      let direction := if pyeq position_direction (PStr "Buy") then Buy else Sell in
      catch_rejection rid pending
        match get_contract_from_symbol api symbol with
        | Raise e => ([], Raise e)
        | Ok c =>
          match get_current_position api c with
          | Raise e => ([], Raise e)
          | Ok current_position =>
            match exit_decision direction current_position with
            | None => ([], Ok (Resp.mk rid true no_position_data None, pending))
            | Some (a, q) =>
              let o := {| o_action := a; o_quantity := PInt q |} in
              match place_order api c o with
              | Raise e => ([(c, o)], Raise e)
              | Ok t =>
                  ([(c, o)],
                   Ok (Resp.mk rid true (exit_data t a q c) None,
                       assoc_set pending (trade_key t) t))
              end
            end
          end
        end
  end.

(* ------------------------------------------------------------------ *)
(** ** Worker state, connection management and dispatch *)

(** A value per connection mode: [simulation=True] first, real second. *)
Definition per_mode (A : Type) := (A * A)%type.

Definition mode_get {A} (m : bool) (p : per_mode A) : A := if m then fst p else snd p.
Definition mode_set {A} (m : bool) (x : A) (p : per_mode A) : per_mode A :=
  if m then (x, snd p) else (fst p, x).

(** [self.api_clients], [self._invalidating], [self.pending_trades]. A
    session is named by the number of the login that created it
    ([next_session] counts logins); [_last_successful_request] only feeds the
    idle health check and is not kept. *)
Record wstate : Type := {
  api_clients : per_mode (option nat);
  invalidating : per_mode bool;
  pending_trades : pend;
  next_session : nat
}.

Definition set_clients (m : bool) (x : option nat) (st : wstate) : wstate :=
  {| api_clients := mode_set m x (api_clients st); invalidating := invalidating st;
     pending_trades := pending_trades st; next_session := next_session st |}.

Definition set_invalidating (m : bool) (b : bool) (st : wstate) : wstate :=
  {| api_clients := api_clients st; invalidating := mode_set m b (invalidating st);
     pending_trades := pending_trades st; next_session := next_session st |}.

Definition set_pending (p : pend) (st : wstate) : wstate :=
  {| api_clients := api_clients st; invalidating := invalidating st;
     pending_trades := p; next_session := next_session st |}.

Definition new_session (m : bool) (st : wstate) : nat * wstate :=
  (next_session st,
   {| api_clients := mode_set m (Some (next_session st)) (api_clients st);
      invalidating := invalidating st; pending_trades := pending_trades st;
      next_session := S (next_session st) |}).

Definition initial_state : wstate :=
  {| api_clients := (None, None); invalidating := (false, false);
     pending_trades := []; next_session := 0 |}.

(** The connection part of the worker's state: both modes' sessions, the
    invalidation flags and the login counter. *)
Definition conn_state (st : wstate) : per_mode (option nat) * per_mode bool * nat :=
  (api_clients st, invalidating st, next_session st).

(** How the sign-off thread of [_invalidate_connection] ends. *)
Inductive logout_outcome : Type :=
| LogoutDone
| LogoutFailed (e : exn)
| LogoutTimedOut.

(** Everything the worker reads from outside while serving one request. *)
Record env : Type := {
  dev_mock : bool;                       (* DEV_MOCK_MODE *)
  credentials_present : bool;            (* API_KEY/SECRET_KEY readable *)
  login_attempt : bool -> nat -> option exn;  (* attempt k: [None] = logged in *)
  logout : logout_outcome;
  session_api : bool -> nat -> sdk;      (* what a session answers *)
  mock_millis : Z;                       (* int(time.time() * 1000) *)
  mock_random : Z                        (* random.randint(100000, 999999) *)
}.

Definition MAX_RECONNECT_ATTEMPTS : nat := 10.
Definition CONNECTION_LOGOUT_TIMEOUT : Z := 3.

(** The [for attempt in range(1, MAX_RECONNECT_ATTEMPTS + 1)] loop of
    [_get_api_client]; the sleep between attempts is not modelled. *)
Fixpoint login_loop (E : env) (m : bool) (st : wstate) (fuel attempt : nat)
  : result (nat * wstate) :=
  match fuel with
  | O => Raise (OtherError "RuntimeError" "Failed to connect to Shioaji after max attempts")
  | S f =>
      match login_attempt E m attempt with
      | None => Ok (new_session m st)
      | Some e => if Nat.ltb attempt MAX_RECONNECT_ATTEMPTS
                  then login_loop E m st f (S attempt) else Raise e
      end
  end.

(** [TradingWorker._get_api_client] *)
Definition get_api_client (E : env) (st : wstate) (m : bool) : result (nat * wstate) :=
  match mode_get m (api_clients st) with
  | Some s => Ok (s, st)
  | None =>
      if negb (credentials_present E) then
        Raise (ValueError ("API credentials not found. Set API_KEY/SECRET_KEY environment variables "
                           ++ "or API_KEY_FILE/SECRET_KEY_FILE for Docker secrets."))
      else login_loop E m st MAX_RECONNECT_ATTEMPTS 1
  end.

(** [TradingWorker._invalidate_connection], with the log line the sign-off
    outcome produces. The reference is cleared before the sign-off starts; the
    flag is reset in the [finally] clause whatever the outcome. *)
Definition invalidate_connection (E : env) (st : wstate) (m : bool) : wstate * list string :=
  if mode_get m (invalidating st) then (st, ["Already invalidating"])
  else
    match mode_get m (api_clients st) with
    | None => (st, ["No connection to invalidate"])
    | Some _ =>
        let st1 := set_clients m None (set_invalidating m true st) in
        let log := match logout E with
                   | LogoutDone => "Logout completed successfully"
                   | LogoutFailed e => "Logout completed with error: " ++ exn_str e
                   | LogoutTimedOut => "Logout timed out, abandoning old connection"
                   end in
        (set_invalidating m false st1, [log; "connection invalidated, will reconnect on next request"])
    end.

Definition connection_error_patterns : list string :=
  ["token is expired"; "token expired"; "status_code': 401"; "statuscode: 401";
   "not ready"; "session down"; "connection refused"; "connection reset"].

Definition is_connection_error (e : exn) : bool :=
  existsb (fun p => containsb p (lower (exn_str e))) connection_error_patterns.

Inductive err_kind : Type := ConnectionFault | BusinessRejection.

(** The classification made by the two [except] clauses of [_handle_request]. *)
Definition classify (e : exn) : err_kind :=
  match e with
  | TokenError _ | SystemMaintenance _ | SjTimeoutError _ => ConnectionFault
  | _ => if is_connection_error e then ConnectionFault else BusinessRejection
  end.

Definition parse_op (s : string) : option op_kind :=
  if String.eqb s "ping" then Some OpPing
  else if String.eqb s "get_symbols" then Some OpGetSymbols
  else if String.eqb s "get_symbol_info" then Some OpGetSymbolInfo
  else if String.eqb s "get_contract_codes" then Some OpGetContractCodes
  else if String.eqb s "get_positions" then Some OpGetPositions
  else if String.eqb s "get_futures_overview" then Some OpGetFuturesOverview
  else if String.eqb s "get_product_contracts" then Some OpGetProductContracts
  else if String.eqb s "place_entry_order" then Some OpPlaceEntryOrder
  else if String.eqb s "place_exit_order" then Some OpPlaceExitOrder
  else if String.eqb s "check_order_status" then Some OpCheckOrderStatus
  else None.

(** What handling one request did: the response (or the exception that
    escaped), the new state, the session the request ran against, the
    orders sent to the broker, and the exception caught by the [except]
    clauses of [_handle_request], if any. *)
Record outcome : Type := {
  out_resp : result Resp.t;
  out_state : wstate;
  out_session : option nat;
  out_orders : list (contract * order);
  out_caught : option exn
}.

(** The response data of the development mock handler for the listing
    operations: constant catalogue payloads (product names abridged). *)
Definition mock_contract (p code : string) : pyval :=
  PDict [(PStr "symbol", PStr p); (PStr "code", PStr code)].

Definition mock_catalogue (op : op_kind) : pyval :=
  match op with
  | OpGetSymbols =>
      PDict [(PStr "symbols", PList [mock_contract "MXF" "MXFF5"; mock_contract "TXF" "TXFF5"]);
             (PStr "count", PInt 2)]
  | OpGetContractCodes =>
      PDict [(PStr "contracts", PList [PStr "MXFF5"; PStr "TXFF5"; PStr "MXFG5"; PStr "TXFG5"]);
             (PStr "count", PInt 4)]
  | OpGetPositions => PDict [(PStr "positions", PList []); (PStr "count", PInt 0)]
  | _ =>
      PDict [(PStr "products",
              PList [PDict [(PStr "product", PStr "MXF");
                            (PStr "contracts", PList [mock_contract "MXF" "MXFF5"]);
                            (PStr "count", PInt 1)];
                     PDict [(PStr "product", PStr "TXF");
                            (PStr "contracts", PList [mock_contract "TXF" "TXFF5"]);
                            (PStr "count", PInt 1)]])]
  end.

(** [TradingWorker._handle_mock_request]. It has no [try]: an exception
    raised here leaves [_handle_request]. *)
Definition handle_mock_request (E : env) (req : Req.t) : result Resp.t :=
  let rid := Req.request_id req in
  let params := Req.params req in
  let succ d := Resp.mk rid true d None in
  let order_id := PStr ("mock-" ++ Z_to_dec (mock_millis E)) in
  let rnd := Z_to_dec (mock_random E) in
  match parse_op (Req.operation req) with
  | Some OpPing =>
      Ok (succ (PDict [(PStr "status", PStr "healthy");
                       (PStr "simulation", PBool (Req.simulation req));
                       (PStr "mock", PBool true)]))
  | Some ((OpGetSymbols | OpGetContractCodes | OpGetPositions | OpGetFuturesOverview) as op) =>
      Ok (succ (mock_catalogue op))
  | Some OpGetSymbolInfo =>
      let* symbol := py_get params "symbol" (PStr "MXF") in
      Ok (succ (PDict [(PStr "symbol", symbol); (PStr "code", PStr (py_str symbol ++ "F5"));
                       (PStr "category", PStr "Futures"); (PStr "delivery_month", PStr "202501")]))
  | Some OpGetProductContracts =>
      let* p := py_get params "product" (PStr "MXF") in
      let* product := py_upper p in
      let ps := py_str product in
      Ok (succ (PDict [(PStr "product", product);
                       (PStr "contracts", PList [mock_contract ps (ps ++ "F5");
                                                 mock_contract ps (ps ++ "G5")]);
                       (PStr "count", PInt 2)]))
  | Some OpPlaceEntryOrder =>
      let* symbol := py_get params "symbol" (PStr "MXF") in
      let* quantity := py_get params "quantity" (PInt 1) in
      let* act := py_get params "action" (PStr "Buy") in
      Ok (succ (PDict [(PStr "order_id", order_id); (PStr "seqno", PStr rnd);
                       (PStr "ordno", PStr ("M" ++ rnd)); (PStr "action", act);
                       (PStr "quantity", quantity); (PStr "original_quantity", quantity);
                       (PStr "symbol", symbol); (PStr "code", PStr (py_str symbol ++ "F5"));
                       (PStr "mock", PBool true)]))
  | Some OpPlaceExitOrder =>
      let* symbol := py_get params "symbol" (PStr "MXF") in
      Ok (succ (PDict [(PStr "order_id", order_id); (PStr "seqno", PStr rnd);
                       (PStr "ordno", PStr ("M" ++ rnd)); (PStr "action", PStr "Sell");
                       (PStr "quantity", PInt 1); (PStr "symbol", symbol);
                       (PStr "code", PStr (py_str symbol ++ "F5")); (PStr "mock", PBool true)]))
  | Some OpCheckOrderStatus =>
      let* oid := py_get params "order_id" (PStr "") in
      let* seqno := py_get params "seqno" (PStr "") in
      Ok (succ (PDict [(PStr "status", PStr "Filled"); (PStr "order_id", oid);
                       (PStr "seqno", seqno); (PStr "ordno", PStr ("M" ++ rnd));
                       (PStr "order_quantity", PInt 1); (PStr "deal_quantity", PInt 1);
                       (PStr "cancel_quantity", PInt 0); (PStr "mock", PBool true)]))
  | None => Ok (fail_resp rid ("Unknown operation: " ++ Req.operation req))
  end.

(** The two [except] clauses of [_handle_request]: the response they
    return and the state they leave. *)
Definition except_clauses (E : env) (m : bool) (rid : string) (e : exn) (st0 : wstate)
  : Resp.t * wstate :=
  match e with
  | TokenError _ | SystemMaintenance _ | SjTimeoutError _ =>
      (fail_resp rid ("Connection error (" ++ exn_type_name e ++ "): " ++ exn_str e),
       fst (invalidate_connection E st0 m))
  | _ =>
      if is_connection_error e then
        (fail_resp rid ("Connection error: " ++ exn_str e), fst (invalidate_connection E st0 m))
      else (fail_resp rid (exn_str e), st0)
  end.

(** [TradingWorker._handle_request] *)
Definition handle_request (E : env) (st : wstate) (req : Req.t) : outcome :=
  let m := Req.simulation req in
  let rid := Req.request_id req in
  let params := Req.params req in
  let except (e : exn) (st0 : wstate) (sess : option nat) orders : outcome :=
      let '(r, st') := except_clauses E m rid e st0 in
      {| out_resp := Ok r; out_state := st'; out_session := sess;
         out_orders := orders; out_caught := Some e |} in
  if dev_mock E then
    {| out_resp := handle_mock_request E req; out_state := st; out_session := None;
       out_orders := []; out_caught := None |}
  else
  match get_api_client E st m with
  | Raise e => except e st None []
  | Ok (s, st1) =>
      let api := session_api E m s in
      let done (r : Resp.t) (st' : wstate) orders : outcome :=
          {| out_resp := Ok r; out_state := st'; out_session := Some s;
             out_orders := orders; out_caught := None |} in
      let finish (r : result Resp.t) : outcome :=
          match r with Ok resp => done resp st1 [] | Raise e => except e st1 (Some s) [] end in
      let succ d := Resp.mk rid true d None in
      match parse_op (Req.operation req) with
      | None => done (fail_resp rid ("Unknown operation: " ++ Req.operation req)) st1 []
      | Some OpPing =>
          done (succ (PDict [(PStr "status", PStr "healthy"); (PStr "simulation", PBool m)])) st1 []
      | Some ((OpGetSymbols | OpGetContractCodes | OpGetPositions | OpGetFuturesOverview) as op) =>
          finish (let* d := catalogue api op in Ok (succ d))
      | Some OpGetSymbolInfo =>
          finish (let* symbol := getitem params "symbol" in
                  let* c := get_contract_from_symbol api symbol in
                  Ok (succ (PDict [(PStr "symbol", PStr (c_symbol c));
                                   (PStr "code", PStr (c_code c))])))
      | Some OpGetProductContracts =>
          finish (let* p := getitem params "product" in
                  let* product := py_upper p in
                  let ps := py_str product in
                  match product_contracts api ps with
                  | [] => Ok (fail_resp rid ("Product '" ++ ps ++ "' not found"))
                  | cs => Ok (succ (PDict [(PStr "product", product); (PStr "contracts", PList cs);
                                           (PStr "count", PInt (Z.of_nat (length cs)))]))
                  end)
      | Some OpPlaceEntryOrder =>
          let '(orders, r) := handle_entry_order api (pending_trades st1) rid params in
          match r with
          | Ok (resp, p) => done resp (set_pending p st1) orders
          | Raise e => except e st1 (Some s) orders
          end
      | Some OpPlaceExitOrder =>
          let '(orders, r) := handle_exit_order api (pending_trades st1) rid params in
          match r with
          | Ok (resp, p) => done resp (set_pending p st1) orders
          | Raise e => except e st1 (Some s) orders
          end
      | Some OpCheckOrderStatus =>
          finish (let* oid := getitem params "order_id" in
                  let* seqno := getitem params "seqno" in
                  let key := py_str oid ++ ":" ++ py_str seqno in
                  match assoc_get (pending_trades st1) key with
                  | None => Ok (fail_resp rid ("Trade not found: " ++ key))
                  | Some t =>
                      match update_status api t with
                      | Ok d => Ok (succ d)
                      | Raise e => Ok (fail_resp rid (exn_str e))
                      end
                  end)
      end
  end.

(* ------------------------------------------------------------------ *)
(** ** The worker's main loop ([TradingWorker.run]) *)

Definition REQUEST_QUEUE : string := "trading:requests".
Definition RESPONSE_PREFIX : string := "trading:response:".

(** [trading_queue.get_queue_prefix] *)
Definition get_queue_prefix (tenant_id : string) : string :=
  if String.eqb tenant_id "" then "" else "tenant:" ++ tenant_id ++ ":".

Definition response_key (tenant_id rid : string) : string :=
  get_queue_prefix tenant_id ++ RESPONSE_PREFIX ++ rid.

(** What [blpop] on the request queue returns, one loop iteration each:
    a timeout (the idle health check runs; [stale m] says that the check of
    mode [m] found the connection stale) or a decoded request. *)
Inductive event : Type :=
| Idle (E : env) (stale : bool -> bool)
| Popped (E : env) (r : Req.t).

(** The Redis commands the worker issues. *)
Inductive redis_cmd : Type :=
| RPush (key : string) (doc : json)
| Expire (key : string) (secs : Z).

Definition refresh_mode (E : env) (stale : bool -> bool) (st : wstate) (m : bool) : wstate :=
  match mode_get m (api_clients st) with
  | Some _ => if stale m then fst (invalidate_connection E st m) else st
  | None => st
  end.

(** One iteration of [while self.running]. An exception leaving
    [_handle_request] or [response.to_json()] is caught by the loop's
    [except Exception] and no response is pushed. *)
Definition run_step (tenant_id : string) (st : wstate) (ev : event) : wstate * list redis_cmd :=
  match ev with
  | Idle E stale => (refresh_mode E stale (refresh_mode E stale st true) false, [])
  | Popped E r =>
      let o := handle_request E st r in
      match out_resp o with
      | Raise _ => (out_state o, [])
      | Ok resp =>
          let key := response_key tenant_id (Req.request_id r) in
          match to_json_resp resp with
          | Some doc => (out_state o, [RPush key doc; Expire key 60])
          | None => (out_state o, [])
          end
      end
  end.

Fixpoint run_loop (tenant_id : string) (st : wstate) (evs : list event) : wstate * list redis_cmd :=
  match evs with
  | [] => (st, [])
  | ev :: rest =>
      let '(st1, cmds1) := run_step tenant_id st ev in
      let '(st2, cmds2) := run_loop tenant_id st1 rest in
      (st2, (cmds1 ++ cmds2)%list)
  end.

(** [TradingWorker.run]: the initial simulation login (skipped in mock mode,
    a failure is only logged), the loop, then the shutdown clean-up. *)
Definition run (tenant_id : string) (E0 : env) (evs : list event) : wstate * list redis_cmd :=
  let st0 := if dev_mock E0 then initial_state
             else match get_api_client E0 initial_state true with
                  | Ok (_, st) => st
                  | Raise _ => initial_state
                  end in
  let '(st, cmds) := run_loop tenant_id st0 evs in
  (refresh_mode E0 (fun _ => true) (refresh_mode E0 (fun _ => true) st true) false, cmds).

(* ------------------------------------------------------------------ *)
(** ** Worker instances and the Redis database pool (tenant_service.py) *)

(** [models.tenant.WorkerStatus] *)
Inductive wstatus : Type :=
| PENDING | STARTING | RUNNING | HIBERNATING | STOPPING | STOPPED | ERROR.

Definition wstatus_eqb (a b : wstatus) : bool :=
  match a, b with
  | PENDING, PENDING | STARTING, STARTING | RUNNING, RUNNING
  | HIBERNATING, HIBERNATING | STOPPING, STOPPING | STOPPED, STOPPED
  | ERROR, ERROR => true
  | _, _ => false
  end.

(** A row of [worker_instances] (the columns the lifecycle code touches;
    times are seconds). *)
Record winst : Type := {
  wi_tenant : nat;
  wi_container_id : option string;
  wi_status : wstatus;
  wi_redis_db : Z;
  wi_started_at : option Z;
  wi_stopped_at : option Z;
  wi_error_message : option string
}.

(** The errors of the service and of the worker manager. *)
Inductive oerr : Type :=
| TenantNotFoundError
| TenantServiceError (msg : string)
| WorkerNotFoundError (msg : string)
| WorkerAlreadyRunningError (msg : string)
| CredentialsNotFoundError (msg : string)
| WorkerManagerError (msg : string).

Definition oerr_str (e : oerr) : string :=
  match e with
  | TenantNotFoundError => "Tenant not found"
  | TenantServiceError m | WorkerNotFoundError m | WorkerAlreadyRunningError m
  | CredentialsNotFoundError m | WorkerManagerError m => m
  end.

(** The statuses [allocate_redis_db] counts as holding a database. *)
Definition holds_redis_db (s : wstatus) : bool :=
  existsb (wstatus_eqb s) [PENDING; STARTING; RUNNING; HIBERNATING].

(** [TenantService.allocate_redis_db]: the lowest of 0..15 not used by an
    instance in one of the statuses above. *)
Definition allocate_redis_db (tbl : list winst) : sum oerr Z :=
  let used := map wi_redis_db (filter (fun i => holds_redis_db (wi_status i)) tbl) in
  match find (fun n => negb (existsb (Z.eqb n) used)) (map Z.of_nat (seq 0 16)) with
  | Some n => inr n
  | None => inl (TenantServiceError "No available Redis database slots (max 15 tenants)")
  end.

Fixpoint remove_first {A} (p : A -> bool) (l : list A) : list A :=
  match l with
  | [] => []
  | x :: r => if p x then r else x :: remove_first p r
  end.

(** [TenantService.release_redis_db]: delete the tenant's instance row. *)
Definition release_redis_db (tbl : list winst) (tenant : nat) : list winst :=
  remove_first (fun i => Nat.eqb (wi_tenant i) tenant) tbl.

(** [TenantService.create_worker_instance]: a new [PENDING] row. *)
Definition new_instance (tenant : nat) (redis_db : Z) : winst :=
  {| wi_tenant := tenant; wi_container_id := None; wi_status := PENDING;
     wi_redis_db := redis_db; wi_started_at := None; wi_stopped_at := None;
     wi_error_message := None |}.

(** The committed database state the lifecycle code reads and writes. *)
Record db : Type := {
  tenants : list nat;                  (* existing tenants *)
  shioaji_creds : list nat;            (* tenants with a SHIOAJI_API credential row *)
  instances : list winst;
  audit : list (string * nat)
}.

Definition get_worker_instance (d : db) (tenant : nat) : option winst :=
  find (fun i => Nat.eqb (wi_tenant i) tenant) (instances d).

Definition replace_instance (d : db) (i : winst) : db :=
  {| tenants := tenants d; shioaji_creds := shioaji_creds d;
     instances := map (fun j => if Nat.eqb (wi_tenant j) (wi_tenant i) then i else j) (instances d);
     audit := audit d |}.

Definition add_instance (d : db) (i : winst) : db :=
  {| tenants := tenants d; shioaji_creds := shioaji_creds d;
     instances := (instances d ++ [i])%list; audit := audit d |}.

Definition add_audit (d : db) (a : string) (tenant : nat) : db :=
  {| tenants := tenants d; shioaji_creds := shioaji_creds d;
     instances := instances d; audit := (audit d ++ [(a, tenant)])%list |}.

(** Allocation of a slot for each tenant of the list, recording a new
    [PENDING] row after each, as [create_worker] does for a new tenant. *)
Fixpoint allocate_each (tbl : list winst) (ts : list nat) : sum oerr (list winst) :=
  match ts with
  | [] => inr tbl
  | t :: r =>
      match allocate_redis_db tbl with
      | inl e => inl e
      | inr n => allocate_each (tbl ++ [new_instance t n])%list r
      end
  end.

(* ------------------------------------------------------------------ *)
(** ** Worker lifecycle (orchestrator/worker_manager.py) *)

(** The calls [create_worker] makes to collaborators after its checks. *)
Inductive ocall : Type := CallAllocate | CallExport | CallDockerCreate.

(** The database state below is the committed one: the SQL session is closed
    without commit when an error leaves the method (the manager's own session
    in [_close_db], the request's session in [get_db]), so changes that were
    not committed are dropped; [create_worker_instance] commits the new row
    at once.

    [create_worker tenant]: [export_ok] says whether
    [export_for_worker] returned files; [docker_create] is the container id
    or the [APIError] message. *)
Definition create_worker (d : db) (tenant : nat) (export_ok : bool)
    (docker_create : sum string string) : list ocall * sum oerr winst * db :=
  if negb (existsb (Nat.eqb tenant) (tenants d)) then ([], inl TenantNotFoundError, d)
  else
  let existing := get_worker_instance d tenant in
  let already_running :=
    match existing with
    | Some i => negb (existsb (wstatus_eqb (wi_status i)) [STOPPED; ERROR])
    | None => false
    end in
  if already_running
  then ([], inl (WorkerAlreadyRunningError "Worker for tenant already exists"), d)
  else
  if negb (existsb (Nat.eqb tenant) (shioaji_creds d))
  then ([], inl (CredentialsNotFoundError "Shioaji credentials not found for tenant"), d)
  else
  match allocate_redis_db (instances d) with
  | inl e => ([CallAllocate], inl (WorkerManagerError ("Failed to create worker: " ++ oerr_str e)), d)
  | inr n =>
      let '(instance, committed) :=
        match existing with
        | Some i => ({| wi_tenant := wi_tenant i; wi_container_id := wi_container_id i;
                        wi_status := PENDING; wi_redis_db := n;
                        wi_started_at := wi_started_at i; wi_stopped_at := wi_stopped_at i;
                        wi_error_message := None |}, d)
        | None => (new_instance tenant n, add_instance d (new_instance tenant n))
        end in
      if negb export_ok then
        ([CallAllocate; CallExport],
         inl (CredentialsNotFoundError "Failed to export credentials for tenant"), committed)
      else
      match docker_create with
      | inl msg =>
          ([CallAllocate; CallExport; CallDockerCreate],
           inl (WorkerManagerError ("Failed to create worker: Failed to create container: " ++ msg)),
           committed)
      | inr cid =>
          let inst := {| wi_tenant := wi_tenant instance; wi_container_id := Some cid;
                         wi_status := PENDING; wi_redis_db := wi_redis_db instance;
                         wi_started_at := wi_started_at instance;
                         wi_stopped_at := wi_stopped_at instance;
                         wi_error_message := wi_error_message instance |} in
          ([CallAllocate; CallExport; CallDockerCreate], inr inst,
           add_audit (replace_instance committed inst) "worker_started" tenant)
      end
  end.

(** How [containers.get(...)] followed by [container.start()] ends. *)
Inductive start_outcome : Type :=
| Started
| ContainerNotFound
| DockerApiError (msg : string).

(** [WorkerManager.start_worker] at time [now]. *)
Definition start_worker (d : db) (tenant : nat) (now : Z) (docker : start_outcome)
  : sum oerr winst * db :=
  if negb (existsb (Nat.eqb tenant) (tenants d)) then (inl TenantNotFoundError, d)
  else
  match get_worker_instance d tenant with
  | None => (inl (WorkerNotFoundError "No worker instance for tenant"), d)
  | Some i =>
      if wstatus_eqb (wi_status i) RUNNING then (inr i, d)
      else
      match docker with
      | Started =>
          let i' := {| wi_tenant := wi_tenant i; wi_container_id := wi_container_id i;
                       wi_status := RUNNING; wi_redis_db := wi_redis_db i;
                       wi_started_at := Some now; wi_stopped_at := None;
                       wi_error_message := None |} in
          (inr i', add_audit (replace_instance d i') "worker_started" tenant)
      | ContainerNotFound =>
          (* status ERROR is set on the object but not committed *)
          (inl (WorkerNotFoundError "Container not found, call create_worker first"), d)
      | DockerApiError msg =>
          (inl (WorkerManagerError ("Failed to start container: " ++ msg)), d)
      end
  end.

(* ------------------------------------------------------------------ *)
(** ** Contract lookups and order functions of trading.py *)

(** [trading.get_valid_symbols] *)
Definition get_valid_symbols (api : sdk) : list string :=
  (map c_symbol (filter (fun c => prefixb "MXF" (c_symbol c)) (mxf api))
   ++ map c_symbol (filter (fun c => prefixb "TXF" (c_symbol c)) (txf api)))%list.

(** [trading.get_valid_contract_codes] *)
Definition get_valid_contract_codes (api : sdk) : list string :=
  (map c_code (filter (fun c => prefixb "MXF" (c_code c)) (mxf api))
   ++ map c_code (filter (fun c => prefixb "TXF" (c_code c)) (txf api)))%list.

(** [trading.get_contract_from_contract_code] *)
Definition get_contract_from_contract_code (api : sdk) (contract_code : pyval) : result contract :=
  let matches c := pyeq (PStr (c_code c)) contract_code in
  match find matches (mxf api) with
  | Some c => Ok c
  | None =>
      match find matches (txf api) with
      | Some c => Ok c
      | None => Raise (ValueError ("Contract " ++ py_str contract_code ++ " not found"))
      end
  end.

(** [trading.OrderError] *)
Definition OrderError (msg : string) : exn := OtherError "OrderError" msg.

(** The four [except] clauses around [api.place_order] in
    [trading.place_entry_order] and [trading.place_exit_order]. *)
Definition place_order_error (e : exn) : exn :=
  match e with
  | TargetContractNotExistError _ => OrderError ("Target contract not exist: " ++ exn_str e)
  | SjTimeoutError _ => OrderError ("Order timeout: " ++ exn_str e)
  | AccountNotSignError _ | AccountNotProvideError _ => OrderError ("Account error: " ++ exn_str e)
  | _ => OrderError ("Unexpected error when placing order: " ++ exn_str e)
  end.

(** The contract lookup and the position lookup ([or 0]) shared by the two
    order functions of trading.py, with their [except] clauses. *)
Definition lib_contract_and_position (api : sdk) (symbol : pyval) : result (contract * Z) :=
  match get_contract_from_symbol api symbol with
  | Raise (ValueError _ as e) => Raise (OrderError ("Contract not found: " ++ exn_str e))
  | Raise e => Raise e
  | Ok c =>
      match get_current_position api c with
      | Raise ((AccountNotSignError _ | AccountNotProvideError _) as e) =>
          Raise (OrderError ("Account error: " ++ exn_str e))
      | Raise e => Raise e
      | Ok current_position => Ok (c, current_position)
      end
  end.

(** [trading.place_entry_order]: the orders sent to [place_order] and the
    trade returned, or the exception raised. *)
Definition place_entry_order (api : sdk) (symbol quantity : pyval) (a : action)
  : list (contract * order) * result trade :=
  match lib_contract_and_position api symbol with
  | Raise e => ([], Raise e)
  | Ok (c, current_position) =>
      match entry_quantity a quantity current_position with
      | Raise e => ([], Raise e)
      | Ok q =>
          let o := {| o_action := a; o_quantity := q |} in
          ([(c, o)],
           match place_order api c o with
           | Ok t => Ok t
           | Raise e => Raise (place_order_error e)
           end)
      end
  end.

(** [trading.place_exit_order]; [Ok None] is its [return None]. *)
Definition place_exit_order (api : sdk) (symbol : pyval) (position_direction : action)
  : list (contract * order) * result (option trade) :=
  match lib_contract_and_position api symbol with
  | Raise e => ([], Raise e)
  | Ok (c, current_position) =>
      match exit_decision position_direction current_position with
      | None => ([], Ok None)
      | Some (a, q) =>
          let o := {| o_action := a; o_quantity := PInt q |} in
          ([(c, o)],
           match place_order api c o with
           | Ok t => Ok (Some t)
           | Raise e => Raise (place_order_error e)
           end)
      end
  end.

(* ------------------------------------------------------------------ *)
(** ** Secrets and connection health (trading_worker.py) *)

(** Python's [str.isspace] on ASCII characters: 0x09-0x0d, the separators
    0x1c-0x1f and the space. *)
Definition py_isspace (c : ascii) : bool :=
  let n := nat_of_ascii c in
  (Nat.leb 9 n && Nat.leb n 13) || (Nat.leb 28 n && Nat.leb n 32).

Fixpoint drop_while (p : ascii -> bool) (l : list ascii) : list ascii :=
  match l with
  | [] => []
  | c :: r => if p c then drop_while p r else l
  end.

(** [s.lstrip(chars)] and [s.rstrip(chars)] for the characters [p] holds for. *)
Definition lstrip_by (p : ascii -> bool) (s : string) : string :=
  string_of_list_ascii (drop_while p (list_ascii_of_string s)).

Definition rstrip_by (p : ascii -> bool) (s : string) : string :=
  string_of_list_ascii (rev (drop_while p (rev (list_ascii_of_string s)))).

(** [s.strip()] *)
Definition py_strip (s : string) : string := rstrip_by py_isspace (lstrip_by py_isspace s).

(** What the worker process reads: [os.getenv] and the text of the files
    that exist ([None]: [Path(p).exists()] is false). *)
Record host : Type := {
  getenv : string -> option string;
  read_file : string -> option string
}.

(** [TradingWorker._read_secret] *)
Definition read_secret (h : host) (env_name file_env_name : string) : option string :=
  let from_file :=
    match getenv h file_env_name with
    | Some file_path =>
        if String.eqb file_path "" then None
        else match read_file h file_path with
             | Some text => Some (py_strip text)
             | None => None
             end
    | None => None
    end in
  match getenv h env_name with
  | Some value => if String.eqb value "" then from_file else Some value
  | None => from_file
  end.

(** Truth value of an optional string. *)
Definition opt_str_truthy (o : option string) : bool :=
  match o with Some s => negb (String.eqb s "") | None => false end.

(** The credential test at the top of [_get_api_client]:
    [not api_key or not secret_key] raises. *)
Definition credentials_found (h : host) : bool :=
  let api_key := read_secret h "API_KEY" "API_KEY_FILE" in
  let secret_key := read_secret h "SECRET_KEY" "SECRET_KEY_FILE" in
  opt_str_truthy api_key && opt_str_truthy secret_key.

Definition HEALTH_CHECK_INTERVAL : Z := 300.

(** [TradingWorker._check_connection_health]; [accounts] is what
    [api.list_accounts()] returns (the account ids) or raises. *)
Definition check_connection_health (st : wstate) (m : bool) (accounts : result (list string)) : bool :=
  match mode_get m (api_clients st) with
  | None => false
  | Some _ =>
      match accounts with
      | Ok [] => false
      | Ok _ => true
      | Raise (TokenError _ | SystemMaintenance _ | SjTimeoutError _) => false
      | Raise e =>
          let error_str := lower (exn_str e) in
          negb (containsb "token" error_str || containsb "expired" error_str
                || containsb "401" error_str)
      end
  end.

(** [TradingWorker._maybe_refresh_connection] at time [now], the last
    successful request of the mode being at [last_success] (seconds). *)
Definition maybe_refresh_connection (E : env) (st : wstate) (m : bool) (now last_success : Z)
    (accounts : result (list string)) : wstate :=
  match mode_get m (api_clients st) with
  | None => st
  | Some _ =>
      if HEALTH_CHECK_INTERVAL <? now - last_success then
        if negb (check_connection_health st m accounts) then fst (invalidate_connection E st m)
        else st
      else st
  end.

(* ------------------------------------------------------------------ *)
(** ** The queue client (trading_queue.py) *)

Definition REQUEST_TIMEOUT : Z := 30.

(** [get_queue_prefix(tenant_id)] in the client: [tid = tenant_id or
    TENANT_ID], the module constant read from the environment. *)
Definition client_queue_prefix (TENANT_ID : string) (tenant_id : option string) : string :=
  let tid := match tenant_id with
             | Some t => if String.eqb t "" then TENANT_ID else t
             | None => TENANT_ID
             end in
  if String.eqb tid "" then "" else "tenant:" ++ tid ++ ":".

(** Python truth value. *)
Definition py_truthy (v : pyval) : bool :=
  match v with
  | PNone => false
  | PBool b => b
  | PInt z => negb (Z.eqb z 0)
  | PFloat f => match f with S754_zero _ => false | _ => true end
  | PStr s => negb (String.eqb s "")
  | PList xs | PTuple xs => match xs with [] => false | _ => true end
  | PDict kvs => match kvs with [] => false | _ => true end
  end.

(** The builtin [TimeoutError] raised by the client. *)
Definition QueueTimeoutError (msg : string) : exn := OtherError "TimeoutError" msg.

(** [TradingQueueClient.submit_request] with [request_id] the fresh uuid and
    [params] [None] as [PNone]. [blpop key] is what
    [redis.blpop(key, timeout)] returns: the first document pushed on [key]
    in time, or [None]. The result is the command sent and the response or
    the exception raised (the texts of [json]'s and the constructor's
    [TypeError]s are not modelled). *)
Definition submit_request (TENANT_ID : string) (tenant_id : option string) (request_id : string)
    (operation : string) (simulation : bool) (params : pyval) (timeout : Z)
    (blpop : string -> option json) : list redis_cmd * result Resp.t :=
  let prefix := client_queue_prefix TENANT_ID tenant_id in
  let request := Req.mk request_id operation simulation
                        (if py_truthy params then params else PDict []) in
  let response_key := prefix ++ RESPONSE_PREFIX ++ request_id in
  match to_json_req request with
  | None => ([], Raise (TypeError "Object is not JSON serializable"))
  | Some doc =>
      ([RPush (prefix ++ REQUEST_QUEUE) doc],
       match blpop response_key with
       | None => Raise (QueueTimeoutError ("Trading request timed out after " ++ Z_to_dec timeout ++ "s"))
       | Some response_data =>
           match from_json_resp response_data with
           | Some response => Ok response
           | None => Raise (TypeError "TradingResponse() got an unexpected or missing keyword argument")
           end
       end)
  end.

(** [TradingQueueClient.check_worker_health]: a simulation ping with a
    5-second timeout; [TimeoutError] gives [False]. *)
Definition client_check_worker_health (TENANT_ID : string) (tenant_id : option string)
    (request_id : string) (blpop : string -> option json) : result bool :=
  match snd (submit_request TENANT_ID tenant_id request_id "ping" true PNone 5 blpop) with
  | Ok response => Ok (Resp.success response)
  | Raise (OtherError n msg) =>
      if String.eqb n "TimeoutError" then Ok false else Raise (OtherError n msg)
  | Raise e => Raise e
  end.

(* ------------------------------------------------------------------ *)
(** ** Tenant slugs (tenant_service.py) *)

Definition SLUG_PREFIX_LENGTH : nat := 6.

(** The alphabet of [_generate_slug_prefix] (no 0, o, 1, l). *)
Definition slug_alphabet : string := "abcdefghjkmnpqrstuvwxyz23456789".

(** [[a-z0-9]] *)
Definition is_lower_alnum (c : ascii) : bool :=
  let n := nat_of_ascii c in
  (Nat.leb 97 n && Nat.leb n 122) || (Nat.leb 48 n && Nat.leb n 57).

Definition is_hyphen (c : ascii) : bool := Ascii.eqb c "-"%char.

(** [[a-z0-9-]] *)
Definition is_slug_char (c : ascii) : bool := is_lower_alnum c || is_hyphen c.

(** [_generate_slug_prefix]: [draw k] is the index [secrets.choice] takes
    from the alphabet at the [k]-th draw (below its length, 31). *)
Definition generate_slug_prefix (draw : nat -> nat) : string :=
  string_of_list_ascii
    (map (fun k => match String.get (draw k) slug_alphabet with Some c => c | None => "a"%char end)
         (seq 0 SLUG_PREFIX_LENGTH)).

(** [re.sub(r"[^a-z0-9]+", "-", s)] on the characters of [s]: every maximal
    run of characters outside [[a-z0-9]] becomes one hyphen. *)
Fixpoint sub_non_alnum (in_run : bool) (l : list ascii) : list ascii :=
  match l with
  | [] => []
  | c :: r =>
      if is_lower_alnum c then c :: sub_non_alnum false r
      else if in_run then sub_non_alnum true r
      else "-"%char :: sub_non_alnum true r
  end.

(** [TenantService._generate_secure_slug]. [name.lower()] is the ASCII
    lowering (characters outside ASCII are left as they are and, not being in
    [[a-z0-9]], replaced by the hyphen run). *)
Definition generate_secure_slug (draw : nat -> nat) (name : string) : string :=
  let base_slug :=
    rstrip_by is_hyphen (lstrip_by is_hyphen
      (string_of_list_ascii (sub_non_alnum false (list_ascii_of_string (lower name))))) in
  let max_base_length := (63 - SLUG_PREFIX_LENGTH - 1)%nat in
  let base_slug :=
    if Nat.ltb max_base_length (String.length base_slug)
    then rstrip_by is_hyphen
           (string_of_list_ascii (firstn max_base_length (list_ascii_of_string base_slug)))
    else base_slug in
  let prefix := generate_slug_prefix draw in
  if String.eqb base_slug "" then prefix else prefix ++ "-" ++ base_slug.

(** [^[a-z0-9][a-z0-9-]{1,61}[a-z0-9]] up to the end of the characters [l]. *)
Definition slug_body (l : list ascii) : bool :=
  match l with
  | [] => false
  | c :: r =>
      is_lower_alnum c &&
      match rev r with
      | [] => false
      | d :: mid =>
          is_lower_alnum d && Nat.leb 1 (length mid) && Nat.leb (length mid) 61
          && forallb is_slug_char mid
      end
  end.

(** [SLUG_PATTERN.match(s)] for [^[a-z0-9][a-z0-9-]{1,61}[a-z0-9]$]: [$]
    matches at the end of the string or before a newline that ends it. *)
Definition slug_pattern_match (s : string) : bool :=
  let l := list_ascii_of_string s in
  slug_body l
  || match rev l with
     | c :: r => Ascii.eqb c "010"%char && slug_body (rev r)
     | [] => false
     end.

(** The errors of the tenant CRUD methods. *)
Inductive tenant_err : Type :=
| ServiceError (e : oerr)
| InvalidSlugError (msg : string)
| TenantAlreadyExistsError (msg : string).

(** [TenantService._validate_slug]: [None] when it returns. *)
Definition validate_slug (slug : string) : option tenant_err :=
  if slug_pattern_match slug then None
  else Some (InvalidSlugError ("Invalid slug '" ++ slug ++ "'. Must be 3-63 characters, "
                               ++ "lowercase alphanumeric and hyphens, cannot start/end with hyphen.")).

(** [TenantService.create_tenant] on the [slug] column of [tenants] (soft
    deleted rows included: the column is [unique]); the flush fails with an
    [IntegrityError] on a taken slug. [slug] [None] is the default. The
    result is the new tenant's slug and the column after the commit. *)
Definition create_tenant (slugs : list string) (owner_id name : string) (slug : option string)
    (draw : nat -> nat) : sum tenant_err string * list string :=
  if String.eqb owner_id "" then (inl (ServiceError (TenantServiceError "owner_id is required")), slugs)
  else
  let base_name := match slug with
                   | Some s => if String.eqb s "" then name else s
                   | None => name
                   end in
  let secure_slug := generate_secure_slug draw base_name in
  match validate_slug secure_slug with
  | Some e => (inl e, slugs)
  | None =>
      if existsb (String.eqb secure_slug) slugs
      then (inl (TenantAlreadyExistsError ("Tenant with slug '" ++ secure_slug ++ "' already exists")),
            slugs)
      else (inr secure_slug, (slugs ++ [secure_slug])%list)
  end.

(* ------------------------------------------------------------------ *)
(** ** Stopping, hibernating, waking and destroying workers
    (worker_manager.py) *)

(** How [containers.get(...)] followed by the call on the container ends. *)
Inductive docker_outcome : Type :=
| DockerOk
| DockerNotFound
| DockerAPIError (msg : string).

(** Errors of [hibernate_worker] and [destroy_worker]: the service's and
    manager's, or the Docker [APIError] these methods do not catch. *)
Inductive lerr : Type :=
| Lifecycle (e : oerr)
| UncaughtAPIError (msg : string).

(** [WorkerStatus(...).value] *)
Definition wstatus_value (s : wstatus) : string :=
  match s with
  | PENDING => "pending" | STARTING => "starting" | RUNNING => "running"
  | HIBERNATING => "hibernating" | STOPPING => "stopping" | STOPPED => "stopped"
  | ERROR => "error"
  end.

(** [WorkerManager.stop_worker] at time [now]. *)
Definition stop_worker (d : db) (tenant : nat) (now : Z) (docker : docker_outcome)
  : sum oerr winst * db :=
  if negb (existsb (Nat.eqb tenant) (tenants d)) then (inl TenantNotFoundError, d)
  else
  match get_worker_instance d tenant with
  | None => (inl (WorkerNotFoundError "No worker instance for tenant"), d)
  | Some i =>
      if existsb (wstatus_eqb (wi_status i)) [STOPPED; PENDING] then (inr i, d)
      else
      match docker with
      | DockerOk | DockerNotFound =>
          let i' := {| wi_tenant := wi_tenant i; wi_container_id := wi_container_id i;
                       wi_status := STOPPED; wi_redis_db := wi_redis_db i;
                       wi_started_at := wi_started_at i; wi_stopped_at := Some now;
                       wi_error_message := wi_error_message i |} in
          (inr i', add_audit (replace_instance d i') "worker_stopped" tenant)
      | DockerAPIError msg =>
          (* status ERROR and the message are set on the object, not committed *)
          (inl (WorkerManagerError ("Failed to stop container: " ++ msg)), d)
      end
  end.

(** [WorkerManager.hibernate_worker] at time [now]: no status check. *)
Definition hibernate_worker (d : db) (tenant : nat) (now : Z) (docker : docker_outcome)
  : sum lerr winst * db :=
  if negb (existsb (Nat.eqb tenant) (tenants d)) then (inl (Lifecycle TenantNotFoundError), d)
  else
  match get_worker_instance d tenant with
  | None => (inl (Lifecycle (WorkerNotFoundError "No worker instance for tenant")), d)
  | Some i =>
      match docker with
      | DockerAPIError msg => (inl (UncaughtAPIError msg), d)
      | DockerOk | DockerNotFound =>
          let i' := {| wi_tenant := wi_tenant i; wi_container_id := wi_container_id i;
                       wi_status := HIBERNATING; wi_redis_db := wi_redis_db i;
                       wi_started_at := wi_started_at i; wi_stopped_at := Some now;
                       wi_error_message := wi_error_message i |} in
          (inr i', add_audit (replace_instance d i') "worker_hibernated" tenant)
      end
  end.

(** [WorkerManager.wake_worker] at time [now]. *)
Definition wake_worker (d : db) (tenant : nat) (now : Z) (docker : docker_outcome)
  : sum oerr winst * db :=
  if negb (existsb (Nat.eqb tenant) (tenants d)) then (inl TenantNotFoundError, d)
  else
  match get_worker_instance d tenant with
  | None => (inl (WorkerNotFoundError "No worker instance for tenant"), d)
  | Some i =>
      if negb (wstatus_eqb (wi_status i) HIBERNATING)
      then (inl (WorkerManagerError ("Worker is not hibernating (status: "
                                     ++ wstatus_value (wi_status i) ++ ")")), d)
      else
      match docker with
      | DockerOk =>
          let i' := {| wi_tenant := wi_tenant i; wi_container_id := wi_container_id i;
                       wi_status := RUNNING; wi_redis_db := wi_redis_db i;
                       wi_started_at := Some now; wi_stopped_at := None;
                       wi_error_message := wi_error_message i |} in
          (inr i', add_audit (replace_instance d i') "worker_woken" tenant)
      | DockerNotFound => (inl (WorkerNotFoundError "Container not found, call create_worker first"), d)
      | DockerAPIError msg =>
          (* status ERROR and the message are set on the object, not committed *)
          (inl (WorkerManagerError ("Failed to wake container: " ++ msg)), d)
      end
  end.

(** [WorkerManager.destroy_worker]: remove the container, then
    [release_redis_db] deletes the instance row and commits (the temporary
    credential directory is not modelled). *)
Definition destroy_worker (d : db) (tenant : nat) (docker : docker_outcome) : sum lerr unit * db :=
  if negb (existsb (Nat.eqb tenant) (tenants d)) then (inl (Lifecycle TenantNotFoundError), d)
  else
  match get_worker_instance d tenant with
  | None => (inr tt, d)
  | Some _ =>
      match docker with
      | DockerAPIError msg => (inl (UncaughtAPIError msg), d)
      | DockerOk | DockerNotFound =>
          (inr tt, {| tenants := tenants d; shioaji_creds := shioaji_creds d;
                      instances := release_redis_db (instances d) tenant; audit := audit d |})
      end
  end.

(** The [POST /admin/tenants/{tenant_id}/worker/start] handler of
    admin/main.py (before the mapping of errors to HTTP codes): create and
    start a missing worker, start a stopped, failed or pending one, wake a
    hibernating one, and return any other as it is. *)
Definition admin_start_worker (d : db) (tenant : nat) (now : Z) (export_ok : bool)
    (docker_create : sum string string) (docker_start : start_outcome)
    (docker_wake : docker_outcome) : sum oerr winst * db :=
  match get_worker_instance d tenant with
  | None =>
      let '(_, r, d1) := create_worker d tenant export_ok docker_create in
      match r with
      | inl e => (inl e, d1)
      | inr _ => start_worker d1 tenant now docker_start
      end
  | Some i =>
      if existsb (wstatus_eqb (wi_status i)) [STOPPED; ERROR; PENDING]
      then start_worker d tenant now docker_start
      else if wstatus_eqb (wi_status i) HIBERNATING
      then wake_worker d tenant now docker_wake
      else (inr i, d)
  end.

(* ------------------------------------------------------------------ *)
(** ** Auxiliary definitions: spec-side readings and concrete inputs *)





(** The spec's reading of "the requested action opposes the position". *)
Definition opposes (action_str : string) (pos : Z) : bool :=
  (String.eqb action_str "Buy" && (pos <? 0)) || (String.eqb action_str "Sell" && (0 <? pos)).

Definition entry_params (symbol : string) (q : Z) (action_str : string) : pyval :=
  PDict [(PStr "symbol", PStr symbol); (PStr "quantity", PInt q); (PStr "action", PStr action_str)].

Definition entry_order_of (action_str : string) (q pos : Z) : order :=
  {| o_action := if String.eqb action_str "Buy" then Buy else Sell;
     o_quantity := PInt (if opposes action_str pos then q + Z.abs pos else q) |}.

(** The end-to-end example: contract "X" (code "XC1"), a short position of 3. *)
Definition contract_X : contract := {| c_symbol := "X"; c_code := "XC1" |}.

Definition sdk_short3 : sdk :=
  {| mxf := [contract_X]; txf := [];
     list_positions := Ok [{| p_code := "XC1"; p_side := SideSell; p_quantity := 3 |}];
     place_order := fun _ _ => Ok {| t_id := "o-1"; t_seqno := "s-1"; t_ordno := "n-1" |};
     update_status := fun _ => Ok PNone;
     catalogue := fun _ => Ok PNone;
     product_contracts := fun _ => [] |}.

Definition exit_params (symbol dir : string) : pyval :=
  PDict [(PStr "symbol", PStr symbol); (PStr "position_direction", PStr dir)].

(** The data the spec gives for the no-position case, key order as written
    there ([==] on dicts ignores the order). *)
Definition spec_no_position_data : pyval :=
  PDict [(PStr "order_id", PNone); (PStr "message", PStr "No position to exit")].

Definition sdk_flat : sdk :=
  {| mxf := [contract_X]; txf := []; list_positions := Ok [];
     place_order := fun _ _ => Ok {| t_id := "o-1"; t_seqno := "s-1"; t_ordno := "n-1" |};
     update_status := fun _ => Ok PNone; catalogue := fun _ => Ok PNone;
     product_contracts := fun _ => [] |}.

(** The states the single worker thread can be in between two requests: no
    invalidation in progress (the flag is reset in a [finally] clause) and
    every live session made by an earlier login. *)
Definition below_next (st : wstate) (o : option nat) : bool :=
  match o with Some s => Nat.ltb s (next_session st) | None => true end.

Definition wf_state (st : wstate) : bool :=
  negb (fst (invalidating st)) && negb (snd (invalidating st)) &&
  below_next st (fst (api_clients st)) && below_next st (snd (api_clients st)).

(** An environment whose logins succeed and whose sessions answer as [api]. *)
Definition env_with (mock creds : bool) (api : sdk) : env :=
  {| dev_mock := mock; credentials_present := creds;
     login_attempt := fun _ _ => None; logout := LogoutTimedOut;
     session_api := fun _ _ => api;
     mock_millis := 1700000000000; mock_random := 123456 |}.

(** A worker holding a simulation session (login 0) and no real one. *)
Definition st_connected : wstate :=
  {| api_clients := (Some 0%nat, None); invalidating := (false, false);
     pending_trades := []; next_session := 1%nat |}.

Definition sdk_token_expired : sdk :=
  {| mxf := [contract_X]; txf := []; list_positions := Ok [];
     place_order := fun _ _ => Ok {| t_id := "o-1"; t_seqno := "s-1"; t_ordno := "n-1" |};
     update_status := fun _ => Ok PNone;
     catalogue := fun _ => Raise (TokenError "Token is expired");
     product_contracts := fun _ => [] |}.

Definition sdk_not_signed : sdk :=
  {| mxf := [contract_X]; txf := []; list_positions := Ok [];
     place_order := fun _ _ => Raise (AccountNotSignError "Account not sign");
     update_status := fun _ => Ok PNone; catalogue := fun _ => Ok PNone;
     product_contracts := fun _ => [] |}.

Definition entry_request (rid symbol : string) (q : Z) (action_str : string) : Req.t :=
  Req.mk rid "place_entry_order" true (entry_params symbol q action_str).

Definition req_bad_product : Req.t :=
  Req.mk "r-2" "get_product_contracts" true (PDict [(PStr "product", PInt 5)]).

(** [cmds] is one push of a response onto [key] followed by its 60-second
    expiry. *)
Definition responded (cmds : list redis_cmd) (key : string) : bool :=
  match cmds with
  | [RPush k _; Expire k' secs] => String.eqb k key && String.eqb k' key && Z.eqb secs 60
  | _ => false
  end.

Definition winst_at (tenant : nat) (status : wstatus) (slot : Z) : winst :=
  {| wi_tenant := tenant; wi_container_id := Some "c-0"; wi_status := status;
     wi_redis_db := slot; wi_started_at := Some 100; wi_stopped_at := None;
     wi_error_message := None |}.

(** Two tenants with credentials and no worker yet. *)
Definition db_two_workers : db :=
  {| tenants := [0; 1]%nat; shioaji_creds := [0; 1]%nat; instances := []; audit := [] |}.

Definition db_running_no_creds : db :=
  {| tenants := [0%nat]; shioaji_creds := []; instances := [winst_at 0 RUNNING 0]; audit := [] |}.

Definition db_stopped_no_creds : db :=
  {| tenants := [0%nat]; shioaji_creds := []; instances := [winst_at 0 STOPPED 0]; audit := [] |}.

Definition db_stopped : db :=
  {| tenants := [0%nat]; shioaji_creds := [0%nat];
     instances := [{| wi_tenant := 0; wi_container_id := Some "c-0"; wi_status := STOPPED;
                      wi_redis_db := 0; wi_started_at := Some 100; wi_stopped_at := Some 200;
                      wi_error_message := Some "exited" |}];
     audit := [] |}.

Definition entry_dict (symbol quantity action_str : pyval) : pyval :=
  PDict [(PStr "symbol", symbol); (PStr "quantity", quantity); (PStr "action", action_str)].

Definition exit_dict (symbol position_direction : pyval) : pyval :=
  PDict [(PStr "symbol", symbol); (PStr "position_direction", position_direction)].

Definition contract_MXF : contract := {| c_symbol := "MXFR1"; c_code := "MXFK5" |}.

Definition sdk_lib (positions : result (list position)) (placed : result trade) : sdk :=
  {| mxf := [contract_MXF]; txf := []; list_positions := positions;
     place_order := fun _ _ => placed; update_status := fun _ => Ok PNone;
     catalogue := fun _ => Ok PNone; product_contracts := fun _ => [] |}.

Definition trade_1 : trade := {| t_id := "o-1"; t_seqno := "s-1"; t_ordno := "n-1" |}.

Definition host_blank_key_file : host :=
  {| getenv := fun k => if String.eqb k "API_KEY_FILE" then Some "/run/secrets/api_key"
                        else if String.eqb k "SECRET_KEY" then Some "sk" else None;
     read_file := fun _ => Some (" " ++ String "010" EmptyString) |}.

Definition status_request (rid oid sq : string) : Req.t :=
  Req.mk rid "check_order_status" true (PDict [(PStr "order_id", PStr oid); (PStr "seqno", PStr sq)]).

Definition hd_alnum (l : list ascii) : bool :=
  match l with [] => true | c :: _ => is_lower_alnum c end.

(** A stripped slug base: characters of [[a-z0-9-]], neither starting nor
    ending with a hyphen. *)
Definition slug_base_ok (l : list ascii) : bool :=
  forallb is_slug_char l && hd_alnum l && hd_alnum (rev l).

Definition not_tenant (t : nat) (j : winst) : bool := negb (Nat.eqb (wi_tenant j) t).

Definition replace_row (i' : winst) (j : winst) : winst :=
  if Nat.eqb (wi_tenant j) (wi_tenant i') then i' else j.

(** Tenant 0's worker is stopped; its slot 0 went to tenant 1's running worker. *)
Definition db_slot_shared : db :=
  {| tenants := [0%nat; 1%nat]; shioaji_creds := [0%nat; 1%nat];
     instances := [winst_at 0 STOPPED 0; winst_at 1 RUNNING 0]; audit := [] |}.

Definition db_fresh : db :=
  {| tenants := [0%nat]; shioaji_creds := [0%nat]; instances := []; audit := [] |}.

Definition is_some {A} (o : option A) : bool := match o with Some _ => true | None => false end.

(** Values [json.dumps] encodes without a [TypeError]: every dict key is a
    str, float, int, bool or None, recursively. *)
Fixpoint dumpable (v : pyval) : bool :=
  match v with
  | PList xs | PTuple xs => forallb dumpable xs
  | PDict kvs => forallb (fun kv => is_some (dump_key (fst kv)) && dumpable (snd kv)) kvs
  | _ => true
  end.

(** The SDK answers of a session hold only values [json.dumps] encodes. *)
Definition sdk_dumpable (api : sdk) : Prop :=
  (forall op d, catalogue api op = Ok d -> dumpable d = true) /\
  (forall t d, update_status api t = Ok d -> dumpable d = true) /\
  (forall p, forallb dumpable (product_contracts api p) = true).

(** The params every producer of requests sends ([TradingQueueClient]'s
    methods, called by the API routes): a dict whose ["product"] entry, when
    present, is a str. *)
Definition producer_params (ps : pyval) : bool :=
  match ps with
  | PDict _ => match py_get ps "product" (PStr "MXF") with Ok (PStr _) => true | _ => false end
  | _ => false
  end.

(** An induction principle for [json] that goes into arrays and objects. *)
Section JsonInd.
Variable P : json -> Prop.
Hypothesis HNull : P JNull.
Hypothesis HBool : forall b, P (JBool b).
Hypothesis HNum : forall z, P (JNum z).
Hypothesis HFloat : forall f, P (JFloat f).
Hypothesis HStr : forall s, P (JStr s).
Hypothesis HArr : forall xs, Forall P xs -> P (JArr xs).
Hypothesis HObj : forall kvs, Forall (fun kv => P (snd kv)) kvs -> P (JObj kvs).

Fixpoint json_ind' (j : json) : P j :=
    let fix elems (xs : list json) : Forall P xs :=
        match xs with
        | [] => Forall_nil P
        | x :: r => Forall_cons x (json_ind' x) (elems r)
        end in
    let fix values (kvs : list (string * json)) : Forall (fun kv => P (snd kv)) kvs :=
        match kvs with
        | [] => Forall_nil _
        | (k, x) :: r => @Forall_cons _ (fun kv => P (snd kv)) (k, x) r (json_ind' x) (values r)
        end in
    match j with
    | JNull => HNull
    | JBool b => HBool b
    | JNum z => HNum z
    | JFloat f => HFloat f
    | JStr s => HStr s
    | JArr xs => HArr xs (elems xs)
    | JObj kvs => HObj kvs (values kvs)
    end.
End JsonInd.

(** A request as the producers send it, and its decoded document. *)
Definition req_mock_product : Req.t :=
  Req.mk "r-2" "get_product_contracts" true (PDict [(PStr "product", PStr "mxf")]).

Definition req_mock_product_doc : json :=
  JObj [("request_id", JStr "r-2"); ("operation", JStr "get_product_contracts");
        ("simulation", JBool true); ("params", JObj [("product", JStr "mxf")])].

(** The check [create_worker] makes for an existing instance: every status
    but [STOPPED] and [ERROR] is non-terminal. *)
Definition nonterminal (s : wstatus) : bool :=
  negb (existsb (wstatus_eqb s) [STOPPED; ERROR]).

Definition no_stopping (tbl : list winst) : bool :=
  forallb (fun i => negb (wstatus_eqb (wi_status i) STOPPING)) tbl.

(** The ways the committed database changes: the lifecycle operations of the
    worker manager and the admin start endpoint, and any change that leaves
    the instance rows alone (tenants, credentials, audit log). *)
Inductive lifecycle_step : db -> db -> Prop :=
| StepOther d d' : instances d' = instances d -> lifecycle_step d d'
| StepCreate d t ok dc : lifecycle_step d (snd (create_worker d t ok dc))
| StepStart d t now ds : lifecycle_step d (snd (start_worker d t now ds))
| StepStop d t now dk : lifecycle_step d (snd (stop_worker d t now dk))
| StepHibernate d t now dk : lifecycle_step d (snd (hibernate_worker d t now dk))
| StepWake d t now dk : lifecycle_step d (snd (wake_worker d t now dk))
| StepDestroy d t dk : lifecycle_step d (snd (destroy_worker d t dk))
| StepAdminStart d t now ok dc ds dk :
    lifecycle_step d (snd (admin_start_worker d t now ok dc ds dk)).

(** The databases reachable from one without worker instances. *)
Inductive reachable : db -> Prop :=
| reach_init d : instances d = [] -> reachable d
| reach_step d d' : reachable d -> lifecycle_step d d' -> reachable d'.

(** An induction principle for [pyval] that goes into lists and dicts. *)
Section PyvalInd.
Variable P : pyval -> Prop.
Hypothesis HNone : P PNone.
Hypothesis HBool : forall b, P (PBool b).
Hypothesis HInt : forall z, P (PInt z).
Hypothesis HFloat : forall f, P (PFloat f).
Hypothesis HStr : forall s, P (PStr s).
Hypothesis HList : forall xs, Forall P xs -> P (PList xs).
Hypothesis HTuple : forall xs, Forall P xs -> P (PTuple xs).
Hypothesis HDict : forall kvs, Forall (fun kv => P (snd kv)) kvs -> P (PDict kvs).

Fixpoint pyval_ind' (v : pyval) : P v :=
    let fix elems (xs : list pyval) : Forall P xs :=
        match xs with
        | [] => Forall_nil P
        | x :: r => Forall_cons x (pyval_ind' x) (elems r)
        end in
    let fix values (kvs : list (pyval * pyval)) : Forall (fun kv => P (snd kv)) kvs :=
        match kvs with
        | [] => Forall_nil _
        | (k, x) :: r => @Forall_cons _ (fun kv => P (snd kv)) (k, x) r (pyval_ind' x) (values r)
        end in
    match v with
    | PNone => HNone
    | PBool b => HBool b
    | PInt z => HInt z
    | PFloat f => HFloat f
    | PStr s => HStr s
    | PList xs => HList xs (elems xs)
    | PTuple xs => HTuple xs (elems xs)
    | PDict kvs => HDict kvs (values kvs)
    end.
End PyvalInd.

(* ================================================================== *)
(** * Properties *)

(** ** JSON round trip of native values *)












(** ** C9: serialization round trip *)






(** ** C1: position netting of entry orders *)


Lemma catch_rejection_fst : forall rid pending body,
  fst (catch_rejection rid pending body) = fst body.
Proof. reflexivity. Qed.

(** C1: for an entry order (action "Buy" or "Sell", integer quantity [q]) on
    a symbol whose contract [c] is found and whose position is [pos], the one
    order placed has the requested action and quantity [q + |pos|] when the
    action opposes the position, [q] otherwise; when the broker accepts it,
    the success response is [entry_data], which carries the contract's code
    and the requested quantity as [original_quantity]. *)
Theorem C1_entry_order_netting :
  forall (api : sdk) (pending : pend) (rid symbol action_str : string) (q pos : Z) (c : contract),
  (action_str = "Buy" \/ action_str = "Sell") ->
  get_contract_from_symbol api (PStr symbol) = Ok c ->
  get_current_position api c = Ok pos ->
  let o := entry_order_of action_str q pos in
  let out := handle_entry_order api pending rid (entry_params symbol q action_str) in
  fst out = [(c, o)] /\
  (forall t, place_order api c o = Ok t ->
     snd out = Ok (Resp.mk rid true (entry_data t (PStr action_str) (o_quantity o) (PInt q) c) None,
                   assoc_set pending (trade_key t) t)
     /\ getitem (entry_data t (PStr action_str) (o_quantity o) (PInt q) c) "code" = Ok (PStr (c_code c))
     /\ getitem (entry_data t (PStr action_str) (o_quantity o) (PInt q) c) "original_quantity"
        = Ok (PInt q)).
Proof.
  intros api pending rid symbol action_str q pos c Ha Hc Hp o out.
  assert (Hq : entry_quantity (if pyeq (PStr action_str) (PStr "Buy") then Buy else Sell) (PInt q) pos
               = Ok (o_quantity o)).
  { unfold o, entry_order_of, opposes. simpl.
    destruct Ha as [Ha|Ha]; subst action_str; simpl;
      destruct (pos <? 0) eqn:E1; destruct (0 <? pos) eqn:E2; simpl;
      try (apply Z.ltb_lt in E1); try (apply Z.ltb_ge in E1);
      try (apply Z.ltb_lt in E2); try (apply Z.ltb_ge in E2);
      try lia; try reflexivity; unfold py_sub, py_add; simpl; do 2 f_equal; lia. }
  assert (Ho : o = {| o_action := if pyeq (PStr action_str) (PStr "Buy") then Buy else Sell;
                      o_quantity := o_quantity o |}) by reflexivity.
  unfold out, handle_entry_order, entry_params. simpl getitem. cbv beta iota.
  rewrite Hc, Hp, Hq. rewrite <- Ho.
  destruct (place_order api c o) as [t|e] eqn:Ht.
  - split; [reflexivity|]. intros t' Ht'. injection Ht' as <-.
    split; [reflexivity|]. split; reflexivity.
  - split; [reflexivity|]. intros t' Ht'. discriminate.
Qed.


Lemma C1_entry_order_netting_witness :
  ("Buy" = "Buy" \/ "Buy" = "Sell") /\
  get_contract_from_symbol sdk_short3 (PStr "X") = Ok contract_X /\
  get_current_position sdk_short3 contract_X = Ok (-3) /\
  fst (handle_entry_order sdk_short3 [] "r-1" (entry_params "X" 5 "Buy"))
  = [(contract_X, {| o_action := Buy; o_quantity := PInt 8 |})].
Proof.
  split; [left; reflexivity|]. split; [reflexivity|]. split; [reflexivity|].
  exact (proj1 (C1_entry_order_netting sdk_short3 [] "r-1" "X" "Buy" 5 (-3) contract_X
                  (or_introl eq_refl) eq_refl eq_refl)).
Defined.

(** ** C4: exit orders *)

Lemma exit_decision_spec : forall dir pos a q,
  exit_decision dir pos = Some (a, q) ->
  pos <> 0 /\ a = (if 0 <? pos then Sell else Buy) /\ q = Z.abs pos.
Proof.
  intros [|] pos a q H; simpl in H.
  - destruct (0 <? pos) eqn:E; [|discriminate]. injection H as Ha Hq. subst a q.
    apply Z.ltb_lt in E. repeat split; [lia | lia].
  - destruct (pos <? 0) eqn:E; [|discriminate]. injection H as Ha Hq. subst a q.
    apply Z.ltb_lt in E. rewrite (proj2 (Z.ltb_ge 0 pos) ltac:(lia)).
    repeat split; [lia | lia].
Qed.


(** C4: every order an exit request places is for the contract's current
    position [pos] (never 0), in the opposite direction, for [|pos|]
    contracts; and when the symbol's contract has no position, nothing is
    placed and the response is success with data
    [{"order_id": None, "message": "No position to exit"}]. *)
Theorem C4_exit_order_from_position :
  forall (api : sdk) (pending : pend) (rid : string) (params : pyval),
  (forall c o, In (c, o) (fst (handle_exit_order api pending rid params)) ->
     exists pos, get_current_position api c = Ok pos /\ pos <> 0 /\
       o = {| o_action := if 0 <? pos then Sell else Buy; o_quantity := PInt (Z.abs pos) |})
  /\
  (forall symbol dir c,
     params = exit_params symbol dir ->
     get_contract_from_symbol api (PStr symbol) = Ok c ->
     get_current_position api c = Ok 0 ->
     fst (handle_exit_order api pending rid params) = [] /\
     exists d, snd (handle_exit_order api pending rid params) = Ok (Resp.mk rid true d None, pending)
               /\ pyeq d spec_no_position_data = true).
Proof.
  intros api pending rid params. split.
  - intros c o Hin. unfold handle_exit_order in Hin.
    destruct (getitem params "symbol") as [symbol|e]; [|destruct Hin].
    destruct (getitem params "position_direction") as [dir|e]; [|destruct Hin].
    rewrite catch_rejection_fst in Hin.
    destruct (get_contract_from_symbol api symbol) as [c0|e]; [|destruct Hin].
    destruct (get_current_position api c0) as [pos|e] eqn:Hp; [|destruct Hin].
    destruct (exit_decision _ pos) as [[a q]|] eqn:Hd; [|destruct Hin].
    apply exit_decision_spec in Hd. destruct Hd as [Hnz [-> ->]].
    destruct (place_order api c0 {| o_action := if 0 <? pos then Sell else Buy;
                                    o_quantity := PInt (Z.abs pos) |}); simpl in Hin;
      (destruct Hin as [Hin|[]]; injection Hin as Hc Ho; subst c o;
       exists pos; split; [exact Hp | split; [exact Hnz | reflexivity]]).
  - intros symbol dir c -> Hc Hp. unfold handle_exit_order, exit_params. simpl getitem. cbv beta iota.
    rewrite Hc, Hp.
    destruct (pyeq (PStr dir) (PStr "Buy")); cbn; split; [reflexivity| |reflexivity|];
      exists no_position_data; split; reflexivity.
Qed.


Lemma C4_exit_order_from_position_witness :
  (exit_params "X" "Buy" = exit_params "X" "Buy" /\
   get_contract_from_symbol sdk_flat (PStr "X") = Ok contract_X /\
   get_current_position sdk_flat contract_X = Ok 0) /\
  fst (handle_exit_order sdk_flat [] "r-2" (exit_params "X" "Buy")) = [].
Proof.
  split; [repeat split|].
  exact (proj1 (proj2 (C4_exit_order_from_position sdk_flat [] "r-2" (exit_params "X" "Buy"))
                  "X" "Buy" contract_X eq_refl eq_refl eq_refl)).
Defined.

(** ** The dispatcher *)

Lemma catch_rejection_rid : forall rid pending body resp p,
  (forall resp p, snd body = Ok (resp, p) -> Resp.request_id resp = rid) ->
  snd (catch_rejection rid pending body) = Ok (resp, p) -> Resp.request_id resp = rid.
Proof.
  intros rid pending [orders r] resp p Hb H. simpl in *.
  destruct r as [[resp0 p0]|e].
  - injection H as <- <-. exact (Hb _ _ eq_refl).
  - destruct (order_rejection e); [|discriminate]. injection H as <- <-. reflexivity.
Qed.

Lemma handle_entry_order_rid : forall api pending rid params resp p,
  snd (handle_entry_order api pending rid params) = Ok (resp, p) -> Resp.request_id resp = rid.
Proof.
  intros api pending rid params resp p. unfold handle_entry_order.
  destruct (getitem params "symbol"), (getitem params "quantity"), (getitem params "action");
    try discriminate.
  apply catch_rejection_rid. intros resp0 p0.
  destruct (get_contract_from_symbol api _); [|discriminate].
  destruct (get_current_position api _); [|discriminate].
  destruct (entry_quantity _ _ _); [|discriminate].
  destruct (place_order api _ _); [|discriminate].
  simpl. intros H. injection H as <- <-. reflexivity.
Qed.

Lemma handle_exit_order_rid : forall api pending rid params resp p,
  snd (handle_exit_order api pending rid params) = Ok (resp, p) -> Resp.request_id resp = rid.
Proof.
  intros api pending rid params resp p. unfold handle_exit_order.
  destruct (getitem params "symbol"), (getitem params "position_direction"); try discriminate.
  apply catch_rejection_rid. intros resp0 p0.
  destruct (get_contract_from_symbol api _); [|discriminate].
  destruct (get_current_position api _); [|discriminate].
  destruct (exit_decision _ _) as [[act qty]|].
  - destruct (place_order api _ _); [|discriminate].
    simpl. intros H. injection H as <- <-. reflexivity.
  - simpl. intros H. injection H as <- <-. reflexivity.
Qed.

Lemma except_clauses_rid : forall E m rid e st0,
  Resp.request_id (fst (except_clauses E m rid e st0)) = rid /\
  Resp.success (fst (except_clauses E m rid e st0)) = false.
Proof.
  intros. unfold except_clauses.
  destruct e; try (destruct (is_connection_error _)); split; reflexivity.
Qed.

(** The state the [except] clauses leave: the mode's connection is
    invalidated exactly for the errors classified as connection faults. *)
Lemma except_clauses_state : forall E m rid e st0,
  snd (except_clauses E m rid e st0)
  = match classify e with
    | ConnectionFault => fst (invalidate_connection E st0 m)
    | BusinessRejection => st0
    end.
Proof.
  intros. unfold except_clauses, classify.
  destruct e; try reflexivity; destruct (is_connection_error _); reflexivity.
Qed.

Lemma except_clauses_error : forall E m rid e st0,
  classify e = BusinessRejection ->
  except_clauses E m rid e st0 = (fail_resp rid (exn_str e), st0).
Proof.
  intros E m rid e st0 H. unfold except_clauses. unfold classify in H.
  destruct e; try discriminate; destruct (is_connection_error _); try discriminate; reflexivity.
Qed.

Lemma set_pending_conn : forall p st, conn_state (set_pending p st) = conn_state st.
Proof. reflexivity. Qed.

Ltac split_inner_match :=
  match goal with
  | |- context [match ?x with _ => _ end] =>
      lazymatch x with
      | context [match _ with _ => _ end] => fail
      | _ => let Hx := fresh "Hx" in destruct x eqn:Hx
      end
  end.

Ltac rid_done :=
  eexists; split; [reflexivity|]; simpl;
  first
    [ reflexivity
    | match goal with
      | H : except_clauses ?a ?b ?c ?d ?f = _ |- _ =>
          let Hr := fresh in
          pose proof (proj1 (except_clauses_rid a b c d f)) as Hr; rewrite H in Hr; exact Hr
      | H : handle_entry_order _ _ _ _ = _ |- _ =>
          eapply handle_entry_order_rid; rewrite H; reflexivity
      | H : handle_exit_order _ _ _ _ = _ |- _ =>
          eapply handle_exit_order_rid; rewrite H; reflexivity
      end ].

(** Outside the mock mode every request gets a response carrying its id. *)
Lemma handle_request_responds : forall E st req,
  dev_mock E = false ->
  exists resp, out_resp (handle_request E st req) = Ok resp /\
               Resp.request_id resp = Req.request_id req.
Proof.
  intros E st req Hm. unfold handle_request. rewrite Hm. cbv zeta.
  unfold bind. repeat (split_inner_match; cbv beta iota in * ); try discriminate; rid_done.
Qed.

Ltac exc_done :=
  first [ reflexivity
        | match goal with H : except_clauses _ _ _ _ _ = _ |- _ => rewrite H; reflexivity end ].

(** Outside the mock mode, how a request leaves the connection state: the
    login path of [_get_api_client] runs first; if it fails, the [except]
    clauses run on the old state; otherwise the operation either returns
    (the connection state is the one after the login path) or fails into the
    [except] clauses, which run on the state after the login path. *)
Lemma handle_request_state : forall E st req,
  dev_mock E = false ->
  (exists e, get_api_client E st (Req.simulation req) = Raise e /\
     out_session (handle_request E st req) = None /\
     out_caught (handle_request E st req) = Some e /\
     out_state (handle_request E st req)
       = snd (except_clauses E (Req.simulation req) (Req.request_id req) e st) /\
     out_resp (handle_request E st req)
       = Ok (fst (except_clauses E (Req.simulation req) (Req.request_id req) e st)))
  \/
  (exists s st1, get_api_client E st (Req.simulation req) = Ok (s, st1) /\
     out_session (handle_request E st req) = Some s /\
     ((out_caught (handle_request E st req) = None /\
       conn_state (out_state (handle_request E st req)) = conn_state st1)
      \/
      (exists e, out_caught (handle_request E st req) = Some e /\
         out_state (handle_request E st req)
           = snd (except_clauses E (Req.simulation req) (Req.request_id req) e st1) /\
         out_resp (handle_request E st req)
           = Ok (fst (except_clauses E (Req.simulation req) (Req.request_id req) e st1))))).
Proof.
  intros E st req Hm. unfold handle_request. rewrite Hm. cbv zeta. unfold bind.
  repeat (split_inner_match; cbv beta iota in * ); try discriminate;
  first
    [ left; eexists; split; [first [eassumption | reflexivity]|]; simpl;
      split; [reflexivity|]; split; [reflexivity|]; split; exc_done
    | right; do 2 eexists; split; [first [eassumption | reflexivity]|]; simpl; split; [reflexivity|];
      first [ left; split; reflexivity
            | right; eexists; split; [reflexivity|]; split; exc_done ] ].
Qed.

(** ** Connection handling *)

Lemma login_loop_ok : forall fuel E m st k s st',
  login_loop E m st fuel k = Ok (s, st') -> s = next_session st /\ st' = snd (new_session m st).
Proof.
  induction fuel as [|f IH]; intros E m st k s st' H; simpl in H; [discriminate|].
  destruct (login_attempt E m k).
  - destruct (Nat.ltb k MAX_RECONNECT_ATTEMPTS); [exact (IH _ _ _ _ _ _ H)|discriminate].
  - injection H as <- <-. split; reflexivity.
Qed.

Lemma get_api_client_ok : forall E st m s st1,
  get_api_client E st m = Ok (s, st1) ->
  (mode_get m (api_clients st) = Some s /\ st1 = st) \/
  (mode_get m (api_clients st) = None /\ s = next_session st /\ st1 = snd (new_session m st)).
Proof.
  intros E st m s st1 H. unfold get_api_client in H.
  destruct (mode_get m (api_clients st)) as [s0|] eqn:Hc.
  - injection H as <- <-. left. split; reflexivity.
  - destruct (negb (credentials_present E)); [discriminate|].
    right. split; [reflexivity|]. exact (login_loop_ok _ _ _ _ _ _ _ H).
Qed.

Lemma get_api_client_connected : forall E st m s,
  mode_get m (api_clients st) = Some s -> get_api_client E st m = Ok (s, st).
Proof. intros E st m s H. unfold get_api_client. rewrite H. reflexivity. Qed.

(** [_invalidate_connection] drops the mode's session whatever the sign-off
    does, resets its flag and leaves the login counter alone. *)
Lemma invalidate_connection_clears : forall E st m,
  mode_get m (invalidating st) = false ->
  mode_get m (api_clients (fst (invalidate_connection E st m))) = None /\
  invalidating (fst (invalidate_connection E st m)) = invalidating st /\
  next_session (fst (invalidate_connection E st m)) = next_session st.
Proof.
  intros E st m H. unfold invalidate_connection. rewrite H.
  destruct (mode_get m (api_clients st)) as [s|] eqn:Hc.
  - destruct st as [[c1 c2] [i1 i2] p n]; destruct m; simpl in *; subst; repeat split.
  - repeat split; assumption.
Qed.

Lemma wf_state_spec : forall st,
  wf_state st = true ->
  invalidating st = (false, false) /\
  (forall b s, mode_get b (api_clients st) = Some s -> (s < next_session st)%nat).
Proof.
  intros [[c1 c2] [i1 i2] p n] H. unfold wf_state in H; simpl in H.
  apply andb_prop in H as [H H4]. apply andb_prop in H as [H H3].
  apply andb_prop in H as [H1 H2].
  destruct i1, i2; try discriminate. split; [reflexivity|].
  intros [|] s Hs; simpl in Hs; subst; simpl in *; apply Nat.ltb_lt; assumption.
Qed.

(** In mock mode no session is used. *)
Lemma handle_request_mock_session : forall E st req,
  dev_mock E = true -> out_session (handle_request E st req) = None.
Proof. intros E st req H. unfold handle_request. rewrite H. reflexivity. Qed.

(** A request on a mode without a session runs against a new one: the next
    login. *)
Lemma handle_request_fresh_session : forall E st req s,
  mode_get (Req.simulation req) (api_clients st) = None ->
  out_session (handle_request E st req) = Some s -> s = next_session st.
Proof.
  intros E st req s Hn Hs. destruct (dev_mock E) eqn:Hm.
  - rewrite handle_request_mock_session in Hs by assumption. discriminate.
  - destruct (handle_request_state E st req Hm)
      as [[e [_ [Hs' _]]] | [s0 [st1 [G [Hs' _]]]]]; rewrite Hs' in Hs; [discriminate|].
    injection Hs as <-. apply get_api_client_ok in G.
    destruct G as [[G _] | [_ [-> _]]]; [congruence | reflexivity].
Qed.

Lemma classify_not_fault : forall e, classify e <> ConnectionFault -> classify e = BusinessRejection.
Proof. intros e H. destruct (classify e); [contradiction | reflexivity]. Qed.

(** ** C6: invalidation after a connection fault *)

(** C6: when a request (outside mock mode, from a state the worker can be
    in) fails with an exception classified as a connection fault, the mode's
    session is detached: the mode is left with no session, whatever the
    sign-off of the old session does ([logout E] is arbitrary: done, failed or
    timed out), and the invalidation flags are back as they were. The session
    the failed request used is older than the login counter, and any later
    request on that mode runs against the session of the next login, so
    never against the stale one. *)
Theorem C6_connection_fault_detaches_session :
  forall (E : env) (st : wstate) (req : Req.t) (e : exn),
  wf_state st = true ->
  dev_mock E = false ->
  out_caught (handle_request E st req) = Some e ->
  classify e = ConnectionFault ->
  let m := Req.simulation req in
  let st' := out_state (handle_request E st req) in
  mode_get m (api_clients st') = None /\
  invalidating st' = invalidating st /\
  (forall s_old, out_session (handle_request E st req) = Some s_old -> (s_old < next_session st')%nat) /\
  (forall E2 req2 s2, Req.simulation req2 = m ->
     out_session (handle_request E2 st' req2) = Some s2 ->
     s2 = next_session st' /\
     (forall s_old, out_session (handle_request E st req) = Some s_old -> s2 <> s_old)).
Proof.
  intros E st req e Hwf Hm Hc Hk m st'.
  apply wf_state_spec in Hwf as [Hinv Hlt].
  assert (Hinv_m : forall st0, invalidating st0 = invalidating st -> mode_get m (invalidating st0) = false)
    by (intros st0 ->; rewrite Hinv; destruct m; reflexivity).
  (* the facts on the state the [except] clauses ran on *)
  assert (Hcore : exists st1,
            st' = fst (invalidate_connection E st1 m) /\ invalidating st1 = invalidating st /\
            forall s_old, out_session (handle_request E st req) = Some s_old ->
                          (s_old < next_session st1)%nat).
  { destruct (handle_request_state E st req Hm)
      as [[e0 [G [Hs [Hc0 [Hst _]]]]] | [s [st1 [G [Hs [[Hc0 _] | [e0 [Hc0 [Hst _]]]]]]]]].
    - rewrite Hc in Hc0. injection Hc0 as <-.
      exists st. split; [|split; [reflexivity|]].
      + unfold st'. rewrite Hst, except_clauses_state, Hk. reflexivity.
      + intros s_old Hs'. rewrite Hs in Hs'. discriminate.
    - rewrite Hc in Hc0. discriminate.
    - rewrite Hc in Hc0. injection Hc0 as <-.
      exists st1. split; [unfold st'; rewrite Hst, except_clauses_state, Hk; reflexivity|].
      apply get_api_client_ok in G.
      destruct G as [[Hg ->] | [Hg [-> ->]]].
      + split; [reflexivity|]. intros s_old Hs'. rewrite Hs in Hs'. injection Hs' as <-.
        exact (Hlt _ _ Hg).
      + split; [reflexivity|]. intros s_old Hs'. rewrite Hs in Hs'. injection Hs' as <-.
        simpl. lia. }
  destruct Hcore as [st1 [Hst [Hinv1 Hold]]].
  destruct (invalidate_connection_clears E st1 m (Hinv_m st1 Hinv1)) as [Hnone [Hi Hn]].
  rewrite <- Hst in Hnone, Hi, Hn.
  assert (Hold' : forall s_old, out_session (handle_request E st req) = Some s_old ->
                                (s_old < next_session st')%nat)
    by (intros s_old H; rewrite Hn; exact (Hold _ H)).
  split; [exact Hnone|]. split; [rewrite Hi; exact Hinv1|]. split; [exact Hold'|].
  intros E2 req2 s2 Hm2 Hs2.
  assert (Hfresh : s2 = next_session st')
    by (apply (handle_request_fresh_session E2 st' req2); [rewrite Hm2; exact Hnone | exact Hs2]).
  split; [exact Hfresh|].
  intros s_old Hs_old. specialize (Hold' _ Hs_old). lia.
Qed.

Lemma C6_connection_fault_detaches_session_witness :
  wf_state st_connected = true /\
  dev_mock (env_with false true sdk_token_expired) = false /\
  out_caught (handle_request (env_with false true sdk_token_expired) st_connected
                (Req.mk "r-6" "get_symbols" true (PDict [])))
  = Some (TokenError "Token is expired") /\
  classify (TokenError "Token is expired") = ConnectionFault /\
  mode_get true (api_clients (out_state (handle_request (env_with false true sdk_token_expired)
                                            st_connected (Req.mk "r-6" "get_symbols" true (PDict [])))))
  = None.
Proof.
  split; [reflexivity|]. split; [reflexivity|]. split; [vm_compute; reflexivity|].
  split; [reflexivity|].
  exact (proj1 (C6_connection_fault_detaches_session (env_with false true sdk_token_expired)
                  st_connected (Req.mk "r-6" "get_symbols" true (PDict []))
                  (TokenError "Token is expired") eq_refl eq_refl
                  ltac:(vm_compute; reflexivity) eq_refl)).
Defined.

(** ** C7: errors that are not connection faults *)

(** C7 does not hold as stated, first because the classification reads the
    exception's message: an unknown symbol whose name contains
    ["session down"] makes [get_contract_from_symbol] raise a [ValueError]
    ("Contract session down not found") that the [except Exception] clause
    treats as a connection error, and the simulation session is dropped;
    second because the connection is opened before the operation runs: a
    request rejected by the broker ([AccountNotSignError], answered
    [success=false]) on a mode without a session leaves a new session
    behind. *)
Lemma C7_rejections_change_connection :
  (let o := handle_request (env_with false true sdk_flat) st_connected
              (entry_request "r-7" "session down" 1 "Buy") in
   out_caught o = Some (ValueError "Contract session down not found") /\
   out_resp o = Ok (fail_resp "r-7" "Connection error: Contract session down not found") /\
   api_clients (out_state o) = (None, None) /\
   api_clients st_connected = (Some 0%nat, None)) /\
  (let o := handle_request (env_with false true sdk_not_signed) initial_state
              (entry_request "r-7" "X" 1 "Buy") in
   out_resp o = Ok (fail_resp "r-7" "Account not sign") /\
   api_clients (out_state o) = (Some 0%nat, None) /\
   api_clients initial_state = (None, None)).
Proof. split; vm_compute; repeat split. Qed.

(** C7 (as amended): outside mock mode, for a request on a mode whose
    session already exists, if the handling fails with nothing classified as
    a connection fault (a rejection caught by the order handlers, or an
    exception whose type and message are not a connection error's), the
    connection state of both modes is unchanged, and an exception caught by
    [_handle_request] is answered [success=false] with its message; the
    order handlers answer their rejections [success=false] with the
    message. *)
Theorem C7_non_fault_keeps_connection :
  forall (E : env) (st : wstate) (req : Req.t),
  dev_mock E = false ->
  mode_get (Req.simulation req) (api_clients st) <> None ->
  option_map classify (out_caught (handle_request E st req)) <> Some ConnectionFault ->
  conn_state (out_state (handle_request E st req)) = conn_state st /\
  (forall e, out_caught (handle_request E st req) = Some e ->
     out_resp (handle_request E st req) = Ok (fail_resp (Req.request_id req) (exn_str e))) /\
  (forall pending (body : handler_out) e,
     snd body = Raise e -> order_rejection e = true ->
     snd (catch_rejection (Req.request_id req) pending body)
     = Ok (fail_resp (Req.request_id req) (exn_str e), pending)).
Proof.
  intros E st req Hm Hsome Hk.
  destruct (mode_get (Req.simulation req) (api_clients st)) as [s0|] eqn:Hs0; [|contradiction].
  pose proof (get_api_client_connected E st _ _ Hs0) as G0.
  assert (Hbiz : forall e, out_caught (handle_request E st req) = Some e -> classify e = BusinessRejection)
    by (intros e He; apply classify_not_fault; intro Hf; apply Hk; rewrite He; simpl; rewrite Hf; reflexivity).
  destruct (handle_request_state E st req Hm)
    as [[e0 [G _]] | [s [st1 [G [_ [[Hc0 Hconn] | [e0 [Hc0 [Hst Hr]]]]]]]]];
    rewrite G0 in G; try discriminate; injection G as <- <-.
  - split; [exact Hconn|]. split.
    + intros e He. rewrite Hc0 in He. discriminate.
    + intros pending body e Hb Hrej. destruct body as [orders r]. simpl in *. subst r.
      rewrite Hrej. reflexivity.
  - pose proof (except_clauses_error E (Req.simulation req) (Req.request_id req) e0 st (Hbiz _ Hc0)) as Hx.
    rewrite Hx in Hst, Hr. simpl in Hst, Hr.
    split; [rewrite Hst; reflexivity|]. split.
    + intros e He. rewrite Hc0 in He. injection He as <-. exact Hr.
    + intros pending body e Hb Hrej. destruct body as [orders r]. simpl in *. subst r.
      rewrite Hrej. reflexivity.
Qed.

Lemma C7_non_fault_keeps_connection_witness :
  dev_mock (env_with false true sdk_flat) = false /\
  mode_get true (api_clients st_connected) <> None /\
  option_map classify (out_caught (handle_request (env_with false true sdk_flat) st_connected
                                     (entry_request "r-7" "FOO" 1 "Buy"))) <> Some ConnectionFault /\
  conn_state (out_state (handle_request (env_with false true sdk_flat) st_connected
                            (entry_request "r-7" "FOO" 1 "Buy"))) = conn_state st_connected.
Proof.
  split; [reflexivity|]. split; [vm_compute; discriminate|]. split; [vm_compute; discriminate|].
  exact (proj1 (C7_non_fault_keeps_connection (env_with false true sdk_flat) st_connected
                  (entry_request "r-7" "FOO" 1 "Buy") eq_refl
                  ltac:(vm_compute; discriminate) ltac:(vm_compute; discriminate))).
Defined.

(** ** C10: unknown operations *)

(** C10 does not hold as stated: outside mock mode the connection is opened
    before the operation is looked at, so with no session and no credentials
    an unknown operation is answered with the credentials error, not with one
    naming the operation. *)
Lemma C10_unknown_operation_without_credentials :
  out_resp (handle_request (env_with false false sdk_flat) initial_state
              (Req.mk "r-10" "bogus" true (PDict [])))
  = Ok (fail_resp "r-10"
          ("API credentials not found. Set API_KEY/SECRET_KEY environment variables "
           ++ "or API_KEY_FILE/SECRET_KEY_FILE for Docker secrets.")).
Proof. vm_compute. reflexivity. Qed.

(** C10 (as amended): for an operation that is none of the ten, the worker
    does not raise: it answers [success=false] with the request's id; the
    error is ["Unknown operation: " ++ op] in mock mode and whenever the
    mode's session exists or the login path succeeds; when the login path
    fails, the response is the one the [except] clauses make of its
    exception. *)
Theorem C10_unknown_operation :
  forall (E : env) (st : wstate) (req : Req.t),
  parse_op (Req.operation req) = None ->
  exists resp,
    out_resp (handle_request E st req) = Ok resp /\
    Resp.success resp = false /\
    Resp.request_id resp = Req.request_id req /\
    ((dev_mock E = true \/ exists s st1, get_api_client E st (Req.simulation req) = Ok (s, st1)) ->
     Resp.error resp = Some ("Unknown operation: " ++ Req.operation req)) /\
    (forall e, dev_mock E = false -> get_api_client E st (Req.simulation req) = Raise e ->
     resp = fst (except_clauses E (Req.simulation req) (Req.request_id req) e st)).
Proof.
  intros E st req Hp. unfold handle_request.
  destruct (dev_mock E) eqn:Hm.
  - unfold handle_mock_request. cbv zeta. rewrite Hp.
    eexists. split; [reflexivity|]. split; [reflexivity|]. split; [reflexivity|].
    split; [intros _; reflexivity|]. intros e H; discriminate.
  - cbv zeta. destruct (get_api_client E st (Req.simulation req)) as [[s st1]|e] eqn:G.
    + rewrite Hp. eexists. split; [reflexivity|]. split; [reflexivity|]. split; [reflexivity|].
      split; [intros _; reflexivity|]. intros e _ H; discriminate.
    + destruct (except_clauses E (Req.simulation req) (Req.request_id req) e st) as [r st'] eqn:X.
      pose proof (except_clauses_rid E (Req.simulation req) (Req.request_id req) e st) as [Hr Hs].
      rewrite X in Hr, Hs. simpl in Hr, Hs.
      exists r. split; [reflexivity|]. split; [exact Hs|]. split; [exact Hr|]. split.
      * intros [H | [s [st1 H]]]; discriminate.
      * intros e' _ H. injection H as <-. rewrite X. reflexivity.
Qed.

Lemma C10_unknown_operation_witness :
  parse_op "bogus" = None /\
  exists resp,
    out_resp (handle_request (env_with false true sdk_flat) st_connected
                (Req.mk "r-10" "bogus" true (PDict []))) = Ok resp /\
    Resp.success resp = false.
Proof.
  split; [reflexivity|].
  destruct (C10_unknown_operation (env_with false true sdk_flat) st_connected
              (Req.mk "r-10" "bogus" true (PDict [])) eq_refl) as [resp [H1 [H2 _]]].
  exists resp. split; [exact H1 | exact H2].
Defined.

(** ** Responses serialise *)

Lemma traverse_some : forall {A B} (f : A -> option B) xs,
  (forall x, In x xs -> f x <> None) -> traverse f xs <> None.
Proof.
  intros A B f xs. induction xs as [|x r IH]; intros H; simpl; [discriminate|].
  destruct (f x) eqn:Hx; [|exfalso; apply (H x); [left; reflexivity | exact Hx]].
  destruct (traverse f r) eqn:Hr; [discriminate|].
  exfalso. apply IH; [intros y Hy; apply H; right; exact Hy | reflexivity].
Qed.

Lemma dumpable_dumps : forall v, dumpable v = true -> dumps v <> None.
Proof.
  apply (pyval_ind' (fun v => dumpable v = true -> dumps v <> None));
    try (intros; simpl; discriminate).
  - intros xs H Hd. simpl in Hd |- *. rewrite Forall_forall in H. rewrite forallb_forall in Hd.
    destruct (traverse dumps xs) eqn:Ht; [discriminate|].
    exfalso. revert Ht. apply traverse_some. intros x Hx. apply H; [exact Hx | apply Hd, Hx].
  - intros xs H Hd. simpl in Hd |- *. rewrite Forall_forall in H. rewrite forallb_forall in Hd.
    destruct (traverse dumps xs) eqn:Ht; [discriminate|].
    exfalso. revert Ht. apply traverse_some. intros x Hx. apply H; [exact Hx | apply Hd, Hx].
  - intros kvs H Hd. simpl in Hd |- *. rewrite Forall_forall in H. rewrite forallb_forall in Hd.
    match goal with |- option_map _ ?t <> None => destruct t eqn:Ht end; [discriminate|].
    exfalso. revert Ht. apply traverse_some. intros [k x] Hx.
    pose proof (Hd _ Hx) as Hkx. simpl in Hkx |- *. apply andb_prop in Hkx as [Hk Hv].
    destruct (dump_key k) as [s|]; [|discriminate Hk].
    destruct (dumps x) eqn:Hj; [discriminate|]. exfalso. exact (H _ Hx Hv Hj).
Qed.

Lemma dumpable_cons : forall kv l,
  dumpable (PDict (kv :: l)) = (is_some (dump_key (fst kv)) && dumpable (snd kv)) && dumpable (PDict l).
Proof. reflexivity. Qed.

Lemma dict_set_str_dumpable : forall d k v,
  dumpable (PDict d) = true -> dumpable v = true -> dumpable (PDict (dict_set_str d k v)) = true.
Proof.
  induction d as [|[k' v'] r IH]; intros k v Hd Hv.
  - simpl. rewrite Hv. reflexivity.
  - simpl in Hd. apply andb_prop in Hd as [Hkv Hr].
    assert (Hrest : dumpable (PDict (dict_set_str r k v)) = true) by (apply IH; assumption).
    cbn [dict_set_str].
    destruct k'; try (rewrite dumpable_cons; cbn [fst snd]; rewrite Hkv, Hrest; reflexivity).
    match goal with |- context [String.eqb ?a k] => destruct (String.eqb a k) end;
      rewrite dumpable_cons; cbn [fst snd]; [simpl; rewrite Hv; exact Hr | rewrite Hkv, Hrest; reflexivity].
Qed.

Lemma dict_of_pairs_dumpable : forall pairs,
  forallb (fun kv => dumpable (snd kv)) pairs = true -> dumpable (PDict (dict_of_pairs pairs)) = true.
Proof.
  intros pairs. unfold dict_of_pairs.
  assert (G : forall acc, dumpable (PDict acc) = true ->
            forallb (fun kv => dumpable (snd kv)) pairs = true ->
            dumpable (PDict (fold_left (fun acc kv => dict_set_str acc (fst kv) (snd kv)) pairs acc)) = true).
  { induction pairs as [|[k v] r IH]; intros acc Ha Hp; simpl in *; [exact Ha|].
    apply andb_prop in Hp as [Hv Hr]. apply IH; [apply dict_set_str_dumpable|]; assumption. }
  intros H. apply G; [reflexivity | exact H].
Qed.

Lemma forallb_map_eq : forall {A B} (f : B -> bool) (g : A -> B) l,
  forallb f (map g l) = forallb (fun x => f (g x)) l.
Proof. intros A B f g l. induction l as [|x r IH]; simpl; [reflexivity | rewrite IH; reflexivity]. Qed.

Lemma loads_dumpable : forall j, dumpable (loads j) = true.
Proof.
  apply json_ind'; try reflexivity.
  - intros xs H. simpl. rewrite forallb_map_eq. apply forallb_forall.
    rewrite Forall_forall in H. exact H.
  - intros kvs H. simpl. apply dict_of_pairs_dumpable. rewrite forallb_map_eq.
    apply forallb_forall. rewrite Forall_forall in H. exact H.
Qed.

Lemma find_dumpable : forall (p : pyval * pyval -> bool) kvs kv,
  dumpable (PDict kvs) = true -> find p kvs = Some kv -> dumpable (snd kv) = true.
Proof.
  intros p kvs kv Hd Hf. apply find_some in Hf as [Hin _].
  simpl in Hd. rewrite forallb_forall in Hd. apply Hd in Hin. apply andb_prop in Hin as [_ H]. exact H.
Qed.

Lemma from_json_req_dumpable : forall j r, from_json_req j = Some r -> dumpable (Req.params r) = true.
Proof.
  intros j r H. unfold from_json_req in H. pose proof (loads_dumpable j) as Hd.
  destruct (loads j) as [| | | | | | |d]; try discriminate.
  destruct (kwargs_known _ d); [|discriminate].
  unfold kwarg in H.
  destruct (find _ d) as [[k1 v1]|]; [|discriminate]. simpl in H.
  destruct v1; try discriminate.
  destruct (find (fun kv => match fst kv with PStr s => String.eqb s "operation" | _ => false end) d)
    as [[k2 v2]|]; [|discriminate]. simpl in H. destruct v2; try discriminate.
  destruct (find (fun kv => match fst kv with PStr s => String.eqb s "simulation" | _ => false end) d)
    as [[k3 v3]|]; [|discriminate]. simpl in H. destruct v3; try discriminate.
  destruct (find (fun kv => match fst kv with PStr s => String.eqb s "params" | _ => false end) d)
    as [[k4 v4]|] eqn:Hf; [|discriminate]. simpl in H. injection H as <-. simpl.
  exact (find_dumpable _ d (k4, v4) Hd Hf).
Qed.

Lemma getitem_dumpable : forall d k v, dumpable d = true -> getitem d k = Ok v -> dumpable v = true.
Proof.
  intros d k v Hd H. destruct d; try discriminate. unfold getitem in H.
  destruct (find _ kvs) as [[k' v']|] eqn:Hf; [|discriminate]. injection H as <-.
  exact (find_dumpable _ kvs (k', v') Hd Hf).
Qed.

Lemma py_get_dumpable : forall d k dflt v,
  dumpable d = true -> dumpable dflt = true -> py_get d k dflt = Ok v -> dumpable v = true.
Proof.
  intros d k dflt v Hd Hdf H. destruct d; try discriminate. unfold py_get in H.
  destruct (find _ kvs) as [[k' v']|] eqn:Hf; injection H as <-; [|exact Hdf].
  exact (find_dumpable _ kvs (k', v') Hd Hf).
Qed.

Lemma py_upper_str : forall p v, py_upper p = Ok v -> exists s, v = PStr s.
Proof. intros p v H. destruct p; try discriminate. injection H as <-. eexists; reflexivity. Qed.

Lemma entry_quantity_dumpable : forall a q pos q',
  dumpable q = true -> entry_quantity a q pos = Ok q' -> dumpable q' = true.
Proof.
  intros a q pos q' Hq H. unfold entry_quantity, py_sub, py_add in H.
  destruct a; [destruct (pos <? 0) | destruct (0 <? pos)];
    try (injection H as <-; exact Hq);
    destruct (as_int q); try (injection H as <-; reflexivity);
    destruct q; try discriminate; destruct (float_of_Z _); try discriminate;
    injection H as <-; reflexivity.
Qed.

Lemma catch_rejection_data : forall rid pending body resp p,
  (forall resp p, snd body = Ok (resp, p) -> dumpable (Resp.data resp) = true) ->
  snd (catch_rejection rid pending body) = Ok (resp, p) -> dumpable (Resp.data resp) = true.
Proof.
  intros rid pending [orders r] resp p Hb H. simpl in *.
  destruct r as [[resp0 p0]|e].
  - injection H as <- <-. exact (Hb _ _ eq_refl).
  - destruct (order_rejection e); [|discriminate]. injection H as <- <-. reflexivity.
Qed.

Lemma handle_entry_order_dumpable : forall api pending rid params resp p,
  dumpable params = true ->
  snd (handle_entry_order api pending rid params) = Ok (resp, p) -> dumpable (Resp.data resp) = true.
Proof.
  intros api pending rid params resp p Hd. unfold handle_entry_order.
  destruct (getitem params "symbol") eqn:G1, (getitem params "quantity") eqn:G2,
    (getitem params "action") eqn:G3; try discriminate.
  apply catch_rejection_data. intros resp0 p0.
  destruct (get_contract_from_symbol api _); [|discriminate].
  destruct (get_current_position api _); [|discriminate].
  destruct (entry_quantity _ _ _) eqn:Hq; [|discriminate].
  destruct (place_order api _ _); [|discriminate].
  simpl. intros H. injection H as <- <-. simpl.
  rewrite (getitem_dumpable _ _ _ Hd G3), (getitem_dumpable _ _ _ Hd G2).
  rewrite (entry_quantity_dumpable _ _ _ _ (getitem_dumpable _ _ _ Hd G2) Hq). reflexivity.
Qed.

Lemma handle_exit_order_dumpable : forall api pending rid params resp p,
  snd (handle_exit_order api pending rid params) = Ok (resp, p) -> dumpable (Resp.data resp) = true.
Proof.
  intros api pending rid params resp p. unfold handle_exit_order.
  destruct (getitem params "symbol"), (getitem params "position_direction"); try discriminate.
  apply catch_rejection_data. intros resp0 p0.
  destruct (get_contract_from_symbol api _); [|discriminate].
  destruct (get_current_position api _); [|discriminate].
  destruct (exit_decision _ _) as [[act q]|]; [|simpl; intros H; injection H as <- <-; reflexivity].
  destruct (place_order api _ _); [|discriminate].
  simpl. intros H. injection H as <- <-. reflexivity.
Qed.

Lemma py_get_dict : forall kvs k dflt, exists v, py_get (PDict kvs) k dflt = Ok v.
Proof.
  intros kvs k dflt. unfold py_get. destruct (find _ kvs) as [[k' v']|]; eexists; reflexivity.
Qed.

Lemma handle_mock_request_ok : forall E req,
  dumpable (Req.params req) = true -> producer_params (Req.params req) = true ->
  exists resp, handle_mock_request E req = Ok resp /\
               Resp.request_id resp = Req.request_id req /\ dumpable (Resp.data resp) = true.
Proof.
  intros E [rid op sim ps] Hd Hp. simpl in Hd, Hp |- *.
  destruct ps as [| | | | | | |kvs]; try discriminate. unfold producer_params in Hp.
  destruct (py_get (PDict kvs) "product" (PStr "MXF")) as [[| | | |s| | |]|] eqn:Gp; try discriminate.
  unfold handle_mock_request. cbv zeta. simpl Req.params. simpl Req.operation.
  destruct (parse_op op) as [o|]; [|eexists; split; [reflexivity|split; reflexivity]].
  destruct o; unfold bind; try rewrite Gp;
  repeat match goal with
         | |- context [py_get (PDict kvs) ?k ?df] =>
             let G := fresh "G" in
             destruct (py_get_dict kvs k df) as [? G]; rewrite G;
             apply (py_get_dumpable _ _ _ _ Hd (eq_refl : dumpable df = true)) in G
         end;
  (eexists; split; [reflexivity|]; split; [reflexivity|]); simpl;
  repeat rewrite andb_true_r; repeat (apply andb_true_intro; split); simpl; auto; try reflexivity.
Qed.

Lemma except_clauses_no_data : forall E m rid e st0 r st',
  except_clauses E m rid e st0 = (r, st') -> Resp.data r = PNone.
Proof.
  intros E m rid e st0 r st' H. unfold except_clauses in H.
  destruct e; try (destruct (is_connection_error _)); injection H as <- _; reflexivity.
Qed.

Lemma handle_request_dumpable : forall E st req,
  (forall m s, sdk_dumpable (session_api E m s)) -> dumpable (Req.params req) = true ->
  dev_mock E = false ->
  forall resp, out_resp (handle_request E st req) = Ok resp -> dumpable (Resp.data resp) = true.
Proof.
  intros E st req Hsdk Hd Hm resp. unfold handle_request. rewrite Hm. cbv zeta. unfold bind.
  repeat (split_inner_match; cbv beta iota in * ); try discriminate; simpl; intros H; injection H as <-.
  all: try first
    [ reflexivity
    | match goal with
      | Hx : except_clauses _ _ _ _ _ = (_, _) |- _ => rewrite (except_clauses_no_data _ _ _ _ _ _ _ Hx); reflexivity
      | Hx : catalogue _ _ = Ok _ |- _ => exact (proj1 (Hsdk _ _) _ _ Hx)
      | Hx : update_status _ _ = Ok _ |- _ => exact (proj1 (proj2 (Hsdk _ _)) _ _ Hx)
      | Hx : handle_entry_order _ _ _ _ = (_, Ok (_, _)) |- _ =>
          eapply handle_entry_order_dumpable; [exact Hd | rewrite Hx; reflexivity]
      | Hx : handle_exit_order _ _ _ _ = (_, Ok (_, _)) |- _ =>
          eapply handle_exit_order_dumpable; rewrite Hx; reflexivity
      end ].
  all: destruct (py_upper_str _ _ Hx4) as [? ->].
  all: pose proof (proj2 (proj2 (Hsdk (Req.simulation req) n)) (py_str (PStr x))) as Hc; rewrite Hx5 in Hc.
  cbn [Resp.data dumpable forallb fst snd]. simpl in Hc. rewrite Hc. reflexivity.
Qed.

Lemma to_json_resp_some : forall resp,
  dumpable (Resp.data resp) = true -> exists doc, to_json_resp resp = Some doc.
Proof.
  intros resp Hd. destruct (to_json_resp resp) as [doc|] eqn:Hj; [eexists; reflexivity|].
  exfalso. apply (dumpable_dumps (asdict_resp resp)); [|exact Hj].
  destruct resp as [rid ok d e]. simpl in Hd |- *. rewrite Hd. destruct e; reflexivity.
Qed.

(** ** C2: one response per request *)

(** Outside mock mode, each popped request is answered once, on the key made
    from its id, followed by the 60-second expiry (provided the response
    serialises). *)
Lemma run_step_production_responds : forall tenant st E r,
  dev_mock E = false ->
  exists resp,
    out_resp (handle_request E st r) = Ok resp /\
    Resp.request_id resp = Req.request_id r /\
    snd (run_step tenant st (Popped E r))
    = match to_json_resp resp with
      | Some doc => [RPush (response_key tenant (Req.request_id r)) doc;
                     Expire (response_key tenant (Req.request_id r)) 60]
      | None => []
      end.
Proof.
  intros tenant st E r Hm.
  destruct (handle_request_responds E st r Hm) as [resp [H1 H2]].
  exists resp. split; [exact H1|]. split; [exact H2|].
  simpl. rewrite H1. destruct (to_json_resp resp); reflexivity.
Qed.

Lemma run_step_production_responds_witness :
  dev_mock (env_with false true sdk_flat) = false /\
  exists resp,
    out_resp (handle_request (env_with false true sdk_flat) st_connected req_bad_product) = Ok resp.
Proof.
  split; [reflexivity|].
  destruct (run_step_production_responds "" st_connected (env_with false true sdk_flat)
              req_bad_product eq_refl) as [resp [H _]].
  exists resp. exact H.
Defined.

(** C2: every request popped from the queue (a decoded document, so its
    params hold only JSON values) gets exactly one response: the response
    carries the request's id, and the step's only Redis commands are one push
    of it onto the key made from that id followed by its 60-second expiry.
    The session's SDK answers are assumed to be JSON-encodable; in mock mode
    the params are as every producer sends them (a dict whose ["product"],
    if present, is a str: src/main.py and src/gateway/main.py pass the path
    parameter, a str). *)
Theorem C2_one_response_per_request : forall tenant st E j r,
  from_json_req j = Some r ->
  (forall m s, sdk_dumpable (session_api E m s)) ->
  (dev_mock E = true -> producer_params (Req.params r) = true) ->
  exists resp doc,
    out_resp (handle_request E st r) = Ok resp /\
    Resp.request_id resp = Req.request_id r /\
    to_json_resp resp = Some doc /\
    snd (run_step tenant st (Popped E r)) =
      [RPush (response_key tenant (Req.request_id r)) doc;
       Expire (response_key tenant (Req.request_id r)) 60].
Proof.
  intros tenant st E j r Hj Hsdk Hp.
  pose proof (from_json_req_dumpable _ _ Hj) as Hd.
  assert (Hr : exists resp, out_resp (handle_request E st r) = Ok resp /\
                 Resp.request_id resp = Req.request_id r /\ dumpable (Resp.data resp) = true).
  { destruct (dev_mock E) eqn:Hm.
    - destruct (handle_mock_request_ok E r Hd (Hp eq_refl)) as [resp [H1 [H2 H3]]].
      exists resp. unfold handle_request. rewrite Hm. simpl. auto.
    - destruct (handle_request_responds E st r Hm) as [resp [H1 H2]].
      exists resp. split; [exact H1|]. split; [exact H2|].
      exact (handle_request_dumpable E st r Hsdk Hd Hm resp H1). }
  destruct Hr as [resp [H1 [H2 H3]]]. destruct (to_json_resp_some resp H3) as [doc Hdoc].
  exists resp, doc. split; [exact H1|]. split; [exact H2|]. split; [exact Hdoc|].
  simpl. rewrite H1, Hdoc. reflexivity.
Qed.


Lemma C2_one_response_per_request_witness :
  from_json_req req_mock_product_doc = Some req_mock_product /\
  exists resp doc,
    out_resp (handle_request (env_with true true sdk_flat) initial_state req_mock_product) = Ok resp /\
    Resp.request_id resp = "r-2" /\
    to_json_resp resp = Some doc /\
    snd (run_step "t1" initial_state (Popped (env_with true true sdk_flat) req_mock_product)) =
      [RPush (response_key "t1" "r-2") doc; Expire (response_key "t1" "r-2") 60].
Proof.
  split; [reflexivity|].
  apply (C2_one_response_per_request "t1" initial_state (env_with true true sdk_flat)
           req_mock_product_doc req_mock_product).
  - reflexivity.
  - intros m s. split; [|split].
    + intros op d H. cbn in H. injection H as <-. reflexivity.
    + intros t d H. cbn in H. injection H as <-. reflexivity.
    + intros p. reflexivity.
  - intros _. reflexivity.
Defined.

(** ** Redis database slots *)

Lemma find_seq_Z : forall (p : Z -> bool) len a n,
  find p (map Z.of_nat (seq a len)) = Some n ->
  (Z.of_nat a <= n < Z.of_nat (a + len))%Z /\ p n = true /\
  (forall k, (Z.of_nat a <= k < n)%Z -> p k = false).
Proof.
  intros p len. induction len as [|len IH]; intros a n H; simpl in H; [discriminate|].
  destruct (p (Z.of_nat a)) eqn:Ha.
  - injection H as <-. split; [lia|]. split; [exact Ha|]. intros k Hk; lia.
  - destruct (IH (S a) n H) as [Hr [Hp Hlow]]. split; [lia|]. split; [exact Hp|].
    intros k Hk. destruct (Z.eq_dec k (Z.of_nat a)) as [->|Hne]; [exact Ha|].
    apply Hlow. lia.
Qed.

Lemma find_seq_Z_none : forall (p : Z -> bool) len a,
  find p (map Z.of_nat (seq a len)) = None ->
  forall k, (Z.of_nat a <= k < Z.of_nat (a + len))%Z -> p k = false.
Proof.
  intros p len. induction len as [|len IH]; intros a H k Hk; simpl in H; [lia|].
  destruct (p (Z.of_nat a)) eqn:Ha; [discriminate|].
  destruct (Z.eq_dec k (Z.of_nat a)) as [->|Hne]; [exact Ha|].
  apply (IH (S a) H). lia.
Qed.

Lemma used_slot_spec : forall (tbl : list winst) k,
  existsb (Z.eqb k) (map wi_redis_db (filter (fun i => holds_redis_db (wi_status i)) tbl)) = true <->
  exists i, In i tbl /\ holds_redis_db (wi_status i) = true /\ wi_redis_db i = k.
Proof.
  intros tbl k. rewrite existsb_exists. split.
  - intros [x [Hx Hk]]. apply in_map_iff in Hx as [i [<- Hi]].
    apply filter_In in Hi as [Hi Hh]. apply Z.eqb_eq in Hk.
    exists i. repeat split; auto.
  - intros [i [Hi [Hh <-]]]. exists (wi_redis_db i). split; [|apply Z.eqb_refl].
    apply in_map. apply filter_In. auto.
Qed.

(** [allocate_redis_db] returns the lowest of 0..15 that no instance in
    [PENDING], [STARTING], [RUNNING] or [HIBERNATING] holds, and fails
    exactly when all sixteen are held. *)
Lemma allocate_redis_db_lowest : forall tbl n,
  allocate_redis_db tbl = inr n ->
  (0 <= n < 16)%Z /\
  (forall i, In i tbl -> holds_redis_db (wi_status i) = true -> wi_redis_db i <> n) /\
  (forall k, (0 <= k < n)%Z ->
     exists i, In i tbl /\ holds_redis_db (wi_status i) = true /\ wi_redis_db i = k).
Proof.
  intros tbl n H. unfold allocate_redis_db in H.
  destruct (find _ _) as [n'|] eqn:Hf; [|discriminate]. injection H as <-.
  apply find_seq_Z in Hf as [Hr [Hp Hlow]]. simpl in Hr. split; [lia|]. split.
  - intros i Hi Hh Heq. apply negb_true_iff in Hp.
    assert (Hu : existsb (Z.eqb n') (map wi_redis_db (filter (fun i => holds_redis_db (wi_status i)) tbl)) = true)
      by (apply used_slot_spec; exists i; auto).
    congruence.
  - intros k Hk. apply used_slot_spec. specialize (Hlow k ltac:(simpl; lia)).
    apply negb_false_iff in Hlow. exact Hlow.
Qed.

Lemma allocate_redis_db_full : forall tbl e,
  allocate_redis_db tbl = inl e ->
  forall k, (0 <= k < 16)%Z ->
  exists i, In i tbl /\ holds_redis_db (wi_status i) = true /\ wi_redis_db i = k.
Proof.
  intros tbl e H k Hk. unfold allocate_redis_db in H.
  destruct (find _ _) eqn:Hf; [discriminate|].
  apply used_slot_spec. pose proof (find_seq_Z_none _ 16 0 Hf k ltac:(simpl; lia)) as Hn.
  apply negb_false_iff in Hn. exact Hn.
Qed.

Lemma allocate_redis_db_lowest_witness :
  allocate_redis_db [winst_at 0 RUNNING 0; winst_at 1 STOPPED 1] = inr 1%Z /\ (0 <= 1 < 16)%Z.
Proof.
  split; [reflexivity|].
  exact (proj1 (allocate_redis_db_lowest [winst_at 0 RUNNING 0; winst_at 1 STOPPED 1] 1 eq_refl)).
Defined.

(** The scenario of the spec: sixteen allocations from an empty table give
    the slots 0..15 in order, a seventeenth fails, and after the release of
    the second tenant's instance the next allocation is slot 1. *)
Lemma slot_allocation_scenario :
  match allocate_each [] (seq 0 16) with
  | inr tbl =>
      map wi_redis_db tbl = map Z.of_nat (seq 0 16) /\
      allocate_redis_db tbl
      = inl (TenantServiceError "No available Redis database slots (max 15 tenants)") /\
      allocate_redis_db (release_redis_db tbl 1) = inr 1%Z
  | inl _ => False
  end.
Proof. vm_compute. split; [reflexivity|]. split; reflexivity. Qed.

Lemma no_stopping_replace : forall d i,
  no_stopping (instances d) = true -> wstatus_eqb (wi_status i) STOPPING = false ->
  no_stopping (instances (replace_instance d i)) = true.
Proof.
  intros d i Hd Hi. unfold no_stopping in *. cbn [instances replace_instance].
  rewrite forallb_forall in *. intros j Hj. apply in_map_iff in Hj as [j0 [<- Hj0]].
  destruct (Nat.eqb (wi_tenant j0) (wi_tenant i)); [rewrite Hi; reflexivity | exact (Hd _ Hj0)].
Qed.

Lemma no_stopping_app : forall l1 l2,
  no_stopping (l1 ++ l2)%list = no_stopping l1 && no_stopping l2.
Proof. intros l1 l2. unfold no_stopping. apply forallb_app. Qed.

Lemma no_stopping_remove_first : forall p l,
  no_stopping l = true -> no_stopping (remove_first p l) = true.
Proof.
  intros p l. induction l as [|x r IH]; intros H; [reflexivity|].
  simpl in H |- *. apply andb_prop in H as [Hx Hr].
  destruct (p x); [exact Hr|]. simpl. rewrite Hx. exact (IH Hr).
Qed.

Ltac ns_done :=
  first
    [ assumption
    | match goal with
      | |- no_stopping (instances (add_audit _ _ _)) = true => cbn [instances add_audit]; ns_done
      | |- no_stopping (instances (replace_instance _ _)) = true =>
          apply no_stopping_replace; [ns_done | reflexivity]
      | |- no_stopping (instances (add_instance _ _)) = true =>
          cbn [instances add_instance]; rewrite no_stopping_app; apply andb_true_intro;
          split; [ns_done | reflexivity]
      | |- no_stopping (instances {| instances := release_redis_db _ _ |}) = true =>
          cbn [instances]; apply no_stopping_remove_first; ns_done
      end ].

Lemma create_worker_no_stopping : forall d t ok dc,
  no_stopping (instances d) = true -> no_stopping (instances (snd (create_worker d t ok dc))) = true.
Proof.
  intros d t ok dc H. unfold create_worker.
  repeat (split_inner_match; cbv beta iota in * ); cbn [snd fst]; try ns_done.
Qed.

Lemma start_worker_no_stopping : forall d t now ds,
  no_stopping (instances d) = true -> no_stopping (instances (snd (start_worker d t now ds))) = true.
Proof.
  intros d t now ds H. unfold start_worker.
  repeat (split_inner_match; cbv beta iota in * ); cbn [snd fst]; ns_done.
Qed.

Lemma stop_worker_no_stopping : forall d t now dk,
  no_stopping (instances d) = true -> no_stopping (instances (snd (stop_worker d t now dk))) = true.
Proof.
  intros d t now dk H. unfold stop_worker.
  repeat (split_inner_match; cbv beta iota in * ); cbn [snd fst]; ns_done.
Qed.

Lemma hibernate_worker_no_stopping : forall d t now dk,
  no_stopping (instances d) = true -> no_stopping (instances (snd (hibernate_worker d t now dk))) = true.
Proof.
  intros d t now dk H. unfold hibernate_worker.
  repeat (split_inner_match; cbv beta iota in * ); cbn [snd fst]; ns_done.
Qed.

Lemma wake_worker_no_stopping : forall d t now dk,
  no_stopping (instances d) = true -> no_stopping (instances (snd (wake_worker d t now dk))) = true.
Proof.
  intros d t now dk H. unfold wake_worker.
  repeat (split_inner_match; cbv beta iota in * ); cbn [snd fst]; ns_done.
Qed.

Lemma destroy_worker_no_stopping : forall d t dk,
  no_stopping (instances d) = true -> no_stopping (instances (snd (destroy_worker d t dk))) = true.
Proof.
  intros d t dk H. unfold destroy_worker.
  repeat (split_inner_match; cbv beta iota in * ); cbn [snd fst]; ns_done.
Qed.

Lemma admin_start_worker_no_stopping : forall d t now ok dc ds dk,
  no_stopping (instances d) = true ->
  no_stopping (instances (snd (admin_start_worker d t now ok dc ds dk))) = true.
Proof.
  intros d t now ok dc ds dk H. unfold admin_start_worker.
  destruct (get_worker_instance d t) as [i|].
  - destruct (existsb _ _); [apply start_worker_no_stopping; exact H|].
    destruct (wstatus_eqb _ _); [apply wake_worker_no_stopping; exact H | exact H].
  - pose proof (create_worker_no_stopping d t ok dc H) as Hc.
    destruct (create_worker d t ok dc) as [[calls r] d1]. cbn [snd] in Hc.
    destruct r; [exact Hc | apply start_worker_no_stopping; exact Hc].
Qed.

Lemma reachable_no_stopping : forall d, reachable d -> no_stopping (instances d) = true.
Proof.
  intros d Hr. induction Hr as [d H | d d' Hr IH Hs].
  - rewrite H. reflexivity.
  - destruct Hs as [d d' He | | | | | | |].
    + rewrite He. exact IH.
    + apply create_worker_no_stopping; exact IH.
    + apply start_worker_no_stopping; exact IH.
    + apply stop_worker_no_stopping; exact IH.
    + apply hibernate_worker_no_stopping; exact IH.
    + apply wake_worker_no_stopping; exact IH.
    + apply destroy_worker_no_stopping; exact IH.
    + apply admin_start_worker_no_stopping; exact IH.
Qed.

Lemma holds_redis_db_nonterminal : forall tbl i,
  no_stopping tbl = true -> In i tbl -> holds_redis_db (wi_status i) = nonterminal (wi_status i).
Proof.
  intros tbl i H Hi. unfold no_stopping in H. rewrite forallb_forall in H.
  specialize (H i Hi). destruct (wi_status i); try reflexivity. discriminate H.
Qed.

Lemma allocate_redis_db_held : forall tbl n,
  allocate_redis_db tbl = inr n ->
  (0 <= n < 16)%Z /\
  (forall i, In i tbl -> holds_redis_db (wi_status i) = true -> wi_redis_db i <> n) /\
  (forall k, (0 <= k < n)%Z ->
     exists i, In i tbl /\ holds_redis_db (wi_status i) = true /\ wi_redis_db i = k).
Proof.
  intros tbl n H. unfold allocate_redis_db in H.
  destruct (find _ _) as [n'|] eqn:Hf; [|discriminate]. injection H as <-.
  apply find_seq_Z in Hf as [Hr [Hp Hlow]]. simpl in Hr. split; [lia|]. split.
  - intros i Hi Hh Heq. apply negb_true_iff in Hp.
    assert (Hu : existsb (Z.eqb n') (map wi_redis_db (filter (fun i => holds_redis_db (wi_status i)) tbl)) = true)
      by (apply used_slot_spec; exists i; auto).
    congruence.
  - intros k Hk. apply used_slot_spec. specialize (Hlow k ltac:(simpl; lia)).
    apply negb_false_iff in Hlow. exact Hlow.
Qed.

(** C3: from an empty table, sixteen allocations (each recorded as a new
    [PENDING] row) give the slots 0..15 to tenants 0..15, a seventeenth
    raises the exhaustion error, and after the release of tenant 1's row the
    next allocation is slot 1. On every database the lifecycle code can reach
    (no code path writes [STOPPING], so no row is in it), allocation returns
    the lowest slot of 0..15 that no non-terminal instance uses, and fails
    only when every slot is used by one. *)
Theorem C3_slot_allocation :
  (match allocate_each [] (seq 0 16) with
   | inr tbl =>
       map wi_tenant tbl = seq 0 16 /\
       map wi_redis_db tbl = map Z.of_nat (seq 0 16) /\
       forallb (fun i => nonterminal (wi_status i)) tbl = true /\
       allocate_redis_db tbl
       = inl (TenantServiceError "No available Redis database slots (max 15 tenants)") /\
       allocate_redis_db (release_redis_db tbl 1) = inr 1%Z
   | inl _ => False
   end) /\
  (forall d, reachable d ->
     (forall n, allocate_redis_db (instances d) = inr n ->
        (0 <= n < 16)%Z /\
        (forall i, In i (instances d) -> nonterminal (wi_status i) = true -> wi_redis_db i <> n) /\
        (forall k, (0 <= k < n)%Z -> exists i, In i (instances d) /\
                     nonterminal (wi_status i) = true /\ wi_redis_db i = k)) /\
     (forall e, allocate_redis_db (instances d) = inl e ->
        forall k, (0 <= k < 16)%Z -> exists i, In i (instances d) /\
                     nonterminal (wi_status i) = true /\ wi_redis_db i = k)).
Proof.
  split.
  - vm_compute. repeat split; reflexivity.
  - intros d Hr. pose proof (reachable_no_stopping d Hr) as Hns. split.
    + intros n H. destruct (allocate_redis_db_held _ _ H) as [Hn [Hfree Hlow]].
      split; [exact Hn|]. split.
      * intros i Hi Ht. apply Hfree; [exact Hi|]. rewrite (holds_redis_db_nonterminal _ _ Hns Hi). exact Ht.
      * intros k Hk. destruct (Hlow k Hk) as [i [Hi [Hh Hik]]]. exists i.
        rewrite <- (holds_redis_db_nonterminal _ _ Hns Hi). auto.
    + intros e H k Hk. destruct (allocate_redis_db_full _ _ H k Hk) as [i [Hi [Hh Hik]]]. exists i.
      rewrite <- (holds_redis_db_nonterminal _ _ Hns Hi). auto.
Qed.


Lemma C3_slot_allocation_witness :
  reachable (snd (create_worker (snd (create_worker db_two_workers 0 true (inr "c-0"))) 1 true (inr "c-1"))) /\
  allocate_redis_db (instances (snd (create_worker (snd (create_worker db_two_workers 0 true (inr "c-0")))
                                       1 true (inr "c-1")))) = inr 2%Z /\
  (0 <= 2 < 16)%Z.
Proof.
  assert (Hr : reachable (snd (create_worker (snd (create_worker db_two_workers 0 true (inr "c-0")))
                                1 true (inr "c-1")))).
  { apply reach_step with (d := snd (create_worker db_two_workers 0 true (inr "c-0"))); [|apply StepCreate].
    apply reach_step with (d := db_two_workers); [|apply StepCreate].
    apply reach_init. reflexivity. }
  assert (Ha : allocate_redis_db (instances (snd (create_worker (snd (create_worker db_two_workers 0
                   true (inr "c-0"))) 1 true (inr "c-1")))) = inr 2%Z) by (vm_compute; reflexivity).
  split; [exact Hr|]. split; [exact Ha|].
  exact (proj1 (proj1 (proj2 C3_slot_allocation _ Hr) 2 Ha)).
Defined.

(** ** Worker lifecycle *)

Lemma existsb_nat_In : forall (x : nat) l, existsb (Nat.eqb x) l = true <-> In x l.
Proof.
  intros x l. rewrite existsb_exists. split.
  - intros [y [Hy Hxy]]. apply Nat.eqb_eq in Hxy. subst. exact Hy.
  - intros Hx. exists x. split; [exact Hx | apply Nat.eqb_refl].
Qed.

(** C5 does not hold as stated: the check for a live instance comes before
    the credential check, so a tenant with a [RUNNING] instance and no
    Shioaji credential row gets [WorkerAlreadyRunningError], not
    [CredentialsNotFoundError]. *)
Lemma C5_running_tenant_without_credentials :
  ~ In 0%nat (shioaji_creds db_running_no_creds) /\
  create_worker db_running_no_creds 0 true (inr "c-1")
  = ([], inl (WorkerAlreadyRunningError "Worker for tenant already exists"), db_running_no_creds).
Proof. split; [simpl; tauto | reflexivity]. Qed.

(** C5 (as amended): for an existing tenant, [create_worker] raises
    [WorkerAlreadyRunningError] when the tenant's instance is in a status
    other than [STOPPED] and [ERROR]; otherwise, when the tenant has no
    Shioaji credential row, it raises [CredentialsNotFoundError]. In both
    cases nothing is called (no slot allocation) and the database is
    unchanged. *)
Theorem C5_create_worker_checks :
  forall (d : db) (tenant : nat) (export_ok : bool) (docker_create : sum string string),
  In tenant (tenants d) ->
  ((exists i, get_worker_instance d tenant = Some i /\ wi_status i <> STOPPED /\ wi_status i <> ERROR) ->
   create_worker d tenant export_ok docker_create
   = ([], inl (WorkerAlreadyRunningError "Worker for tenant already exists"), d)) /\
  ((forall i, get_worker_instance d tenant = Some i -> wi_status i = STOPPED \/ wi_status i = ERROR) ->
   ~ In tenant (shioaji_creds d) ->
   create_worker d tenant export_ok docker_create
   = ([], inl (CredentialsNotFoundError "Shioaji credentials not found for tenant"), d)).
Proof.
  intros d tenant export_ok docker_create Ht.
  apply existsb_nat_In in Ht. unfold create_worker. rewrite Ht. cbv zeta. simpl negb.
  split.
  - intros [i [Hg [H1 H2]]]. rewrite Hg.
    destruct (wi_status i); try contradiction; reflexivity.
  - intros Hterm Hcred.
    assert (Hc : existsb (Nat.eqb tenant) (shioaji_creds d) = false).
    { destruct (existsb (Nat.eqb tenant) (shioaji_creds d)) eqn:E; [|reflexivity].
      apply existsb_nat_In in E. contradiction. }
    destruct (get_worker_instance d tenant) as [i|] eqn:Hg.
    + destruct (Hterm i eq_refl) as [Hs|Hs]; rewrite Hs; simpl; rewrite Hc; reflexivity.
    + rewrite Hc. reflexivity.
Qed.

Lemma C5_create_worker_checks_witness :
  In 0%nat (tenants db_stopped_no_creds) /\
  create_worker db_stopped_no_creds 0 true (inr "c-1")
  = ([], inl (CredentialsNotFoundError "Shioaji credentials not found for tenant"), db_stopped_no_creds).
Proof.
  split; [simpl; left; reflexivity|].
  apply (proj2 (C5_create_worker_checks db_stopped_no_creds 0 true (inr "c-1") (or_introl eq_refl))).
  - intros i H. simpl in H. injection H as <-. left. reflexivity.
  - simpl. tauto.
Defined.

Lemma find_replace_instance : forall (l : list winst) t i i',
  find (fun j => Nat.eqb (wi_tenant j) t) l = Some i -> wi_tenant i' = t ->
  find (fun j => Nat.eqb (wi_tenant j) t)
       (map (fun j => if Nat.eqb (wi_tenant j) (wi_tenant i') then i' else j) l) = Some i'.
Proof.
  intros l t i i' H Ht. subst t. revert H.
  induction l as [|a l IH]; intros H; simpl in *; [discriminate|].
  destruct (Nat.eqb (wi_tenant a) (wi_tenant i')) eqn:Ha; simpl.
  - rewrite Nat.eqb_refl. reflexivity.
  - rewrite Ha. exact (IH H).
Qed.

(** C8: [start_worker] on a [RUNNING] instance returns it and changes
    nothing, whatever Docker would do; on an instance in any other status
    whose container starts, the instance becomes [RUNNING] with the start
    time recorded, no stop time and no error message, and is stored so. If
    the container is missing or Docker fails, an error is raised and the
    stored state is unchanged. *)
Theorem C8_start_worker :
  forall (d : db) (tenant : nat) (now : Z) (docker : start_outcome) (i : winst),
  In tenant (tenants d) ->
  get_worker_instance d tenant = Some i ->
  (wi_status i = RUNNING -> start_worker d tenant now docker = (inr i, d)) /\
  (wi_status i <> RUNNING -> docker = Started ->
   exists i' d', start_worker d tenant now docker = (inr i', d') /\
     wi_status i' = RUNNING /\ wi_started_at i' = Some now /\
     wi_stopped_at i' = None /\ wi_error_message i' = None /\
     get_worker_instance d' tenant = Some i') /\
  (wi_status i <> RUNNING -> docker <> Started ->
   exists e, start_worker d tenant now docker = (inl e, d)).
Proof.
  intros d tenant now docker i Ht Hg.
  apply existsb_nat_In in Ht. unfold start_worker. rewrite Ht. simpl negb. cbv iota.
  rewrite Hg.
  assert (Hti : wi_tenant i = tenant).
  { unfold get_worker_instance in Hg. apply find_some in Hg as [_ Hg].
    apply Nat.eqb_eq. exact Hg. }
  split; [|split].
  - intros Hr. rewrite Hr. reflexivity.
  - intros Hr ->.
    assert (Hb : wstatus_eqb (wi_status i) RUNNING = false)
      by (destruct (wi_status i); try reflexivity; contradiction).
    rewrite Hb. eexists. eexists. split; [reflexivity|]. simpl.
    repeat split. unfold get_worker_instance, add_audit, replace_instance. cbn [instances].
    apply find_replace_instance with (i := i); [exact Hg | exact Hti].
  - intros Hr Hd.
    assert (Hb : wstatus_eqb (wi_status i) RUNNING = false)
      by (destruct (wi_status i); try reflexivity; contradiction).
    rewrite Hb. destruct docker as [| |msg]; [contradiction| |]; eexists; reflexivity.
Qed.

Lemma C8_start_worker_witness :
  In 0%nat (tenants db_stopped) /\
  get_worker_instance db_stopped 0 = Some (hd (winst_at 0 STOPPED 0) (instances db_stopped)) /\
  exists i' d', start_worker db_stopped 0 300 Started = (inr i', d') /\ wi_status i' = RUNNING.
Proof.
  split; [simpl; left; reflexivity|]. split; [reflexivity|].
  destruct (proj1 (proj2 (C8_start_worker db_stopped 0 300 Started
                            (hd (winst_at 0 STOPPED 0) (instances db_stopped))
                            (or_introl eq_refl) eq_refl))
              ltac:(simpl; discriminate) eq_refl) as [i' [d' [H1 [H2 _]]]].
  exists i', d'. split; [exact H1 | exact H2].
Defined.

(** A request with string keys and integer values survives the round trip. *)
Example roundtrip_req_example :
  roundtrip_req (Req.mk "id-1" "place_entry_order" true
                   (PDict [(PStr "symbol", PStr "MXFR1"); (PStr "quantity", PInt 5)]))
  = Some (Req.mk "id-1" "place_entry_order" true
                   (PDict [(PStr "symbol", PStr "MXFR1"); (PStr "quantity", PInt 5)])).
Proof. reflexivity. Qed.

(* ------------------------------------------------------------------ *)
(** ** Further properties of the code *)

Lemma pyeq_str : forall a b, pyeq (PStr a) (PStr b) = String.eqb a b.
Proof. reflexivity. Qed.

Lemma find_in_exists {A} (p : A -> bool) (l : list A) (x : A) :
  In x l -> p x = true -> exists y, find p l = Some y /\ p y = true.
Proof.
  induction l as [|a r IH]; simpl; [intros []|].
  intros [->|H] Hp.
  - rewrite Hp. exists x. split; [reflexivity | exact Hp].
  - destruct (p a) eqn:Ha; [exists a; split; [reflexivity | exact Ha]|]. exact (IH H Hp).
Qed.

Lemma lookup_two_lists : forall (key : contract -> string) (l1 l2 : list contract) (s : string) (X : exn),
  In s (map key l1 ++ map key l2)%list ->
  exists c,
    match find (fun c => pyeq (PStr (key c)) (PStr s)) l1 with
    | Some c => Ok c
    | None => match find (fun c => pyeq (PStr (key c)) (PStr s)) l2 with
              | Some c => Ok c
              | None => Raise X
              end
    end = Ok c /\ key c = s.
Proof.
  intros key l1 l2 s X Hin. apply in_app_or in Hin.
  destruct (find (fun c => pyeq (PStr (key c)) (PStr s)) l1) as [y|] eqn:E1.
  - apply find_some in E1 as [_ Hy]. rewrite pyeq_str, String.eqb_eq in Hy.
    exists y. split; [reflexivity | exact Hy].
  - destruct Hin as [Hin|Hin].
    + apply in_map_iff in Hin as [x [Hx Hin]].
      destruct (find_in_exists (fun c => pyeq (PStr (key c)) (PStr s)) l1 x Hin)
        as [y [Hy _]]; [rewrite pyeq_str, Hx; apply String.eqb_refl|]. congruence.
    + apply in_map_iff in Hin as [x [Hx Hin]].
      destruct (find_in_exists (fun c => pyeq (PStr (key c)) (PStr s)) l2 x Hin)
        as [y [Hy Hp]]; [rewrite pyeq_str, Hx; apply String.eqb_refl|].
      rewrite Hy. rewrite pyeq_str, String.eqb_eq in Hp. exists y. split; [reflexivity | exact Hp].
Qed.

Lemma in_map_filter_app : forall (key : contract -> string) f g (l1 l2 : list contract) s,
  In s (map key (filter f l1) ++ map key (filter g l2))%list -> In s (map key l1 ++ map key l2)%list.
Proof.
  intros key f g l1 l2 s H. apply in_app_or in H. apply in_or_app.
  destruct H as [H|H]; [left|right]; apply in_map_iff in H as [x [Hx Hin]];
    apply filter_In in Hin as [Hin _]; apply in_map_iff; exists x; split; assumption.
Qed.

(** X4: every symbol listed by [get_valid_symbols] resolves through [get_contract_from_symbol] to a contract with that symbol, and every code listed by [get_valid_contract_codes] resolves through [get_contract_from_contract_code] to a contract with that code. *)
Theorem valid_listings_resolve : forall (api : sdk) (s : string),
  (In s (get_valid_symbols api) ->
   exists c, get_contract_from_symbol api (PStr s) = Ok c /\ c_symbol c = s) /\
  (In s (get_valid_contract_codes api) ->
   exists c, get_contract_from_contract_code api (PStr s) = Ok c /\ c_code c = s).
Proof.
  intros api s. split; intros H.
  - apply in_map_filter_app in H. exact (lookup_two_lists c_symbol _ _ s _ H).
  - apply in_map_filter_app in H. exact (lookup_two_lists c_code _ _ s _ H).
Qed.

(** X5: the library's [place_entry_order]/[place_exit_order] and the worker's entry and exit handlers place the same orders on the SDK, and when the library places a trade, the handler answers with success and records that trade under its key. *)
Theorem library_and_worker_orders_agree :
  forall (api : sdk) (pending : pend) (rid : string) (symbol quantity action_str position_direction : pyval),
  let a := if pyeq action_str (PStr "Buy") then Buy else Sell in
  let dir := if pyeq position_direction (PStr "Buy") then Buy else Sell in
  fst (place_entry_order api symbol quantity a)
  = fst (handle_entry_order api pending rid (entry_dict symbol quantity action_str)) /\
  (forall t, snd (place_entry_order api symbol quantity a) = Ok t ->
   exists resp, snd (handle_entry_order api pending rid (entry_dict symbol quantity action_str))
                = Ok (resp, assoc_set pending (trade_key t) t) /\ Resp.success resp = true) /\
  fst (place_exit_order api symbol dir)
  = fst (handle_exit_order api pending rid (exit_dict symbol position_direction)) /\
  (forall t, snd (place_exit_order api symbol dir) = Ok (Some t) ->
   exists resp, snd (handle_exit_order api pending rid (exit_dict symbol position_direction))
                = Ok (resp, assoc_set pending (trade_key t) t) /\ Resp.success resp = true).
Proof.
  intros api pending rid symbol quantity action_str position_direction a dir.
  unfold place_entry_order, place_exit_order, handle_entry_order, handle_exit_order,
    lib_contract_and_position, entry_dict, exit_dict.
  simpl getitem. cbv beta iota zeta. fold a dir.
  destruct (get_contract_from_symbol api symbol) as [c|e].
  2:{ destruct e; repeat split; intros t H; discriminate. }
  destruct (get_current_position api c) as [pos|e].
  2:{ destruct e; repeat split; intros t H; simpl in H; discriminate. }
  repeat split.
  - destruct (entry_quantity a quantity pos); [|reflexivity].
    simpl. destruct (place_order api c _); reflexivity.
  - destruct (entry_quantity a quantity pos); [|intros t H; discriminate].
    simpl. destruct (place_order api c _) as [t'|e]; intros t H; [|discriminate].
    injection H as <-. eexists. split; reflexivity.
  - destruct (exit_decision dir pos) as [[act q]|]; [|reflexivity].
    simpl. destruct (place_order api c _); reflexivity.
  - destruct (exit_decision dir pos) as [[act q]|]; [|intros t H; discriminate].
    simpl. destruct (place_order api c _) as [t'|e]; intros t H; [|discriminate].
    injection H as <-. eexists. split; reflexivity.
Qed.

Lemma place_order_error_name : forall e, exn_type_name (place_order_error e) = "OrderError".
Proof. destruct e; reflexivity. Qed.

(** X6: a failed [place_order] call surfaces from the library functions as an [OrderError], and a failing position lookup (other than an account error) is re-raised before any order is placed. *)
Theorem library_order_errors :
  forall (api : sdk) (symbol quantity : pyval) (a dir : action) (c : contract) (o : order) (e : exn),
  (place_entry_order api symbol quantity a = ([(c, o)], Raise e) -> exn_type_name e = "OrderError") /\
  (place_exit_order api symbol dir = ([(c, o)], Raise e) -> exn_type_name e = "OrderError") /\
  (get_contract_from_symbol api symbol = Ok c -> list_positions api = Raise e ->
   (forall m, e <> AccountNotSignError m /\ e <> AccountNotProvideError m) ->
   place_entry_order api symbol quantity a = ([], Raise e) /\
   place_exit_order api symbol dir = ([], Raise e)).
Proof.
  intros api symbol quantity a dir c o e. split; [|split].
  - unfold place_entry_order.
    destruct (lib_contract_and_position api symbol) as [[c' pos]|e']; [|discriminate].
    destruct (entry_quantity a quantity pos); [|discriminate].
    destruct (place_order api c' _) as [t|e0]; intros H; inversion H; subst.
    apply place_order_error_name.
  - unfold place_exit_order.
    destruct (lib_contract_and_position api symbol) as [[c' pos]|e']; [|discriminate].
    destruct (exit_decision dir pos) as [[act q]|]; [|discriminate].
    destruct (place_order api c' _) as [t|e0]; intros H; inversion H; subst.
    apply place_order_error_name.
  - intros Hc Hl Hn.
    assert (Hlib : lib_contract_and_position api symbol = Raise e).
    { unfold lib_contract_and_position. rewrite Hc. unfold get_current_position. rewrite Hl.
      simpl. destruct e; try reflexivity;
        destruct (Hn msg) as [H1 H2]; [contradiction H1 | contradiction H2]; reflexivity. }
    unfold place_entry_order, place_exit_order. rewrite Hlib. split; reflexivity.
Qed.

Lemma drop_while_all : forall p l, forallb p l = true -> drop_while p l = [].
Proof.
  induction l as [|c r IH]; simpl; [reflexivity|].
  intros H. apply andb_prop in H as [H1 H2]. rewrite H1. exact (IH H2).
Qed.

Lemma py_strip_blank : forall s, forallb py_isspace (list_ascii_of_string s) = true -> py_strip s = "".
Proof.
  intros s H. unfold py_strip, lstrip_by. rewrite (drop_while_all _ _ H). reflexivity.
Qed.

(** X7: when the API key comes only from a secret file that holds nothing but whitespace, [_read_secret] returns the empty string and [_get_api_client] raises the missing-credentials [ValueError]. *)
Theorem blank_secret_file_means_no_credentials :
  forall (h : host) (E : env) (st : wstate) (m : bool) (p text : string),
  credentials_present E = credentials_found h ->
  mode_get m (api_clients st) = None ->
  (getenv h "API_KEY" = None \/ getenv h "API_KEY" = Some "") ->
  getenv h "API_KEY_FILE" = Some p -> p <> "" ->
  read_file h p = Some text -> forallb py_isspace (list_ascii_of_string text) = true ->
  read_secret h "API_KEY" "API_KEY_FILE" = Some "" /\
  get_api_client E st m
  = Raise (ValueError ("API credentials not found. Set API_KEY/SECRET_KEY environment variables "
                       ++ "or API_KEY_FILE/SECRET_KEY_FILE for Docker secrets.")).
Proof.
  intros h E st m p text Hc Hm Henv Hf Hp Hr Hb.
  assert (Hs : read_secret h "API_KEY" "API_KEY_FILE" = Some "").
  { unfold read_secret. rewrite Hf, Hr, py_strip_blank by exact Hb.
    apply String.eqb_neq in Hp. rewrite Hp.
    destruct Henv as [He|He]; rewrite He; reflexivity. }
  split; [exact Hs|].
  unfold get_api_client. rewrite Hm, Hc. unfold credentials_found. rewrite Hs. reflexivity.
Qed.

(** X8: for an error that is a connection error without token wording, [classify] says connection fault while the health check reports the connection healthy; for an expired-wording error that is not a connection error, [classify] says business rejection while the health check reports it unhealthy. *)
Theorem health_check_disagrees_with_classify :
  forall (st : wstate) (m : bool) (e : exn),
  mode_get m (api_clients st) <> None ->
  match e with TokenError _ | SystemMaintenance _ | SjTimeoutError _ => False | _ => True end ->
  (is_connection_error e = true ->
   containsb "token" (lower (exn_str e)) = false ->
   containsb "expired" (lower (exn_str e)) = false ->
   containsb "401" (lower (exn_str e)) = false ->
   classify e = ConnectionFault /\ check_connection_health st m (Raise e) = true) /\
  (containsb "expired" (lower (exn_str e)) = true ->
   is_connection_error e = false ->
   classify e = BusinessRejection /\ check_connection_health st m (Raise e) = false).
Proof.
  intros st m e Hc Hsdk. unfold check_connection_health.
  destruct (mode_get m (api_clients st)) as [s|]; [|contradiction Hc; reflexivity].
  split.
  - intros Hce H1 H2 H3. unfold classify.
    destruct e; try contradiction Hsdk; rewrite Hce; simpl in *; rewrite H1, H2, H3; split; reflexivity.
  - intros H2 Hce. unfold classify.
    destruct e; try contradiction Hsdk; rewrite Hce; simpl in *; rewrite H2, orb_true_r; split; reflexivity.
Qed.

Lemma invalidate_connection_keeps : forall E st m,
  let st' := fst (invalidate_connection E st m) in
  pending_trades st' = pending_trades st /\
  mode_get (negb m) (api_clients st') = mode_get (negb m) (api_clients st) /\
  next_session st' = next_session st.
Proof.
  intros E st m. unfold invalidate_connection.
  destruct (mode_get m (invalidating st)); [repeat split|].
  destruct (mode_get m (api_clients st)); [|repeat split].
  destruct st as [[c1 c2] [i1 i2] pt ns]; destruct m; repeat split.
Qed.

(** X9: [_maybe_refresh_connection] never touches pending trades, the other mode's client or the session schedule; within the health-check interval it changes nothing, and after it a failed health check drops the mode's client unless an invalidation is in progress. *)
Theorem maybe_refresh_connection_scope :
  forall (E : env) (st : wstate) (m : bool) (now last_success : Z) (accounts : result (list string)),
  let st' := maybe_refresh_connection E st m now last_success accounts in
  pending_trades st' = pending_trades st /\
  mode_get (negb m) (api_clients st') = mode_get (negb m) (api_clients st) /\
  next_session st' = next_session st /\
  (now - last_success <= HEALTH_CHECK_INTERVAL -> st' = st) /\
  (HEALTH_CHECK_INTERVAL < now - last_success -> check_connection_health st m accounts = false ->
   mode_get m (invalidating st) = false -> mode_get m (api_clients st') = None).
Proof.
  intros E st m now last_success accounts st'. subst st'.
  unfold maybe_refresh_connection.
  destruct (mode_get m (api_clients st)) as [s|] eqn:Hc.
  2:{ repeat split; intros; first [reflexivity | exact Hc]. }
  destruct (HEALTH_CHECK_INTERVAL <? now - last_success) eqn:Ht.
  - apply Z.ltb_lt in Ht.
    destruct (check_connection_health st m accounts) eqn:Hh; simpl.
    + repeat split; intros; first [reflexivity | lia | discriminate].
    + destruct (invalidate_connection_keeps E st m) as [H1 [H2 H3]].
      repeat split; try assumption; [intros; lia|].
      intros _ _ Hi. exact (proj1 (invalidate_connection_clears E st m Hi)).
  - apply Z.ltb_ge in Ht. repeat split; intros; first [reflexivity | lia].
Qed.

Lemma valid_listings_resolve_witness :
  In "MXFR1" (get_valid_symbols (sdk_lib (Ok []) (Ok trade_1))) /\
  In "MXFK5" (get_valid_contract_codes (sdk_lib (Ok []) (Ok trade_1))) /\
  (exists c, get_contract_from_symbol (sdk_lib (Ok []) (Ok trade_1)) (PStr "MXFR1") = Ok c
             /\ c_symbol c = "MXFR1") /\
  (exists c, get_contract_from_contract_code (sdk_lib (Ok []) (Ok trade_1)) (PStr "MXFK5") = Ok c
             /\ c_code c = "MXFK5").
Proof.
  split; [vm_compute; left; reflexivity|]. split; [vm_compute; left; reflexivity|]. split.
  - apply (proj1 (valid_listings_resolve (sdk_lib (Ok []) (Ok trade_1)) "MXFR1")).
    vm_compute; left; reflexivity.
  - apply (proj2 (valid_listings_resolve (sdk_lib (Ok []) (Ok trade_1)) "MXFK5")).
    vm_compute; left; reflexivity.
Defined.

Lemma library_and_worker_orders_agree_witness :
  snd (place_entry_order (sdk_lib (Ok []) (Ok trade_1)) (PStr "MXFR1") (PInt 2) Buy) = Ok trade_1 /\
  exists resp,
    snd (handle_entry_order (sdk_lib (Ok []) (Ok trade_1)) [] "r-1"
           (entry_dict (PStr "MXFR1") (PInt 2) (PStr "Buy")))
    = Ok (resp, assoc_set [] (trade_key trade_1) trade_1) /\ Resp.success resp = true.
Proof.
  split; [reflexivity|].
  exact (proj1 (proj2 (library_and_worker_orders_agree (sdk_lib (Ok []) (Ok trade_1)) [] "r-1"
                         (PStr "MXFR1") (PInt 2) (PStr "Buy") (PStr "Buy"))) trade_1 eq_refl).
Defined.

Lemma library_order_errors_witness :
  (exists c o e,
     place_entry_order (sdk_lib (Ok []) (Raise (SjTimeoutError "timeout"))) (PStr "MXFR1") (PInt 2) Buy
     = ([(c, o)], Raise e) /\ exn_type_name e = "OrderError") /\
  place_entry_order (sdk_lib (Raise (TokenError "Token is expired")) (Ok trade_1)) (PStr "MXFR1") (PInt 2) Buy
  = ([], Raise (TokenError "Token is expired")).
Proof.
  split.
  - eexists _, _, _. split; [reflexivity|].
    eapply (proj1 (library_order_errors (sdk_lib (Ok []) (Raise (SjTimeoutError "timeout")))
                    (PStr "MXFR1") (PInt 2) Buy Buy _ _ _)).
    reflexivity.
  - apply (proj2 (proj2 (library_order_errors (sdk_lib (Raise (TokenError "Token is expired")) (Ok trade_1))
                           (PStr "MXFR1") (PInt 2) Buy Buy contract_MXF
                           {| o_action := Buy; o_quantity := PNone |} (TokenError "Token is expired"))));
      [reflexivity | reflexivity | intros m; split; discriminate].
Defined.

Lemma blank_secret_file_means_no_credentials_witness :
  read_secret host_blank_key_file "API_KEY" "API_KEY_FILE" = Some "" /\
  get_api_client (env_with false (credentials_found host_blank_key_file) sdk_flat) initial_state false
  = Raise (ValueError ("API credentials not found. Set API_KEY/SECRET_KEY environment variables "
                       ++ "or API_KEY_FILE/SECRET_KEY_FILE for Docker secrets.")).
Proof.
  apply (blank_secret_file_means_no_credentials host_blank_key_file
           (env_with false (credentials_found host_blank_key_file) sdk_flat) initial_state false
           "/run/secrets/api_key" (" " ++ String "010" EmptyString));
    try reflexivity.
  - left; reflexivity.
  - discriminate.
Defined.

Lemma health_check_disagrees_with_classify_witness :
  (classify (OtherError "RuntimeError" "Session down") = ConnectionFault /\
   check_connection_health st_connected true (Raise (OtherError "RuntimeError" "Session down")) = true) /\
  (classify (ValueError "Certificate expired") = BusinessRejection /\
   check_connection_health st_connected true (Raise (ValueError "Certificate expired")) = false).
Proof.
  split.
  - apply (proj1 (health_check_disagrees_with_classify st_connected true
                    (OtherError "RuntimeError" "Session down") ltac:(discriminate) I));
      reflexivity.
  - apply (proj2 (health_check_disagrees_with_classify st_connected true
                    (ValueError "Certificate expired") ltac:(discriminate) I));
      reflexivity.
Defined.

Lemma maybe_refresh_connection_scope_witness :
  maybe_refresh_connection (env_with false true sdk_flat) st_connected true 100 0 (Ok []) = st_connected /\
  mode_get true (api_clients (maybe_refresh_connection (env_with false true sdk_flat) st_connected true
                                1000 0 (Ok []))) = None.
Proof.
  split.
  - apply (maybe_refresh_connection_scope (env_with false true sdk_flat) st_connected true 100 0 (Ok [])).
    vm_compute; discriminate.
  - apply (maybe_refresh_connection_scope (env_with false true sdk_flat) st_connected true 1000 0 (Ok []));
      reflexivity.
Defined.

Lemma assoc_get_set : forall d k t, assoc_get (assoc_set d k t) k = Some t.
Proof.
  induction d as [|[k' t'] r IH]; intros k t; unfold assoc_get in *; simpl.
  - rewrite String.eqb_refl. reflexivity.
  - destruct (String.eqb k' k) eqn:Hk; simpl.
    + rewrite String.eqb_refl. reflexivity.
    + rewrite Hk. apply IH.
Qed.

Lemma get_api_client_session : forall E st m s st1,
  get_api_client E st m = Ok (s, st1) -> mode_get m (api_clients st1) = Some s.
Proof.
  intros E st m s st1 H. apply get_api_client_ok in H as [[H ->]|[_ [-> ->]]]; [exact H|].
  destruct m; reflexivity.
Qed.

Lemma order_handlers_record : forall api pending rid params orders resp p oid sq,
  (handle_entry_order api pending rid params = (orders, Ok (resp, p)) \/
   handle_exit_order api pending rid params = (orders, Ok (resp, p))) ->
  Resp.success resp = true ->
  getitem (Resp.data resp) "order_id" = Ok (PStr oid) ->
  getitem (Resp.data resp) "seqno" = Ok (PStr sq) ->
  exists t, p = assoc_set pending (oid ++ ":" ++ sq) t /\ t_id t = oid /\ t_seqno t = sq.
Proof.
  intros api pending rid params orders resp p oid sq H Hs Ho Hq.
  revert Hs Ho Hq.
  destruct H as [H|H]; revert H; [unfold handle_entry_order | unfold handle_exit_order];
    unfold catch_rejection; cbv zeta;
    repeat (split_inner_match; cbv beta iota); intros H; try discriminate;
    repeat match goal with Hy : snd _ = Ok _ |- _ => simpl in Hy; inversion Hy; subst; clear Hy end;
    simpl in H; inversion H; subst; intros Hs Ho Hq; simpl in Hs, Ho, Hq; try discriminate;
    injection Ho as <-; injection Hq as <-; (eexists; split; [reflexivity | split; reflexivity]).
Qed.

Lemma order_request_recorded : forall E st req resp,
  dev_mock E = false ->
  (Req.operation req = "place_entry_order" \/ Req.operation req = "place_exit_order") ->
  out_resp (handle_request E st req) = Ok resp -> Resp.success resp = true ->
  exists s st1 orders p,
    get_api_client E st (Req.simulation req) = Ok (s, st1) /\
    out_session (handle_request E st req) = Some s /\
    out_state (handle_request E st req) = set_pending p st1 /\
    (handle_entry_order (session_api E (Req.simulation req) s) (pending_trades st1)
       (Req.request_id req) (Req.params req) = (orders, Ok (resp, p)) \/
     handle_exit_order (session_api E (Req.simulation req) s) (pending_trades st1)
       (Req.request_id req) (Req.params req) = (orders, Ok (resp, p))).
Proof.
  intros E st req resp Hm Hop Hr Hs. unfold handle_request in *. rewrite Hm in *. cbv zeta in *.
  destruct (get_api_client E st (Req.simulation req)) as [[s st1]|e] eqn:Hg.
  2:{ destruct (except_clauses E (Req.simulation req) (Req.request_id req) e st) as [r st'] eqn:He.
      simpl in Hr. injection Hr as <-.
      pose proof (proj2 (except_clauses_rid E (Req.simulation req) (Req.request_id req) e st)) as Hf.
      rewrite He in Hf. simpl in Hf. congruence. }
  destruct Hop as [Hop|Hop]; rewrite Hop in *; simpl in Hr |- *.
  - destruct (handle_entry_order (session_api E (Req.simulation req) s) (pending_trades st1)
                (Req.request_id req) (Req.params req)) as [orders [[r p]|e]] eqn:Hh.
    + simpl in Hr. injection Hr as <-. exists s, st1, orders, p. auto.
    + destruct (except_clauses E (Req.simulation req) (Req.request_id req) e st1) as [r st'] eqn:He.
      simpl in Hr. injection Hr as <-.
      pose proof (proj2 (except_clauses_rid E (Req.simulation req) (Req.request_id req) e st1)) as Hf.
      rewrite He in Hf. simpl in Hf. congruence.
  - destruct (handle_exit_order (session_api E (Req.simulation req) s) (pending_trades st1)
                (Req.request_id req) (Req.params req)) as [orders [[r p]|e]] eqn:Hh.
    + simpl in Hr. injection Hr as <-. exists s, st1, orders, p. auto.
    + destruct (except_clauses E (Req.simulation req) (Req.request_id req) e st1) as [r st'] eqn:He.
      simpl in Hr. injection Hr as <-.
      pose proof (proj2 (except_clauses_rid E (Req.simulation req) (Req.request_id req) e st1)) as Hf.
      rewrite He in Hf. simpl in Hf. congruence.
Qed.

(** X10: after a successful entry or exit order, a status check with the returned order id and seqno finds that trade and answers with the result of [update_status] on it. *)
Theorem placed_order_status_tracked : forall E st req resp oid sq req2,
  dev_mock E = false ->
  (Req.operation req = "place_entry_order" \/ Req.operation req = "place_exit_order") ->
  out_resp (handle_request E st req) = Ok resp -> Resp.success resp = true ->
  getitem (Resp.data resp) "order_id" = Ok (PStr oid) ->
  getitem (Resp.data resp) "seqno" = Ok (PStr sq) ->
  Req.operation req2 = "check_order_status" -> Req.simulation req2 = Req.simulation req ->
  getitem (Req.params req2) "order_id" = Ok (PStr oid) ->
  getitem (Req.params req2) "seqno" = Ok (PStr sq) ->
  exists s t,
    out_session (handle_request E st req) = Some s /\ t_id t = oid /\ t_seqno t = sq /\
    out_resp (handle_request E (out_state (handle_request E st req)) req2)
    = Ok (match update_status (session_api E (Req.simulation req) s) t with
          | Ok d => Resp.mk (Req.request_id req2) true d None
          | Raise e => fail_resp (Req.request_id req2) (exn_str e)
          end).
Proof.
  intros E st req resp oid sq req2 Hm Hop Hr Hs Ho Hq Hop2 Hsim Hp1 Hp2.
  destruct (order_request_recorded E st req resp Hm Hop Hr Hs)
    as [s [st1 [orders [p [Hg [Hsess [Hst Hh]]]]]]].
  destruct (order_handlers_record _ _ _ _ _ _ _ _ _ Hh Hs Ho Hq) as [t [Hp [Ht1 Ht2]]].
  exists s, t. split; [exact Hsess|]. split; [exact Ht1|]. split; [exact Ht2|].
  rewrite Hst. unfold handle_request. rewrite Hm. cbv zeta. rewrite Hsim.
  rewrite (get_api_client_connected E (set_pending p st1) (Req.simulation req) s)
    by exact (get_api_client_session E st _ s st1 Hg).
  rewrite Hop2. simpl. rewrite Hp1, Hp2. simpl.
  rewrite Hp. rewrite assoc_get_set. destruct (update_status _ t); reflexivity.
Qed.

Lemma placed_order_status_tracked_witness :
  exists s t,
    out_session (handle_request (env_with false true sdk_short3) initial_state
                   (entry_request "r-1" "X" 2 "Buy")) = Some s /\
    t_id t = "o-1" /\ t_seqno t = "s-1" /\
    out_resp (handle_request (env_with false true sdk_short3)
                (out_state (handle_request (env_with false true sdk_short3) initial_state
                              (entry_request "r-1" "X" 2 "Buy")))
                (status_request "r-2" "o-1" "s-1"))
    = Ok (match update_status (session_api (env_with false true sdk_short3) true s) t with
          | Ok d => Resp.mk "r-2" true d None
          | Raise e => fail_resp "r-2" (exn_str e)
          end).
Proof.
  eapply (placed_order_status_tracked (env_with false true sdk_short3) initial_state
            (entry_request "r-1" "X" 2 "Buy") _ "o-1" "s-1" (status_request "r-2" "o-1" "s-1"));
    [reflexivity | left; reflexivity | reflexivity | reflexivity | reflexivity | reflexivity
    | reflexivity | reflexivity | reflexivity | reflexivity].
Defined.

Lemma list_ascii_of_string_app : forall a b,
  list_ascii_of_string (a ++ b) = (list_ascii_of_string a ++ list_ascii_of_string b)%list.
Proof. induction a as [|c a IH]; intros b; simpl; [reflexivity|]. rewrite IH. reflexivity. Qed.

Lemma string_length_list : forall s, String.length s = length (list_ascii_of_string s).
Proof. induction s as [|c s IH]; simpl; [reflexivity|]. rewrite IH. reflexivity. Qed.

Lemma sub_non_alnum_chars : forall l b, forallb is_slug_char (sub_non_alnum b l) = true.
Proof.
  induction l as [|c r IH]; intros b; simpl; [reflexivity|].
  destruct (is_lower_alnum c) eqn:Hc; simpl.
  - unfold is_slug_char at 1. rewrite Hc. simpl. apply IH.
  - destruct b; [apply IH|]. simpl. apply IH.
Qed.

Lemma drop_while_suffix : forall p l, exists pre, l = (pre ++ drop_while p l)%list.
Proof.
  induction l as [|c r IH]; simpl; [exists []; reflexivity|].
  destruct (p c); [|exists []; reflexivity].
  destruct IH as [pre Hpre]. exists (c :: pre). simpl. rewrite <- Hpre. reflexivity.
Qed.

Lemma drop_while_head : forall p l c r, drop_while p l = c :: r -> p c = false.
Proof.
  induction l as [|a l IH]; simpl; intros c r H; [discriminate|].
  destruct (p a) eqn:Ha; [exact (IH _ _ H)|]. injection H as <- _. exact Ha.
Qed.

Lemma forallb_app_l : forall (f : ascii -> bool) a b, forallb f (a ++ b) = true -> forallb f b = true.
Proof. intros f a b H. rewrite forallb_app in H. apply andb_prop in H. apply H. Qed.

Lemma forallb_app_r : forall (f : ascii -> bool) a b, forallb f (a ++ b) = true -> forallb f a = true.
Proof. intros f a b H. rewrite forallb_app in H. apply andb_prop in H. apply H. Qed.

Lemma forallb_rev : forall (f : ascii -> bool) l, forallb f (rev l) = forallb f l.
Proof.
  intros f l. induction l as [|c r IH]; simpl; [reflexivity|].
  rewrite forallb_app, IH. simpl. rewrite andb_true_r, andb_comm. reflexivity.
Qed.

Lemma slug_char_not_hyphen : forall c, is_slug_char c = true -> is_hyphen c = false -> is_lower_alnum c = true.
Proof. intros c H1 H2. unfold is_slug_char in H1. rewrite H2, orb_false_r in H1. exact H1. Qed.

(** [rstrip] of a list keeps a prefix of it. *)
Lemma rstrip_prefix : forall p l, exists suf, l = (rev (drop_while p (rev l)) ++ suf)%list.
Proof.
  intros p l. destruct (drop_while_suffix p (rev l)) as [pre Hpre].
  exists (rev pre). rewrite <- rev_app_distr, <- Hpre, rev_involutive. reflexivity.
Qed.

Lemma prefix_hd_alnum : forall k suf, hd_alnum (k ++ suf) = true -> k <> [] -> hd_alnum k = true.
Proof. intros [|c k] suf H Hk; [contradiction Hk; reflexivity | exact H]. Qed.

Lemma hd_alnum_prefix : forall k suf, hd_alnum (k ++ suf) = true -> hd_alnum k = true.
Proof. intros [|c k] suf H; [reflexivity | exact H]. Qed.

Lemma rstrip_ok : forall l, forallb is_slug_char l = true -> hd_alnum l = true ->
  slug_base_ok (rev (drop_while is_hyphen (rev l))) = true.
Proof.
  intros l Hs Hh. destruct (rstrip_prefix is_hyphen l) as [suf Hsuf].
  set (k := rev (drop_while is_hyphen (rev l))) in *.
  unfold slug_base_ok. apply andb_true_intro; split; [apply andb_true_intro; split|].
  - rewrite Hsuf in Hs. exact (forallb_app_r _ _ _ Hs).
  - rewrite Hsuf in Hh. exact (hd_alnum_prefix _ _ Hh).
  - unfold k. rewrite rev_involutive.
    destruct (drop_while is_hyphen (rev l)) as [|c r] eqn:Hd; [reflexivity|].
    simpl. apply slug_char_not_hyphen; [|exact (drop_while_head _ _ _ _ Hd)].
    destruct (drop_while_suffix is_hyphen (rev l)) as [pre Hpre].
    rewrite Hd in Hpre. rewrite <- forallb_rev, Hpre in Hs.
    apply forallb_app_l in Hs. simpl in Hs. apply andb_prop in Hs. apply Hs.
Qed.

Lemma lstrip_ok : forall l, forallb is_slug_char l = true ->
  forallb is_slug_char (drop_while is_hyphen l) = true /\ hd_alnum (drop_while is_hyphen l) = true.
Proof.
  intros l Hs. destruct (drop_while_suffix is_hyphen l) as [pre Hpre].
  split.
  - rewrite Hpre in Hs. exact (forallb_app_l _ _ _ Hs).
  - destruct (drop_while is_hyphen l) as [|c r] eqn:Hd; [reflexivity|].
    simpl. apply slug_char_not_hyphen; [|exact (drop_while_head _ _ _ _ Hd)].
    rewrite Hpre in Hs. apply forallb_app_l in Hs. simpl in Hs. apply andb_prop in Hs. apply Hs.
Qed.

Lemma truncate_ok : forall l n, slug_base_ok l = true ->
  slug_base_ok (rev (drop_while is_hyphen (rev (firstn n l)))) = true.
Proof.
  intros l n H. unfold slug_base_ok in H. apply andb_prop in H as [H H3]. apply andb_prop in H as [H1 H2].
  pose proof (firstn_skipn n l) as Hfs.
  apply rstrip_ok.
  - rewrite <- Hfs in H1. exact (forallb_app_r _ _ _ H1).
  - rewrite <- Hfs in H2. exact (hd_alnum_prefix _ _ H2).
Qed.

Lemma rstrip_length : forall p l, (length (rev (drop_while p (rev l))) <= length l)%nat.
Proof.
  intros p l. destruct (rstrip_prefix p l) as [suf Hsuf].
  rewrite Hsuf at 2. rewrite length_app. lia.
Qed.

Lemma slug_alphabet_alnum : forall n,
  is_lower_alnum (match String.get n slug_alphabet with Some c => c | None => "a"%char end) = true.
Proof. intros n. do 31 (destruct n as [|n]; [reflexivity|]). reflexivity. Qed.

Lemma slug_prefix_chars : forall draw,
  list_ascii_of_string (generate_slug_prefix draw)
  = map (fun k => match String.get (draw k) slug_alphabet with Some c => c | None => "a"%char end)
        (seq 0 SLUG_PREFIX_LENGTH).
Proof. intros draw. unfold generate_slug_prefix. apply list_ascii_of_string_of_list_ascii. Qed.

Lemma slug_body_prefix : forall (p0 p1 p2 p3 p4 p5 : ascii) (B : list ascii),
  forallb is_lower_alnum [p0; p1; p2; p3; p4; p5] = true ->
  slug_base_ok B = true -> (length B <= 56)%nat ->
  slug_body [p0; p1; p2; p3; p4; p5] = true /\
  (B <> [] -> slug_body ([p0; p1; p2; p3; p4; p5] ++ "-"%char :: B) = true).
Proof.
  intros p0 p1 p2 p3 p4 p5 B Hp HB Hlen. simpl in Hp.
  repeat (apply andb_prop in Hp as [? Hp]). split.
  - unfold slug_body. simpl. unfold is_slug_char.
    repeat match goal with H : is_lower_alnum _ = true |- _ => rewrite H; clear H end. reflexivity.
  - intros Hne. unfold slug_body. cbn [app].
    unfold slug_base_ok in HB. apply andb_prop in HB as [HB HB3]. apply andb_prop in HB as [HB1 HB2].
    rewrite <- forallb_rev in HB1.
    assert (Hr : rev (p1 :: p2 :: p3 :: p4 :: p5 :: "-"%char :: B)
                 = (rev B ++ ["-"%char; p5; p4; p3; p2; p1])%list).
    { simpl. rewrite <- !app_assoc. reflexivity. }
    rewrite Hr. destruct (rev B) as [|d mid] eqn:HrB.
    + destruct B; [contradiction Hne; reflexivity|]. simpl in HrB.
      destruct (rev B); discriminate.
    + simpl in HB3 |- *. simpl in HB1. apply andb_prop in HB1 as [_ HB1]. rewrite HB3.
      assert (Hl : length mid = (length B - 1)%nat).
      { assert (Hq : length (rev B) = length (d :: mid)) by (rewrite HrB; reflexivity).
        rewrite length_rev in Hq. simpl in Hq. lia. }
      rewrite length_app, Hl. change (length ["-"%char; p5; p4; p3; p2; p1]) with 6%nat.
      assert (H61 : ((length B - 1 + 6) <=? 61)%nat = true) by (apply Nat.leb_le; lia).
      assert (Hge1 : (1 <=? (length B - 1 + 6))%nat = true) by (apply Nat.leb_le; lia).
      rewrite H61. replace (length B - 1 + 6)%nat with (S (length B - 1 + 5)) by lia. rewrite forallb_app, HB1. simpl. unfold is_slug_char.
      repeat match goal with H : is_lower_alnum _ = true |- _ => rewrite H; clear H end.
      reflexivity.
Qed.

Lemma slug_from_parts : forall draw base,
  slug_base_ok (list_ascii_of_string base) = true ->
  (length (list_ascii_of_string base) <= 56)%nat ->
  slug_pattern_match (if String.eqb base "" then generate_slug_prefix draw
                      else generate_slug_prefix draw ++ "-" ++ base) = true.
Proof.
  intros draw base Hok Hlen.
  set (f := fun k => match String.get (draw k) slug_alphabet with Some c => c | None => "a"%char end).
  assert (Hp : forallb is_lower_alnum [f 0%nat; f 1%nat; f 2%nat; f 3%nat; f 4%nat; f 5%nat] = true).
  { cbn [forallb]. unfold f. rewrite !slug_alphabet_alnum. reflexivity. }
  destruct (slug_body_prefix _ _ _ _ _ _ _ Hp Hok Hlen) as [H1 H2].
  unfold slug_pattern_match. destruct (String.eqb base "") eqn:He.
  - rewrite slug_prefix_chars. fold f. unfold SLUG_PREFIX_LENGTH. cbn [seq map].
    rewrite H1. reflexivity.
  - rewrite list_ascii_of_string_app, slug_prefix_chars. fold f. unfold SLUG_PREFIX_LENGTH.
    cbn [seq map].
    change (list_ascii_of_string ("-" ++ base)) with ("-"%char :: list_ascii_of_string base).
    rewrite H2; [reflexivity|].
    intros Hn. apply String.eqb_neq in He. apply He.
    rewrite <- (string_of_list_ascii_of_string base), Hn. reflexivity.
Qed.

Lemma generated_slug_matches : forall draw name,
  slug_pattern_match (generate_secure_slug draw name) = true.
Proof.
  intros draw name. unfold generate_secure_slug. cbv zeta.
  set (B0 := sub_non_alnum false (list_ascii_of_string (lower name))).
  set (base1 := rstrip_by is_hyphen (lstrip_by is_hyphen (string_of_list_ascii B0))).
  assert (Hb1 : slug_base_ok (list_ascii_of_string base1) = true).
  { unfold base1, rstrip_by, lstrip_by. rewrite !list_ascii_of_string_of_list_ascii.
    destruct (lstrip_ok B0 (sub_non_alnum_chars _ false)) as [Hs Hh].
    exact (rstrip_ok _ Hs Hh). }
  apply slug_from_parts.
  - destruct (Nat.ltb (63 - SLUG_PREFIX_LENGTH - 1) (String.length base1)); [|exact Hb1].
    unfold rstrip_by. rewrite !list_ascii_of_string_of_list_ascii.
    exact (truncate_ok _ _ Hb1).
  - destruct (Nat.ltb (63 - SLUG_PREFIX_LENGTH - 1) (String.length base1)) eqn:Hlt.
    + unfold rstrip_by. rewrite !list_ascii_of_string_of_list_ascii.
      eapply Nat.le_trans; [apply rstrip_length|]. rewrite length_firstn. apply Nat.le_min_l.
    + apply Nat.ltb_ge in Hlt. rewrite <- string_length_list. exact Hlt.
Qed.

(** X13: the slug [create_tenant] generates always matches [SLUG_PATTERN]; the tenant is created unless that slug is already taken, in which case [TenantAlreadyExistsError] is raised and nothing is stored. *)
Theorem create_tenant_slug_always_valid :
  forall (slugs : list string) (owner_id name : string) (slug : option string) (draw : nat -> nat),
  owner_id <> "" ->
  let s := generate_secure_slug draw
             (match slug with Some x => if String.eqb x "" then name else x | None => name end) in
  slug_pattern_match s = true /\
  create_tenant slugs owner_id name slug draw
  = if existsb (String.eqb s) slugs
    then (inl (TenantAlreadyExistsError ("Tenant with slug '" ++ s ++ "' already exists")), slugs)
    else (inr s, (slugs ++ [s])%list).
Proof.
  intros slugs owner_id name slug draw Ho s.
  pose proof (generated_slug_matches draw
                (match slug with Some x => if String.eqb x "" then name else x | None => name end)) as Hm.
  split; [exact Hm|].
  unfold create_tenant. apply String.eqb_neq in Ho. rewrite Ho. cbv zeta.
  unfold validate_slug. rewrite Hm. reflexivity.
Qed.

Lemma create_tenant_slug_always_valid_witness :
  "u-1" <> "" /\
  create_tenant ["dmu3ah-acme"] "u-1" "Acme" None (fun k => (k * 7 + 3) mod 31)%nat
  = (inl (TenantAlreadyExistsError "Tenant with slug 'dmu3ah-acme' already exists"), ["dmu3ah-acme"]) /\
  create_tenant [] "u-1" "Acme Ltd." None (fun k => (k * 7 + 3) mod 31)%nat
  = (inr "dmu3ah-acme-ltd", ["dmu3ah-acme-ltd"]).
Proof.
  split; [discriminate|]. split.
  - destruct (create_tenant_slug_always_valid ["dmu3ah-acme"] "u-1" "Acme" None
                (fun k => (k * 7 + 3) mod 31)%nat ltac:(discriminate)) as [_ H].
    rewrite H. vm_compute. reflexivity.
  - destruct (create_tenant_slug_always_valid [] "u-1" "Acme Ltd." None
                (fun k => (k * 7 + 3) mod 31)%nat ltac:(discriminate)) as [_ H].
    rewrite H. vm_compute. reflexivity.
Defined.

Lemma get_worker_instance_found : forall d t i,
  get_worker_instance d t = Some i -> wi_tenant i = t /\ In i (instances d).
Proof.
  intros d t i H. unfold get_worker_instance in H. apply find_some in H as [Hin Ht].
  apply Nat.eqb_eq in Ht. split; assumption.
Qed.

Lemma replace_instance_tenants : forall d i',
  map wi_tenant (instances (replace_instance d i')) = map wi_tenant (instances d).
Proof.
  intros d i'. unfold replace_instance. simpl. rewrite map_map. apply map_ext.
  intros j. destruct (Nat.eqb (wi_tenant j) (wi_tenant i')) eqn:H; [|reflexivity].
  apply Nat.eqb_eq in H. symmetry. exact H.
Qed.

Lemma get_after_replace : forall d t i i',
  get_worker_instance d t = Some i -> wi_tenant i' = t ->
  get_worker_instance (replace_instance d i') t = Some i'.
Proof.
  intros d t i i' H Ht. unfold get_worker_instance, replace_instance. simpl.
  exact (find_replace_instance (instances d) t i i' H Ht).
Qed.

Lemma find_none_filter : forall (l : list winst) t,
  find (fun j => Nat.eqb (wi_tenant j) t) l = None -> filter (not_tenant t) l = l.
Proof.
  induction l as [|a l IH]; intros t H; simpl in *; [reflexivity|].
  unfold not_tenant at 1. destruct (Nat.eqb (wi_tenant a) t); [discriminate|].
  simpl. rewrite (IH t H). reflexivity.
Qed.

Lemma not_in_filter : forall (l : list winst) t,
  ~ In t (map wi_tenant l) -> filter (not_tenant t) l = l.
Proof.
  induction l as [|a l IH]; intros t H; simpl in *; [reflexivity|].
  unfold not_tenant at 1. destruct (Nat.eqb (wi_tenant a) t) eqn:Ha.
  - apply Nat.eqb_eq in Ha. contradiction H. left. exact Ha.
  - simpl. rewrite IH; [reflexivity|]. intros Hin. apply H. right. exact Hin.
Qed.

Lemma find_filter_none : forall (l : list winst) t,
  find (fun j => Nat.eqb (wi_tenant j) t) (filter (not_tenant t) l) = None.
Proof.
  induction l as [|a l IH]; intros t; simpl; [reflexivity|].
  unfold not_tenant at 1. destruct (Nat.eqb (wi_tenant a) t) eqn:Ha; simpl; [apply IH|].
  rewrite Ha. apply IH.
Qed.

Lemma remove_first_unique : forall (l : list winst) t,
  NoDup (map wi_tenant l) ->
  remove_first (fun i => Nat.eqb (wi_tenant i) t) l = filter (not_tenant t) l.
Proof.
  induction l as [|a l IH]; intros t H; simpl; [reflexivity|].
  inversion H as [|x r Hx Hnd]; subst. unfold not_tenant at 1.
  destruct (Nat.eqb (wi_tenant a) t) eqn:Ha; simpl.
  - apply Nat.eqb_eq in Ha. subst t. symmetry. exact (not_in_filter l _ Hx).
  - rewrite (IH t Hnd). reflexivity.
Qed.

Lemma NoDup_remove_first : forall (l : list winst) t,
  NoDup (map wi_tenant l) -> NoDup (map wi_tenant (remove_first (fun i => Nat.eqb (wi_tenant i) t) l)).
Proof.
  intros l t H. rewrite (remove_first_unique l t H).
  induction l as [|a l IH]; simpl; [constructor|].
  inversion H as [|x r Hx Hnd]; subst. unfold not_tenant at 1.
  destruct (Nat.eqb (wi_tenant a) t); simpl; [exact (IH Hnd)|].
  constructor; [|exact (IH Hnd)].
  intros Hin. apply Hx. apply in_map_iff in Hin as [j [Hj Hin]].
  apply filter_In in Hin as [Hin _]. apply in_map_iff. exists j. split; assumption.
Qed.

Lemma filter_not_tenant_replace : forall (l : list winst) t i',
  wi_tenant i' = t ->
  filter (not_tenant t) (map (replace_row i') l) = filter (not_tenant t) l.
Proof.
  induction l as [|a l IH]; intros t i' Ht; [reflexivity|].
  cbn [map filter].
  assert (Hr : replace_row i' a = if Nat.eqb (wi_tenant a) t then i' else a)
    by (unfold replace_row; rewrite Ht; reflexivity).
  rewrite Hr. destruct (Nat.eqb (wi_tenant a) t) eqn:Ha.
  - assert (Hn : not_tenant t i' = false) by (unfold not_tenant; rewrite Ht, Nat.eqb_refl; reflexivity).
    assert (Ha' : not_tenant t a = false) by (unfold not_tenant; rewrite Ha; reflexivity).
    rewrite Hn, Ha'. exact (IH t i' Ht).
  - assert (Ha' : not_tenant t a = true) by (unfold not_tenant; rewrite Ha; reflexivity).
    rewrite Ha', (IH t i' Ht). reflexivity.
Qed.

Lemma filter_holds_not_tenant : forall (l : list winst) t,
  (forall j, In j l -> wi_tenant j = t -> holds_redis_db (wi_status j) = false) ->
  filter (fun i => holds_redis_db (wi_status i)) l
  = filter (fun i => holds_redis_db (wi_status i)) (filter (not_tenant t) l).
Proof.
  induction l as [|a l IH]; intros t H; simpl; [reflexivity|].
  unfold not_tenant at 1. destruct (Nat.eqb (wi_tenant a) t) eqn:Ha; simpl.
  - apply Nat.eqb_eq in Ha. rewrite (H a (or_introl eq_refl) Ha).
    apply IH. intros j Hj. apply H. right. exact Hj.
  - destruct (holds_redis_db (wi_status a)); [f_equal|]; apply IH; intros j Hj; apply H; right; exact Hj.
Qed.

Lemma unique_row : forall (l : list winst) i j,
  NoDup (map wi_tenant l) -> In i l -> In j l -> wi_tenant i = wi_tenant j -> i = j.
Proof.
  induction l as [|a l IH]; intros i j H Hi Hj Ht; [destruct Hi|].
  inversion H as [|x r Hx Hnd]; subst.
  destruct Hi as [<-|Hi]; destruct Hj as [<-|Hj]; try reflexivity.
  - contradiction Hx. rewrite Ht. apply in_map. exact Hj.
  - contradiction Hx. rewrite <- Ht. apply in_map. exact Hi.
  - exact (IH i j Hnd Hi Hj Ht).
Qed.

Lemma allocate_same : forall l1 l2,
  filter (fun i => holds_redis_db (wi_status i)) l1 = filter (fun i => holds_redis_db (wi_status i)) l2 ->
  allocate_redis_db l1 = allocate_redis_db l2.
Proof. intros l1 l2 H. unfold allocate_redis_db. rewrite H. reflexivity. Qed.

Lemma in_replace_row : forall (l : list winst) j i',
  In j l -> wi_tenant j <> wi_tenant i' -> In j (map (replace_row i') l).
Proof.
  intros l j i' Hj Hne. apply in_map_iff. exists j. split; [|exact Hj].
  unfold replace_row. apply Nat.eqb_neq in Hne. rewrite Hne. reflexivity.
Qed.

Lemma in_replace_row_new : forall (l : list winst) i i',
  In i l -> wi_tenant i = wi_tenant i' -> In i' (map (replace_row i') l).
Proof.
  intros l i i' Hi Ht. apply in_map_iff. exists i. split; [|exact Hi].
  unfold replace_row. rewrite Ht, Nat.eqb_refl. reflexivity.
Qed.

Lemma add_audit_instances : forall d a t, instances (add_audit d a t) = instances d.
Proof. reflexivity. Qed.

Lemma get_add_audit : forall d a t t', get_worker_instance (add_audit d a t) t' = get_worker_instance d t'.
Proof. reflexivity. Qed.

Lemma replace_instance_rows : forall d i',
  instances (replace_instance d i') = map (replace_row i') (instances d).
Proof. reflexivity. Qed.

(** X15: when every tenant has at most one worker row, a successful [stop_worker] that does not leave the row pending marks the worker stopped, keeps it as the tenant's row and frees its Redis slot for allocation. *)
Theorem stop_worker_releases_slot : forall (d : db) (t : nat) (now : Z) (docker : docker_outcome) i' d',
  NoDup (map wi_tenant (instances d)) ->
  stop_worker d t now docker = (inr i', d') -> wi_status i' <> PENDING ->
  wi_status i' = STOPPED /\ get_worker_instance d' t = Some i' /\
  allocate_redis_db (instances d')
  = allocate_redis_db (filter (fun j => negb (Nat.eqb (wi_tenant j) t)) (instances d)).
Proof.
  intros d t now docker i' d' Hnd H Hp. unfold stop_worker in H.
  destruct (existsb (Nat.eqb t) (tenants d)); cbn [negb] in H; [|discriminate].
  destruct (get_worker_instance d t) as [i|] eqn:Hg; [|discriminate].
  destruct (get_worker_instance_found d t i Hg) as [Hti Hin].
  destruct (existsb (wstatus_eqb (wi_status i)) [STOPPED; PENDING]) eqn:Hs.
  - simpl in H. injection H as <- <-.
    assert (Hst : wi_status i = STOPPED)
      by (destruct (wi_status i); simpl in Hs; try discriminate; [contradiction Hp | ]; reflexivity).
    split; [exact Hst|]. split; [exact Hg|].
    apply allocate_same. apply (filter_holds_not_tenant (instances d) t).
    intros j Hj Htj. rewrite (unique_row _ j i Hnd Hj Hin (eq_trans Htj (eq_sym Hti))), Hst.
    reflexivity.
  - destruct docker as [| |msg]; [| |discriminate]; injection H as <- <-;
      (split; [reflexivity|]); (split; [apply (get_after_replace d t i); [exact Hg | exact Hti]|]);
      apply allocate_same; rewrite add_audit_instances, replace_instance_rows;
      (rewrite (filter_holds_not_tenant _ t);
       [ apply f_equal; apply filter_not_tenant_replace; exact Hti
       | intros j Hj Htj; apply in_map_iff in Hj as [k [<- Hk]]; unfold replace_row in *;
         destruct (Nat.eqb (wi_tenant k) _) eqn:Hkt;
         [ reflexivity
         | simpl in Htj; apply Nat.eqb_neq in Hkt; contradiction Hkt; rewrite Htj; exact (eq_sym Hti) ] ]).
Qed.

(** X16: hibernating and then waking a worker of an existing tenant (with Docker succeeding) leaves it running with the same Redis slot and container, new start time, no stop time, and records both events in the audit log. *)
Theorem hibernate_then_wake : forall (d : db) (t : nat) (now1 now2 : Z) (i : winst),
  In t (tenants d) -> get_worker_instance d t = Some i ->
  exists i1 d1 i2 d2,
    hibernate_worker d t now1 DockerOk = (inr i1, d1) /\
    wake_worker d1 t now2 DockerOk = (inr i2, d2) /\
    wi_status i1 = HIBERNATING /\ wi_stopped_at i1 = Some now1 /\
    wi_status i2 = RUNNING /\ wi_redis_db i2 = wi_redis_db i /\
    wi_container_id i2 = wi_container_id i /\
    wi_started_at i2 = Some now2 /\ wi_stopped_at i2 = None /\
    get_worker_instance d2 t = Some i2 /\
    audit d2 = (audit d ++ [("worker_hibernated", t); ("worker_woken", t)])%list.
Proof.
  intros d t now1 now2 i Ht Hg.
  destruct (get_worker_instance_found d t i Hg) as [Hti _].
  apply existsb_nat_In in Ht.
  do 4 eexists. split.
  { unfold hibernate_worker. rewrite Ht, Hg. cbn [negb]. reflexivity. }
  unfold wake_worker. cbn [tenants add_audit replace_instance]. rewrite Ht. cbn [negb].
  assert (Hg1 : forall i1, wi_tenant i1 = t ->
            get_worker_instance (add_audit (replace_instance d i1) "worker_hibernated" t) t = Some i1)
    by (intros i1 H1; exact (get_after_replace d t i i1 Hg H1)).
  rewrite Hg1 by exact Hti. simpl wstatus_eqb. cbn [negb].
  split; [reflexivity|].
  repeat split; try reflexivity.
  - rewrite get_add_audit. eapply get_after_replace; [apply Hg1; exact Hti | exact Hti].
  - simpl. rewrite <- app_assoc. reflexivity.
Qed.

(** X17: [hibernate_worker] does not check the worker's status: a stopped worker whose former slot is now held by another tenant's worker is hibernated and again holds that same slot. *)
Theorem hibernate_ignores_status :
  forall (d : db) (t : nat) (now : Z) (docker : docker_outcome) (i j : winst),
  In t (tenants d) -> get_worker_instance d t = Some i ->
  (forall msg, docker <> DockerAPIError msg) ->
  In j (instances d) -> wi_tenant j <> t ->
  holds_redis_db (wi_status j) = true -> wi_redis_db j = wi_redis_db i ->
  exists i' d',
    hibernate_worker d t now docker = (inr i', d') /\
    wi_status i' = HIBERNATING /\ holds_redis_db (wi_status i') = true /\
    In i' (instances d') /\ In j (instances d') /\ wi_tenant i' = t /\
    wi_redis_db i' = wi_redis_db j.
Proof.
  intros d t now docker i j Ht Hg Hd Hj Hjt Hh Hdb.
  destruct (get_worker_instance_found d t i Hg) as [Hti Hin].
  apply existsb_nat_In in Ht.
  unfold hibernate_worker. rewrite Ht, Hg. cbn [negb].
  destruct docker as [| |msg]; [| | contradiction (Hd msg); reflexivity];
    (do 2 eexists; split; [reflexivity|]);
    (split; [reflexivity|]); (split; [reflexivity|]);
    cbn [add_audit instances replace_instance];
    (split; [apply (in_replace_row_new _ i); [exact Hin | reflexivity]|]);
    (split; [apply in_replace_row; [exact Hj | simpl; rewrite Hti; exact Hjt]|]);
    (split; [exact Hti | simpl; symmetry; exact Hdb]).
Qed.

(** X18: when every tenant has at most one worker row, a successful [destroy_worker] removes exactly the tenant's row and leaves the tenants and the audit log unchanged. *)
Theorem destroy_worker_removes_row : forall (d : db) (t : nat) (docker : docker_outcome) (d' : db),
  NoDup (map wi_tenant (instances d)) ->
  destroy_worker d t docker = (inr tt, d') ->
  instances d' = filter (fun j => negb (Nat.eqb (wi_tenant j) t)) (instances d) /\
  get_worker_instance d' t = None /\ audit d' = audit d /\ tenants d' = tenants d.
Proof.
  intros d t docker d' Hnd H. unfold destroy_worker in H.
  destruct (existsb (Nat.eqb t) (tenants d)); cbn [negb] in H; [|discriminate].
  destruct (get_worker_instance d t) as [i|] eqn:Hg.
  - destruct docker as [| |msg]; [| |discriminate]; injection H as <-;
      cbn [instances audit tenants]; unfold release_redis_db;
      rewrite (remove_first_unique _ _ Hnd);
      (split; [reflexivity|]); (split; [apply find_filter_none|]); split; reflexivity.
  - injection H as <-. unfold get_worker_instance in Hg.
    split; [symmetry; exact (find_none_filter _ _ Hg)|]. split; [exact Hg|]. split; reflexivity.
Qed.

Lemma NoDup_snoc : forall (l : list nat) x, NoDup l -> ~ In x l -> NoDup (l ++ [x])%list.
Proof.
  induction l as [|a l IH]; intros x H Hx; simpl; [constructor; [intros []|constructor]|].
  inversion H as [|y r Hy Hnd]; subst. constructor.
  - intros Hin. apply in_app_or in Hin as [Hin|[<-|[]]]; [exact (Hy Hin)|]. apply Hx. left. reflexivity.
  - apply IH; [exact Hnd|]. intros Hin. apply Hx. right. exact Hin.
Qed.

Lemma find_none_not_in : forall (l : list winst) t,
  find (fun j => Nat.eqb (wi_tenant j) t) l = None -> ~ In t (map wi_tenant l).
Proof.
  intros l t H Hin. apply in_map_iff in Hin as [j [Hj Hin]].
  pose proof (find_none _ _ H j Hin) as Hf. simpl in Hf. rewrite Hj, Nat.eqb_refl in Hf. discriminate.
Qed.

Lemma NoDup_replace : forall d i' a t,
  NoDup (map wi_tenant (instances d)) ->
  NoDup (map wi_tenant (instances (add_audit (replace_instance d i') a t))).
Proof. intros d i' a t H. rewrite add_audit_instances, replace_instance_tenants. exact H. Qed.

Lemma create_worker_unique : forall d t export_ok docker_create,
  NoDup (map wi_tenant (instances d)) ->
  NoDup (map wi_tenant (instances (snd (create_worker d t export_ok docker_create)))).
Proof.
  intros d t export_ok docker_create H. unfold create_worker.
  destruct (existsb (Nat.eqb t) (tenants d)); cbn [negb]; [|exact H].
  destruct (get_worker_instance d t) as [i|] eqn:Hg.
  - destruct (negb (existsb (wstatus_eqb (wi_status i)) [STOPPED; ERROR])); [exact H|].
    destruct (existsb (Nat.eqb t) (shioaji_creds d)); cbn [negb]; [|exact H].
    destruct (allocate_redis_db (instances d)) as [e|n]; [exact H|].
    destruct export_ok; cbn [negb]; [|exact H].
    destruct docker_create as [msg|cid]; [exact H|]. apply NoDup_replace. exact H.
  - cbn iota. destruct (existsb (Nat.eqb t) (shioaji_creds d)); cbn [negb]; [|exact H].
    destruct (allocate_redis_db (instances d)) as [e|n]; [exact H|].
    assert (Hn : NoDup (map wi_tenant (instances (add_instance d (new_instance t n)))))
      by (simpl; rewrite map_app; apply NoDup_snoc; [exact H | exact (find_none_not_in _ _ Hg)]).
    destruct export_ok; cbn [negb]; [|exact Hn].
    destruct docker_create as [msg|cid]; [exact Hn|]. apply NoDup_replace. exact Hn.
Qed.

Lemma start_worker_unique : forall d t now docker,
  NoDup (map wi_tenant (instances d)) ->
  NoDup (map wi_tenant (instances (snd (start_worker d t now docker)))).
Proof.
  intros d t now docker H. unfold start_worker.
  destruct (negb (existsb (Nat.eqb t) (tenants d))); [exact H|].
  destruct (get_worker_instance d t) as [i|]; [|exact H].
  destruct (wstatus_eqb (wi_status i) RUNNING); [exact H|].
  destruct docker; try exact H. apply NoDup_replace. exact H.
Qed.

Lemma wake_worker_unique : forall d t now docker,
  NoDup (map wi_tenant (instances d)) ->
  NoDup (map wi_tenant (instances (snd (wake_worker d t now docker)))).
Proof.
  intros d t now docker H. unfold wake_worker.
  destruct (negb (existsb (Nat.eqb t) (tenants d))); [exact H|].
  destruct (get_worker_instance d t) as [i|]; [|exact H].
  destruct (negb (wstatus_eqb (wi_status i) HIBERNATING)); [exact H|].
  destruct docker; try exact H. apply NoDup_replace. exact H.
Qed.

(** X19: create, start, stop, hibernate, wake, destroy and the admin start endpoint all keep at most one worker row per tenant. *)
Theorem lifecycle_keeps_one_row_per_tenant :
  forall (d : db) (t : nat) (now : Z) (export_ok : bool) (docker_create : sum string string)
         (docker_start : start_outcome) (docker : docker_outcome),
  NoDup (map wi_tenant (instances d)) ->
  NoDup (map wi_tenant (instances (snd (create_worker d t export_ok docker_create)))) /\
  NoDup (map wi_tenant (instances (snd (start_worker d t now docker_start)))) /\
  NoDup (map wi_tenant (instances (snd (stop_worker d t now docker)))) /\
  NoDup (map wi_tenant (instances (snd (hibernate_worker d t now docker)))) /\
  NoDup (map wi_tenant (instances (snd (wake_worker d t now docker)))) /\
  NoDup (map wi_tenant (instances (snd (destroy_worker d t docker)))) /\
  NoDup (map wi_tenant (instances (snd (admin_start_worker d t now export_ok docker_create
                                          docker_start docker)))).
Proof.
  intros d t now export_ok docker_create docker_start docker H.
  split; [exact (create_worker_unique d t export_ok docker_create H)|].
  split; [exact (start_worker_unique d t now docker_start H)|].
  split.
  { unfold stop_worker. destruct (negb (existsb (Nat.eqb t) (tenants d))); [exact H|].
    destruct (get_worker_instance d t) as [i|]; [|exact H].
    destruct (existsb (wstatus_eqb (wi_status i)) [STOPPED; PENDING]); [exact H|].
    destruct docker; try exact H; apply NoDup_replace; exact H. }
  split.
  { unfold hibernate_worker. destruct (negb (existsb (Nat.eqb t) (tenants d))); [exact H|].
    destruct (get_worker_instance d t) as [i|]; [|exact H].
    destruct docker; try exact H; apply NoDup_replace; exact H. }
  split; [exact (wake_worker_unique d t now docker H)|].
  split.
  { unfold destroy_worker. destruct (negb (existsb (Nat.eqb t) (tenants d))); [exact H|].
    destruct (get_worker_instance d t) as [i|]; [|exact H].
    destruct docker; try exact H; apply NoDup_remove_first; exact H. }
  unfold admin_start_worker. destruct (get_worker_instance d t) as [i|].
  - destruct (existsb (wstatus_eqb (wi_status i)) [STOPPED; ERROR; PENDING]);
      [exact (start_worker_unique d t now docker_start H)|].
    destruct (wstatus_eqb (wi_status i) HIBERNATING); [exact (wake_worker_unique d t now docker H)|].
    exact H.
  - pose proof (create_worker_unique d t export_ok docker_create H) as Hc.
    destruct (create_worker d t export_ok docker_create) as [[calls r] d1].
    destruct r; [exact Hc|]. exact (start_worker_unique d1 t now docker_start Hc).
Qed.

Lemma find_app_none : forall {A} (p : A -> bool) (l1 l2 : list A),
  find p l1 = None -> find p (l1 ++ l2)%list = find p l2.
Proof.
  intros A p l1 l2. induction l1 as [|a l1 IH]; simpl; [reflexivity|].
  destruct (p a); [discriminate | exact IH].
Qed.

Lemma start_worker_started : forall d t now i,
  In t (tenants d) -> get_worker_instance d t = Some i -> wi_status i <> RUNNING ->
  exists i' d', start_worker d t now Started = (inr i', d') /\ wi_status i' = RUNNING /\
                get_worker_instance d' t = Some i'.
Proof.
  intros d t now i Ht Hg Hs. destruct (get_worker_instance_found d t i Hg) as [Hti _].
  apply existsb_nat_In in Ht. unfold start_worker. rewrite Ht, Hg. cbn [negb].
  assert (Hb : wstatus_eqb (wi_status i) RUNNING = false)
    by (destruct (wi_status i); try reflexivity; contradiction Hs; reflexivity).
  rewrite Hb. do 2 eexists. split; [reflexivity|]. split; [reflexivity|].
  rewrite get_add_audit. eapply get_after_replace; [exact Hg | exact Hti].
Qed.

Lemma wake_worker_woken : forall d t now i,
  In t (tenants d) -> get_worker_instance d t = Some i -> wi_status i = HIBERNATING ->
  exists i' d', wake_worker d t now DockerOk = (inr i', d') /\ wi_status i' = RUNNING /\
                get_worker_instance d' t = Some i'.
Proof.
  intros d t now i Ht Hg Hs. destruct (get_worker_instance_found d t i Hg) as [Hti _].
  apply existsb_nat_In in Ht. unfold wake_worker. rewrite Ht, Hg, Hs. cbn [negb wstatus_eqb].
  do 2 eexists. split; [reflexivity|]. split; [reflexivity|].
  rewrite get_add_audit. eapply get_after_replace; [exact Hg | exact Hti].
Qed.

(** X20: for a tenant with Shioaji credentials and a free slot when it has no worker yet, the admin start endpoint (with export and Docker succeeding) leaves the tenant's worker running, or returns an existing worker already starting or stopping unchanged. *)
Theorem admin_start_worker_runs : forall (d : db) (t : nat) (now : Z) (cid : string),
  In t (tenants d) -> In t (shioaji_creds d) ->
  (get_worker_instance d t = None -> exists n, allocate_redis_db (instances d) = inr n) ->
  exists i' d',
    admin_start_worker d t now true (inr cid) Started DockerOk = (inr i', d') /\
    get_worker_instance d' t = Some i' /\
    (wi_status i' = RUNNING \/
     (get_worker_instance d t = Some i' /\ d' = d /\
      (wi_status i' = STARTING \/ wi_status i' = STOPPING))).
Proof.
  intros d t now cid Ht Hc Halloc. unfold admin_start_worker.
  destruct (get_worker_instance d t) as [i|] eqn:Hg.
  - destruct (wi_status i) eqn:Hs; cbn [existsb wstatus_eqb orb].
    + destruct (start_worker_started d t now i Ht Hg ltac:(rewrite Hs; discriminate))
        as [i' [d' [H1 [H2 H3]]]].
      exists i', d'. rewrite H1. auto.
    + exists i, d. split; [reflexivity|]. split; [exact Hg|]. right. auto.
    + exists i, d. split; [reflexivity|]. split; [exact Hg|]. left. exact Hs.
    + destruct (wake_worker_woken d t now i Ht Hg Hs) as [i' [d' [H1 [H2 H3]]]].
      exists i', d'. rewrite H1. auto.
    + exists i, d. split; [reflexivity|]. split; [exact Hg|]. right. auto.
    + destruct (start_worker_started d t now i Ht Hg ltac:(rewrite Hs; discriminate))
        as [i' [d' [H1 [H2 H3]]]].
      exists i', d'. rewrite H1. auto.
    + destruct (start_worker_started d t now i Ht Hg ltac:(rewrite Hs; discriminate))
        as [i' [d' [H1 [H2 H3]]]].
      exists i', d'. rewrite H1. auto.
  - destruct (Halloc eq_refl) as [n Hn].
    pose proof Ht as Ht'. apply existsb_nat_In in Ht'. apply existsb_nat_In in Hc.
    unfold create_worker. rewrite Ht', Hg, Hc, Hn. cbn [negb].
    set (inst := {| wi_tenant := wi_tenant (new_instance t n); wi_container_id := Some cid;
                    wi_status := PENDING; wi_redis_db := wi_redis_db (new_instance t n);
                    wi_started_at := wi_started_at (new_instance t n);
                    wi_stopped_at := wi_stopped_at (new_instance t n);
                    wi_error_message := wi_error_message (new_instance t n) |}).
    assert (Hg0 : get_worker_instance (add_instance d (new_instance t n)) t = Some (new_instance t n)).
    { unfold get_worker_instance in *. simpl. rewrite (find_app_none _ _ _ Hg). simpl. rewrite Nat.eqb_refl. reflexivity. }
    assert (Hg1 : get_worker_instance
                    (add_audit (replace_instance (add_instance d (new_instance t n)) inst) "worker_started" t) t
                  = Some inst)
      by (rewrite get_add_audit; eapply get_after_replace; [exact Hg0 | reflexivity]).
    destruct (start_worker_started
                (add_audit (replace_instance (add_instance d (new_instance t n)) inst) "worker_started" t)
                t now inst Ht Hg1 ltac:(discriminate)) as [i' [d' [H1 [H2 H3]]]].
    exists i', d'. rewrite H1. auto.
Qed.

Lemma stop_worker_releases_slot_witness :
  NoDup (map wi_tenant (instances db_running_no_creds)) /\
  exists i' d', stop_worker db_running_no_creds 0 500 DockerOk = (inr i', d') /\
                wi_status i' = STOPPED /\ allocate_redis_db (instances d') = inr 0.
Proof.
  assert (Hnd : NoDup (map wi_tenant (instances db_running_no_creds))) by (repeat constructor; intros []).
  split; [exact Hnd|]. do 2 eexists. split; [reflexivity|].
  destruct (stop_worker_releases_slot db_running_no_creds 0 500 DockerOk _ _ Hnd eq_refl
              ltac:(discriminate)) as [H1 [_ H2]].
  split; [exact H1|]. rewrite H2. reflexivity.
Defined.

Lemma hibernate_then_wake_witness :
  In 0%nat (tenants db_running_no_creds) /\
  get_worker_instance db_running_no_creds 0 = Some (winst_at 0 RUNNING 0) /\
  exists i1 d1 i2 d2,
    hibernate_worker db_running_no_creds 0 100 DockerOk = (inr i1, d1) /\
    wake_worker d1 0 200 DockerOk = (inr i2, d2) /\
    wi_status i1 = HIBERNATING /\ wi_stopped_at i1 = Some 100 /\
    wi_status i2 = RUNNING /\ wi_redis_db i2 = wi_redis_db (winst_at 0 RUNNING 0) /\
    wi_container_id i2 = wi_container_id (winst_at 0 RUNNING 0) /\
    wi_started_at i2 = Some 200 /\ wi_stopped_at i2 = None /\
    get_worker_instance d2 0 = Some i2 /\
    audit d2 = (audit db_running_no_creds ++ [("worker_hibernated", 0%nat); ("worker_woken", 0%nat)])%list.
Proof.
  split; [left; reflexivity|]. split; [reflexivity|].
  apply (hibernate_then_wake db_running_no_creds 0 100 200 (winst_at 0 RUNNING 0));
    [left; reflexivity | reflexivity].
Defined.

Lemma hibernate_ignores_status_witness :
  wi_status (winst_at 0 STOPPED 0) = STOPPED /\
  exists i' d',
    hibernate_worker db_slot_shared 0 400 DockerOk = (inr i', d') /\
    wi_status i' = HIBERNATING /\ holds_redis_db (wi_status i') = true /\
    In i' (instances d') /\ In (winst_at 1 RUNNING 0) (instances d') /\ wi_tenant i' = 0%nat /\
    wi_redis_db i' = wi_redis_db (winst_at 1 RUNNING 0).
Proof.
  split; [reflexivity|].
  apply (hibernate_ignores_status db_slot_shared 0 400 DockerOk (winst_at 0 STOPPED 0) (winst_at 1 RUNNING 0));
    [left; reflexivity | reflexivity | discriminate | right; left; reflexivity | discriminate
    | reflexivity | reflexivity].
Defined.

Lemma destroy_worker_removes_row_witness :
  NoDup (map wi_tenant (instances db_slot_shared)) /\
  exists d', destroy_worker db_slot_shared 1 DockerNotFound = (inr tt, d') /\
             instances d' = [winst_at 0 STOPPED 0] /\ get_worker_instance d' 1 = None.
Proof.
  assert (Hnd : NoDup (map wi_tenant (instances db_slot_shared)))
    by (repeat constructor; simpl; intuition discriminate).
  split; [exact Hnd|]. eexists. split; [reflexivity|].
  destruct (destroy_worker_removes_row db_slot_shared 1 DockerNotFound _ Hnd eq_refl) as [H1 [H2 _]].
  split; [rewrite H1; reflexivity | exact H2].
Defined.

Lemma lifecycle_keeps_one_row_per_tenant_witness :
  NoDup (map wi_tenant (instances db_slot_shared)) /\
  NoDup (map wi_tenant (instances (snd (admin_start_worker db_slot_shared 0 300 true (inr "c-1")
                                          Started DockerOk)))).
Proof.
  assert (Hnd : NoDup (map wi_tenant (instances db_slot_shared)))
    by (repeat constructor; simpl; intuition discriminate).
  split; [exact Hnd|].
  exact (proj2 (proj2 (proj2 (proj2 (proj2 (proj2 (lifecycle_keeps_one_row_per_tenant
           db_slot_shared 0 300 true (inr "c-1") Started DockerOk Hnd))))))).
Defined.

Lemma admin_start_worker_runs_witness :
  exists i' d',
    admin_start_worker db_fresh 0 300 true (inr "c-1") Started DockerOk = (inr i', d') /\
    get_worker_instance d' 0 = Some i' /\
    (wi_status i' = RUNNING \/
     (get_worker_instance db_fresh 0 = Some i' /\ d' = db_fresh /\
      (wi_status i' = STARTING \/ wi_status i' = STOPPING))).
Proof.
  apply (admin_start_worker_runs db_fresh 0 300 "c-1"); [left; reflexivity | left; reflexivity|].
  intros _. exists 0. reflexivity.
Defined.
